(** * DocParse: a shallow embedding of [backend/docparse.py]

    The development follows the Python module top to bottom: Python values
    ([str], [int], [Optional]), the effects the module performs (clock reads,
    logging, library calls that may raise), the result model, the three
    processors and the engine.  All definitions come first; the statements
    proved about them follow. *)

From Stdlib Require Import List ZArith NArith Lia Bool String Ascii.
From Stdlib Require DecimalString.
Import ListNotations.

Set Implicit Arguments.

(* ================================================================== *)
(** ** Python strings *)
(* ================================================================== *)

(** A Python [str] is a sequence of Unicode code points; [len] counts them. *)
Definition char : Type := N.
Definition str : Type := list char.

(** A literal, written with the characters of a Rocq string. *)
Definition lit (s : string) : str := map N_of_ascii (list_ascii_of_string s).

Definition FF : char := 12%N.   (* '\f' *)
Definition NL : char := 10%N.   (* '\n' *)
Definition DOT : char := 46%N.  (* '.'  *)
Definition SLASH : char := 47%N. (* '/' *)

Definition str_eqb (a b : str) : bool :=
  if list_eq_dec N.eq_dec a b then true else false.

(** Truthiness of a [str]: the empty string is false. *)
Definition truthy (s : str) : bool :=
  match s with [] => false | _ :: _ => true end.

(** [len(s)] as a Python [int]. *)
Definition len {A : Type} (l : list A) : Z := Z.of_nat (List.length l).

(** The code points CPython's [str.strip()] and [str.split()] treat as
    whitespace (Py_UNICODE_ISSPACE). *)
Definition isspace (c : char) : bool :=
  ((9 <=? c) && (c <=? 13) || (28 <=? c) && (c <=? 32)
   || (c =? 133) || (c =? 160) || (c =? 5760)
   || (8192 <=? c) && (c <=? 8202)
   || (c =? 8232) || (c =? 8233) || (c =? 8239) || (c =? 8287)
   || (c =? 12288))%N.

Fixpoint lstrip (s : str) : str :=
  match s with
  | [] => []
  | c :: s' => if isspace c then lstrip s' else s
  end.

Definition rstrip (s : str) : str := rev (lstrip (rev s)).

(** [s.strip()] *)
Definition strip (s : str) : str := rstrip (lstrip s).

(** [s.split()] with no separator: the maximal runs of non-whitespace code
    points.  [cur] holds the token being read, last character first. *)
Fixpoint split_ws_from (cur : str) (s : str) : list str :=
  match s with
  | [] => match cur with [] => [] | _ :: _ => [rev cur] end
  | c :: s' =>
      if isspace c
      then match cur with
           | [] => split_ws_from [] s'
           | _ :: _ => rev cur :: split_ws_from [] s'
           end
      else split_ws_from (c :: cur) s'
  end.

Definition split_ws (s : str) : list str := split_ws_from [] s.

Fixpoint startswith (pre s : str) : bool :=
  match pre, s with
  | [], _ => true
  | _ :: _, [] => false
  | a :: pre', b :: s' => (a =? b)%N && startswith pre' s'
  end.

(** [s.find(sep)]: the index of the leftmost occurrence, if any. *)
Fixpoint find (sep s : str) : option nat :=
  if startswith sep s then Some 0
  else match s with
       | [] => None
       | _ :: s' => option_map S (find sep s')
       end.

(** [s.split(sep)] for a non-empty [sep]: cut at the leftmost occurrence and
    go on behind it.  Every cut consumes at least one code point, so
    [length s] rounds are enough. *)
Fixpoint split_rounds (n : nat) (sep s : str) : list str :=
  match n with
  | O => [s]
  | S n' =>
      match find sep s with
      | None => [s]
      | Some i => firstn i s :: split_rounds n' sep (skipn (i + List.length sep) s)
      end
  end.

Definition split (sep s : str) : list str := split_rounds (List.length s) sep s.

(** [sep.join(parts)] *)
Fixpoint join (sep : str) (parts : list str) : str :=
  match parts with
  | [] => []
  | [p] => p
  | p :: rest => p ++ sep ++ join sep rest
  end.

(** [s[i:j]] for [0 <= i <= j]. *)
Definition slice (s : str) (i j : nat) : str := firstn (j - i) (skipn i s).

(** [s.lower()] as CPython 3.11 computes it, from the tables of Unicode
    14.0.  [lower_runs] holds the code points whose lower case is another
    code point: every [step]-th code point from [first] to [last] goes to
    [target] and as far behind it as the code point is behind [first]. *)
Definition lower_runs : list (N * N * N * N) := [
  (65, 90, 1, 97); (192, 214, 1, 224); (216, 222, 1, 248); (256, 302, 2, 257);
  (306, 310, 2, 307); (313, 327, 2, 314); (330, 374, 2, 331); (376, 376, 1, 255);
  (377, 381, 2, 378); (385, 385, 1, 595); (386, 388, 2, 387); (390, 390, 1, 596);
  (391, 391, 1, 392); (393, 394, 1, 598); (395, 395, 1, 396); (398, 398, 1, 477);
  (399, 399, 1, 601); (400, 400, 1, 603); (401, 401, 1, 402); (403, 403, 1, 608);
  (404, 404, 1, 611); (406, 406, 1, 617); (407, 407, 1, 616); (408, 408, 1, 409);
  (412, 412, 1, 623); (413, 413, 1, 626); (415, 415, 1, 629); (416, 420, 2, 417);
  (422, 422, 1, 640); (423, 423, 1, 424); (425, 425, 1, 643); (428, 428, 1, 429);
  (430, 430, 1, 648); (431, 431, 1, 432); (433, 434, 1, 650); (435, 437, 2, 436);
  (439, 439, 1, 658); (440, 440, 1, 441); (444, 444, 1, 445); (452, 452, 1, 454);
  (453, 453, 1, 454); (455, 455, 1, 457); (456, 456, 1, 457); (458, 458, 1, 460);
  (459, 475, 2, 460); (478, 494, 2, 479); (497, 497, 1, 499); (498, 500, 2, 499);
  (502, 502, 1, 405); (503, 503, 1, 447); (504, 542, 2, 505); (544, 544, 1, 414);
  (546, 562, 2, 547); (570, 570, 1, 11365); (571, 571, 1, 572); (573, 573, 1, 410);
  (574, 574, 1, 11366); (577, 577, 1, 578); (579, 579, 1, 384); (580, 580, 1, 649);
  (581, 581, 1, 652); (582, 590, 2, 583); (880, 882, 2, 881); (886, 886, 1, 887);
  (895, 895, 1, 1011); (902, 902, 1, 940); (904, 906, 1, 941); (908, 908, 1, 972);
  (910, 911, 1, 973); (913, 929, 1, 945); (932, 939, 1, 964); (975, 975, 1, 983);
  (984, 1006, 2, 985); (1012, 1012, 1, 952); (1015, 1015, 1, 1016); (1017, 1017, 1, 1010);
  (1018, 1018, 1, 1019); (1021, 1023, 1, 891); (1024, 1039, 1, 1104); (1040, 1071, 1, 1072);
  (1120, 1152, 2, 1121); (1162, 1214, 2, 1163); (1216, 1216, 1, 1231); (1217, 1229, 2, 1218);
  (1232, 1326, 2, 1233); (1329, 1366, 1, 1377); (4256, 4293, 1, 11520); (4295, 4295, 1, 11559);
  (4301, 4301, 1, 11565); (5024, 5103, 1, 43888); (5104, 5109, 1, 5112); (7312, 7354, 1, 4304);
  (7357, 7359, 1, 4349); (7680, 7828, 2, 7681); (7838, 7838, 1, 223); (7840, 7934, 2, 7841);
  (7944, 7951, 1, 7936); (7960, 7965, 1, 7952); (7976, 7983, 1, 7968); (7992, 7999, 1, 7984);
  (8008, 8013, 1, 8000); (8025, 8031, 2, 8017); (8040, 8047, 1, 8032); (8072, 8079, 1, 8064);
  (8088, 8095, 1, 8080); (8104, 8111, 1, 8096); (8120, 8121, 1, 8112); (8122, 8123, 1, 8048);
  (8124, 8124, 1, 8115); (8136, 8139, 1, 8050); (8140, 8140, 1, 8131); (8152, 8153, 1, 8144);
  (8154, 8155, 1, 8054); (8168, 8169, 1, 8160); (8170, 8171, 1, 8058); (8172, 8172, 1, 8165);
  (8184, 8185, 1, 8056); (8186, 8187, 1, 8060); (8188, 8188, 1, 8179); (8486, 8486, 1, 969);
  (8490, 8490, 1, 107); (8491, 8491, 1, 229); (8498, 8498, 1, 8526); (8544, 8559, 1, 8560);
  (8579, 8579, 1, 8580); (9398, 9423, 1, 9424); (11264, 11311, 1, 11312); (11360, 11360, 1, 11361);
  (11362, 11362, 1, 619); (11363, 11363, 1, 7549); (11364, 11364, 1, 637); (11367, 11371, 2, 11368);
  (11373, 11373, 1, 593); (11374, 11374, 1, 625); (11375, 11375, 1, 592); (11376, 11376, 1, 594);
  (11378, 11378, 1, 11379); (11381, 11381, 1, 11382); (11390, 11391, 1, 575); (11392, 11490, 2, 11393);
  (11499, 11501, 2, 11500); (11506, 11506, 1, 11507); (42560, 42604, 2, 42561); (42624, 42650, 2, 42625);
  (42786, 42798, 2, 42787); (42802, 42862, 2, 42803); (42873, 42875, 2, 42874); (42877, 42877, 1, 7545);
  (42878, 42886, 2, 42879); (42891, 42891, 1, 42892); (42893, 42893, 1, 613); (42896, 42898, 2, 42897);
  (42902, 42920, 2, 42903); (42922, 42922, 1, 614); (42923, 42923, 1, 604); (42924, 42924, 1, 609);
  (42925, 42925, 1, 620); (42926, 42926, 1, 618); (42928, 42928, 1, 670); (42929, 42929, 1, 647);
  (42930, 42930, 1, 669); (42931, 42931, 1, 43859); (42932, 42946, 2, 42933); (42948, 42948, 1, 42900);
  (42949, 42949, 1, 642); (42950, 42950, 1, 7566); (42951, 42953, 2, 42952); (42960, 42960, 1, 42961);
  (42966, 42968, 2, 42967); (42997, 42997, 1, 42998); (65313, 65338, 1, 65345); (66560, 66599, 1, 66600);
  (66736, 66771, 1, 66776); (66928, 66938, 1, 66967); (66940, 66954, 1, 66979); (66956, 66962, 1, 66995);
  (66964, 66965, 1, 67003); (68736, 68786, 1, 68800); (71840, 71871, 1, 71872); (93760, 93791, 1, 93792);
  (125184, 125217, 1, 125218)
]%N.

(** The code points with the property Cased, and those with the property
    Case_Ignorable. *)
Definition cased_ranges : list (N * N) := [
  (65, 90); (97, 122); (170, 170); (181, 181); (186, 186); (192, 214);
  (216, 246); (248, 442); (444, 447); (452, 659); (661, 696); (704, 705);
  (736, 740); (837, 837); (880, 883); (886, 887); (890, 893); (895, 895);
  (902, 902); (904, 906); (908, 908); (910, 929); (931, 1013); (1015, 1153);
  (1162, 1327); (1329, 1366); (1376, 1416); (4256, 4293); (4295, 4295); (4301, 4301);
  (4304, 4346); (4349, 4351); (5024, 5109); (5112, 5117); (7296, 7304); (7312, 7354);
  (7357, 7359); (7424, 7615); (7680, 7957); (7960, 7965); (7968, 8005); (8008, 8013);
  (8016, 8023); (8025, 8025); (8027, 8027); (8029, 8029); (8031, 8061); (8064, 8116);
  (8118, 8124); (8126, 8126); (8130, 8132); (8134, 8140); (8144, 8147); (8150, 8155);
  (8160, 8172); (8178, 8180); (8182, 8188); (8305, 8305); (8319, 8319); (8336, 8348);
  (8450, 8450); (8455, 8455); (8458, 8467); (8469, 8469); (8473, 8477); (8484, 8484);
  (8486, 8486); (8488, 8488); (8490, 8493); (8495, 8500); (8505, 8505); (8508, 8511);
  (8517, 8521); (8526, 8526); (8544, 8575); (8579, 8580); (9398, 9449); (11264, 11492);
  (11499, 11502); (11506, 11507); (11520, 11557); (11559, 11559); (11565, 11565); (42560, 42605);
  (42624, 42653); (42786, 42887); (42891, 42894); (42896, 42954); (42960, 42961); (42963, 42963);
  (42965, 42969); (42997, 42998); (43000, 43002); (43824, 43866); (43868, 43880); (43888, 43967);
  (64256, 64262); (64275, 64279); (65313, 65338); (65345, 65370); (66560, 66639); (66736, 66771);
  (66776, 66811); (66928, 66938); (66940, 66954); (66956, 66962); (66964, 66965); (66967, 66977);
  (66979, 66993); (66995, 67001); (67003, 67004); (67456, 67456); (67459, 67461); (67463, 67504);
  (67506, 67514); (68736, 68786); (68800, 68850); (71840, 71903); (93760, 93823); (119808, 119892);
  (119894, 119964); (119966, 119967); (119970, 119970); (119973, 119974); (119977, 119980); (119982, 119993);
  (119995, 119995); (119997, 120003); (120005, 120069); (120071, 120074); (120077, 120084); (120086, 120092);
  (120094, 120121); (120123, 120126); (120128, 120132); (120134, 120134); (120138, 120144); (120146, 120485);
  (120488, 120512); (120514, 120538); (120540, 120570); (120572, 120596); (120598, 120628); (120630, 120654);
  (120656, 120686); (120688, 120712); (120714, 120744); (120746, 120770); (120772, 120779); (122624, 122633);
  (122635, 122654); (125184, 125251); (127280, 127305); (127312, 127337); (127344, 127369)
]%N.

Definition case_ignorable_ranges : list (N * N) := [
  (39, 39); (46, 46); (58, 58); (94, 94); (96, 96); (168, 168);
  (173, 173); (175, 175); (180, 180); (183, 184); (688, 879); (884, 885);
  (890, 890); (900, 901); (903, 903); (1155, 1161); (1369, 1369); (1375, 1375);
  (1425, 1469); (1471, 1471); (1473, 1474); (1476, 1477); (1479, 1479); (1524, 1524);
  (1536, 1541); (1552, 1562); (1564, 1564); (1600, 1600); (1611, 1631); (1648, 1648);
  (1750, 1757); (1759, 1768); (1770, 1773); (1807, 1807); (1809, 1809); (1840, 1866);
  (1958, 1968); (2027, 2037); (2042, 2042); (2045, 2045); (2070, 2093); (2137, 2139);
  (2184, 2184); (2192, 2193); (2200, 2207); (2249, 2306); (2362, 2362); (2364, 2364);
  (2369, 2376); (2381, 2381); (2385, 2391); (2402, 2403); (2417, 2417); (2433, 2433);
  (2492, 2492); (2497, 2500); (2509, 2509); (2530, 2531); (2558, 2558); (2561, 2562);
  (2620, 2620); (2625, 2626); (2631, 2632); (2635, 2637); (2641, 2641); (2672, 2673);
  (2677, 2677); (2689, 2690); (2748, 2748); (2753, 2757); (2759, 2760); (2765, 2765);
  (2786, 2787); (2810, 2815); (2817, 2817); (2876, 2876); (2879, 2879); (2881, 2884);
  (2893, 2893); (2901, 2902); (2914, 2915); (2946, 2946); (3008, 3008); (3021, 3021);
  (3072, 3072); (3076, 3076); (3132, 3132); (3134, 3136); (3142, 3144); (3146, 3149);
  (3157, 3158); (3170, 3171); (3201, 3201); (3260, 3260); (3263, 3263); (3270, 3270);
  (3276, 3277); (3298, 3299); (3328, 3329); (3387, 3388); (3393, 3396); (3405, 3405);
  (3426, 3427); (3457, 3457); (3530, 3530); (3538, 3540); (3542, 3542); (3633, 3633);
  (3636, 3642); (3654, 3662); (3761, 3761); (3764, 3772); (3782, 3782); (3784, 3789);
  (3864, 3865); (3893, 3893); (3895, 3895); (3897, 3897); (3953, 3966); (3968, 3972);
  (3974, 3975); (3981, 3991); (3993, 4028); (4038, 4038); (4141, 4144); (4146, 4151);
  (4153, 4154); (4157, 4158); (4184, 4185); (4190, 4192); (4209, 4212); (4226, 4226);
  (4229, 4230); (4237, 4237); (4253, 4253); (4348, 4348); (4957, 4959); (5906, 5908);
  (5938, 5939); (5970, 5971); (6002, 6003); (6068, 6069); (6071, 6077); (6086, 6086);
  (6089, 6099); (6103, 6103); (6109, 6109); (6155, 6159); (6211, 6211); (6277, 6278);
  (6313, 6313); (6432, 6434); (6439, 6440); (6450, 6450); (6457, 6459); (6679, 6680);
  (6683, 6683); (6742, 6742); (6744, 6750); (6752, 6752); (6754, 6754); (6757, 6764);
  (6771, 6780); (6783, 6783); (6823, 6823); (6832, 6862); (6912, 6915); (6964, 6964);
  (6966, 6970); (6972, 6972); (6978, 6978); (7019, 7027); (7040, 7041); (7074, 7077);
  (7080, 7081); (7083, 7085); (7142, 7142); (7144, 7145); (7149, 7149); (7151, 7153);
  (7212, 7219); (7222, 7223); (7288, 7293); (7376, 7378); (7380, 7392); (7394, 7400);
  (7405, 7405); (7412, 7412); (7416, 7417); (7468, 7530); (7544, 7544); (7579, 7679);
  (8125, 8125); (8127, 8129); (8141, 8143); (8157, 8159); (8173, 8175); (8189, 8190);
  (8203, 8207); (8216, 8217); (8228, 8228); (8231, 8231); (8234, 8238); (8288, 8292);
  (8294, 8303); (8305, 8305); (8319, 8319); (8336, 8348); (8400, 8432); (11388, 11389);
  (11503, 11505); (11631, 11631); (11647, 11647); (11744, 11775); (11823, 11823); (12293, 12293);
  (12330, 12333); (12337, 12341); (12347, 12347); (12441, 12446); (12540, 12542); (40981, 40981);
  (42232, 42237); (42508, 42508); (42607, 42610); (42612, 42621); (42623, 42623); (42652, 42655);
  (42736, 42737); (42752, 42785); (42864, 42864); (42888, 42890); (42994, 42996); (43000, 43001);
  (43010, 43010); (43014, 43014); (43019, 43019); (43045, 43046); (43052, 43052); (43204, 43205);
  (43232, 43249); (43263, 43263); (43302, 43309); (43335, 43345); (43392, 43394); (43443, 43443);
  (43446, 43449); (43452, 43453); (43471, 43471); (43493, 43494); (43561, 43566); (43569, 43570);
  (43573, 43574); (43587, 43587); (43596, 43596); (43632, 43632); (43644, 43644); (43696, 43696);
  (43698, 43700); (43703, 43704); (43710, 43711); (43713, 43713); (43741, 43741); (43756, 43757);
  (43763, 43764); (43766, 43766); (43867, 43871); (43881, 43883); (44005, 44005); (44008, 44008);
  (44013, 44013); (64286, 64286); (64434, 64450); (65024, 65039); (65043, 65043); (65056, 65071);
  (65106, 65106); (65109, 65109); (65279, 65279); (65287, 65287); (65294, 65294); (65306, 65306);
  (65342, 65342); (65344, 65344); (65392, 65392); (65438, 65439); (65507, 65507); (65529, 65531);
  (66045, 66045); (66272, 66272); (66422, 66426); (67456, 67461); (67463, 67504); (67506, 67514);
  (68097, 68099); (68101, 68102); (68108, 68111); (68152, 68154); (68159, 68159); (68325, 68326);
  (68900, 68903); (69291, 69292); (69446, 69456); (69506, 69509); (69633, 69633); (69688, 69702);
  (69744, 69744); (69747, 69748); (69759, 69761); (69811, 69814); (69817, 69818); (69821, 69821);
  (69826, 69826); (69837, 69837); (69888, 69890); (69927, 69931); (69933, 69940); (70003, 70003);
  (70016, 70017); (70070, 70078); (70089, 70092); (70095, 70095); (70191, 70193); (70196, 70196);
  (70198, 70199); (70206, 70206); (70367, 70367); (70371, 70378); (70400, 70401); (70459, 70460);
  (70464, 70464); (70502, 70508); (70512, 70516); (70712, 70719); (70722, 70724); (70726, 70726);
  (70750, 70750); (70835, 70840); (70842, 70842); (70847, 70848); (70850, 70851); (71090, 71093);
  (71100, 71101); (71103, 71104); (71132, 71133); (71219, 71226); (71229, 71229); (71231, 71232);
  (71339, 71339); (71341, 71341); (71344, 71349); (71351, 71351); (71453, 71455); (71458, 71461);
  (71463, 71467); (71727, 71735); (71737, 71738); (71995, 71996); (71998, 71998); (72003, 72003);
  (72148, 72151); (72154, 72155); (72160, 72160); (72193, 72202); (72243, 72248); (72251, 72254);
  (72263, 72263); (72273, 72278); (72281, 72283); (72330, 72342); (72344, 72345); (72752, 72758);
  (72760, 72765); (72767, 72767); (72850, 72871); (72874, 72880); (72882, 72883); (72885, 72886);
  (73009, 73014); (73018, 73018); (73020, 73021); (73023, 73029); (73031, 73031); (73104, 73105);
  (73109, 73109); (73111, 73111); (73459, 73460); (78896, 78904); (92912, 92916); (92976, 92982);
  (92992, 92995); (94031, 94031); (94095, 94111); (94176, 94177); (94179, 94180); (110576, 110579);
  (110581, 110587); (110589, 110590); (113821, 113822); (113824, 113827); (118528, 118573); (118576, 118598);
  (119143, 119145); (119155, 119170); (119173, 119179); (119210, 119213); (119362, 119364); (121344, 121398);
  (121403, 121452); (121461, 121461); (121476, 121476); (121499, 121503); (121505, 121519); (122880, 122886);
  (122888, 122904); (122907, 122913); (122915, 122916); (122918, 122922); (123184, 123197); (123566, 123566);
  (123628, 123631); (125136, 125142); (125252, 125259); (127995, 127999); (917505, 917505); (917536, 917631);
  (917760, 917999)
]%N.

Definition in_ranges (c : char) (ranges : list (N * N)) : bool :=
  existsb (fun r => (fst r <=? c) && (c <=? snd r))%N ranges.

Definition is_cased (c : char) : bool := in_ranges c cased_ranges.

Definition is_case_ignorable (c : char) : bool := in_ranges c case_ignorable_ranges.

(** [_PyUnicode_ToLowercase] *)
Definition lower_char (c : char) : char :=
  match List.find
          (fun r => let '(first, last, step, _) := r in
                    (first <=? c) && (c <=? last) && ((c - first) mod step =? 0))%N
          lower_runs with
  | Some (first, _, _, target) => (target + (c - first))%N
  | None => c
  end.

(** [_PyUnicode_ToLowerFull]: U+0130 alone lowers to two code points. *)
Definition lower_full (c : char) : str :=
  if (c =? 304)%N then [105; 775]%N else [lower_char c].

Fixpoint skip_case_ignorable (s : str) : str :=
  match s with
  | [] => []
  | c :: s' => if is_case_ignorable c then skip_case_ignorable s' else s
  end.

(** [handle_capital_sigma]: U+03A3 lowers to the final sigma U+03C2 when a
    cased code point stands before it and none behind it, code points that
    are Case_Ignorable being passed over on either side; [before] is what
    stands before, nearest first. *)
Definition handle_capital_sigma (before after : str) : char :=
  let final_sigma :=
    match skip_case_ignorable before with
    | c :: _ => is_cased c
    | [] => false
    end in
  let final_sigma :=
    final_sigma
    && match skip_case_ignorable after with
       | c :: _ => negb (is_cased c)
       | [] => true
       end in
  if final_sigma then 962%N else 963%N.

Fixpoint lower_from (before s : str) : str :=
  match s with
  | [] => []
  | c :: rest =>
      (if (c =? 931)%N then [handle_capital_sigma before rest] else lower_full c)
      ++ lower_from (c :: before) rest
  end.

Definition lower (s : str) : str := lower_from [] s.

(** [s.lstrip('.')] *)
Fixpoint lstrip_dot (s : str) : str :=
  match s with
  | [] => []
  | c :: s' => if (c =? DOT)%N then lstrip_dot s' else s
  end.

(** [s.rfind(c)] for a single character. *)
Fixpoint rfind_char (c : char) (s : str) : option nat :=
  match s with
  | [] => None
  | d :: s' =>
      match rfind_char c s' with
      | Some i => Some (S i)
      | None => if (d =? c)%N then Some 0 else None
      end
  end.

(* ================================================================== *)
(** ** Python integers, [Optional], indexing, [range] *)
(* ================================================================== *)

(** [a or b] on an [Optional[int]] and an [int]: [None] and [0] are both
    false and give [b]. *)
Definition or_int (a : option Z) (b : Z) : Z :=
  match a with
  | None => b
  | Some n => if (n =? 0)%Z then b else n
  end.

(** [a or ""] and [a or []] on the value a library hands back. *)
Definition or_str (a : option str) : str :=
  match a with None => [] | Some s => s end.

Definition or_list {A : Type} (a : option (list A)) : list A :=
  match a with None => [] | Some l => l end.

(** [range(n)] *)
Definition range (n : Z) : list Z := map Z.of_nat (seq 0 (Z.to_nat n)).

(** [range(start, stop, step)] for [step >= 1], as the iteration the [for]
    loop performs; at most [stop] values are produced. *)
Fixpoint range_from (rounds i stop step : nat) : list nat :=
  match rounds with
  | O => []
  | S r => if i <? stop then i :: range_from r (i + step) stop step else []
  end.

Definition range_step (start stop step : nat) : list nat :=
  range_from stop start stop step.

(* ================================================================== *)
(** ** Effects: exceptions, the clock, the log, the libraries *)
(* ================================================================== *)

(** Instances of [Exception] with what [str(e)] prints.  [KeyboardInterrupt]
    and [SystemExit] are not instances of [Exception] and are outside the
    model. *)
Inductive exn_class : Type :=
  | ValueError | IndexError | FileNotFoundError | OtherException.

Record exn : Type := Exn { exn_class_of : exn_class; exn_str : str }.

Definition exn_class_eqb (a b : exn_class) : bool :=
  match a, b with
  | ValueError, ValueError | IndexError, IndexError
  | FileNotFoundError, FileNotFoundError | OtherException, OtherException => true
  | _, _ => false
  end.

Inductive DocumentType : Type := PDF | TXT | DOCX.

Inductive ExtractionMethod : Type :=
  | PDFPLUMBER | PYMUPDF | PLAIN_TEXT | PYTHON_DOCX.

Inductive level : Type := INFO | WARNING | ERROR.

(** What a run leaves behind: log records, library entry points called, and
    the engine handing a path to a processor. *)
Inductive event : Type :=
  | EvLog (l : level)
  | EvOpen (m : ExtractionMethod)
  | EvDispatch (d : DocumentType).

(** A path of the POSIX flavour. *)
Definition Path : Type := str.

Definition cell : Type := option str.
Definition table : Type := list (list cell).

(** A [pdfplumber] page and a [fitz] page: what their methods give. *)
Record PlumberPage : Type := {
  pp_extract_text : exn + option str;
  pp_extract_tables : exn + option (list table)
}.

Record FitzPage : Type := { fp_get_text : exn + str }.

(** Everything outside the module: the file system as one snapshot, the
    clock by successive readings, and the three format libraries.
    [fs_stat]: the size of the file behind a path, [None] when there is no
    such file.  [stat_error]: the [OSError] that [os.stat] raises for a path
    and that [Path.exists] does not take for an answer (a name too long,
    a directory that may not be searched); [open_write]: the error that
    opening a path for writing, or the writing, raises. *)
Record World : Type := {
  fs_stat : Path -> option Z;
  stat_error : Path -> option exn;
  open_write : Path -> option exn;
  clock : nat -> Z;
  isoformat : Z -> str;
  pdfplumber_open : Path -> exn + list PlumberPage;
  fitz_open : Path -> exn + list FitzPage;
  open_read : Path -> str -> str -> exn + str;
  docx_Document : Path -> exn + list str
}.

(** [ticks]: clock readings taken so far; [trace]: events, latest first. *)
Record State : Type := { ticks : nat; trace : list event }.

Definition M (A : Type) : Type := World -> State -> (exn + A) * State.

Definition ret {A : Type} (a : A) : M A := fun _ s => (inr a, s).

Definition raise {A : Type} (e : exn) : M A := fun _ s => (inl e, s).

Definition bind {A B : Type} (m : M A) (f : A -> M B) : M B :=
  fun w s =>
    match m w s with
    | (inr a, s') => f a w s'
    | (inl e, s') => (inl e, s')
    end.

Declare Scope py_scope.
Delimit Scope py_scope with py.
Notation "x <- m ;; k" := (bind m (fun x => k))
  (at level 61, m at next level, right associativity) : py_scope.
Notation "m ;; k" := (bind m (fun _ => k))
  (at level 61, right associativity) : py_scope.
Open Scope py_scope.

(** [try: m  except Exception as e: h e] *)
Definition try_except {A : Type} (m : M A) (h : exn -> M A) : M A :=
  fun w s =>
    match m w s with
    | (inr a, s') => (inr a, s')
    | (inl e, s') => h e w s'
    end.

(** [try: m  except cls: h]; other classes pass through. *)
Definition try_except_class {A : Type} (c : exn_class) (m : M A) (h : M A) : M A :=
  fun w s =>
    match m w s with
    | (inr a, s') => (inr a, s')
    | (inl e, s') => if exn_class_eqb (exn_class_of e) c then h w s' else (inl e, s')
    end.

(** The outcome of a library call. *)
Definition call {A : Type} (f : World -> exn + A) : M A := fun w s => (f w, s).

Definition emit (ev : event) : M unit :=
  fun _ s => (inr tt, {| ticks := ticks s; trace := ev :: trace s |}).

Definition log (l : level) : M unit := emit (EvLog l).

(** [datetime.now()], in microseconds. *)
Definition datetime_now : M Z :=
  fun w s => (inr (clock w (ticks s)), {| ticks := S (ticks s); trace := trace s |}).

Definition now_isoformat : M str :=
  t <- datetime_now ;; call (fun w => inr (isoformat w t)).

(** [file_path.exists()]: [stat] is called; "no such file" is the answer
    [False], any other [OSError] is raised again. *)
Definition path_exists (p : Path) : M bool :=
  call (fun w =>
          match stat_error w p with
          | Some e => inl e
          | None => inr (match fs_stat w p with Some _ => true | None => false end)
          end).

(** [file_path.stat().st_size] *)
Definition stat_st_size (p : Path) : M Z :=
  fun w s =>
    match stat_error w p with
    | Some e => (inl e, s)
    | None =>
        match fs_stat w p with
        | Some n => (inr n, s)
        | None =>
            (inl (Exn FileNotFoundError (lit "[Errno 2] No such file or directory")), s)
        end
    end.

(** [l[i]] *)
Definition getitem {A : Type} (l : list A) (i : Z) : M A :=
  let k := if (i <? 0)%Z then (len l + i)%Z else i in
  match (if (k <? 0)%Z then None else nth_error l (Z.to_nat k)) with
  | Some a => ret a
  | None => raise (Exn IndexError (lit "list index out of range"))
  end.

(** [out = []; for x in l: out.append(f x)] *)
Fixpoint for_each {A B : Type} (f : A -> M B) (l : list A) : M (list B) :=
  match l with
  | [] => ret []
  | x :: rest => y <- f x ;; ys <- for_each f rest ;; ret (y :: ys)
  end.

(** [file_path.name] and [file_path.suffix] as [pathlib] computes them. *)
Definition path_name (p : Path) : str :=
  last (filter (fun c => negb (str_eqb c [] || str_eqb c [DOT])) (split [SLASH] p)) [].

Definition path_suffix (p : Path) : str :=
  let name := path_name p in
  match rfind_char DOT name with
  | Some i => if (0 <? i) && (i <? List.length name - 1) then skipn i name else []
  | None => []
  end.

Definition DocumentType_value (d : DocumentType) : str :=
  match d with PDF => lit "pdf" | TXT => lit "txt" | DOCX => lit "docx" end.

Definition ExtractionMethod_value (m : ExtractionMethod) : str :=
  match m with
  | PDFPLUMBER => lit "pdfplumber"
  | PYMUPDF => lit "pymupdf"
  | PLAIN_TEXT => lit "plain_text"
  | PYTHON_DOCX => lit "python_docx"
  end.

(** [DocumentType(v)]: the member with that value, or [ValueError]. *)
Definition DocumentType_call (v : str) : M DocumentType :=
  if str_eqb v (lit "pdf") then ret PDF
  else if str_eqb v (lit "txt") then ret TXT
  else if str_eqb v (lit "docx") then ret DOCX
  else raise (Exn ValueError (lit "'" ++ v ++ lit "' is not a valid DocumentType")).

(* ================================================================== *)
(** ** The result model *)
(* ================================================================== *)

Record ProcessingOptions : Type := {
  max_pages : option Z;
  preserve_formatting : bool;
  extract_tables : bool;
  extract_metadata : bool;
  encoding : str;
  error_handling : str
}.

(** [ProcessingOptions()] *)
Definition ProcessingOptions_default : ProcessingOptions := {|
  max_pages := None;
  preserve_formatting := false;
  extract_tables := true;
  extract_metadata := true;
  encoding := lit "utf-8";
  error_handling := lit "ignore"
|}.

(** [processing_time] is kept in microseconds, the unit of the clock;
    Python divides by 10^6 on the way out. *)
Record DocumentMetadata : Type := {
  filename : str;
  file_size : Z;
  total_pages : Z;
  pages_processed : Z;
  extraction_timestamp : str;
  extraction_method : str;
  processing_time : Z;
  document_type : str
}.

Record PageContent : Type := {
  page_number : Z;
  text : str;
  word_count : Z;
  character_count : Z;
  tables_count : Z;
  tables : list table
}.

Record ExtractionResult : Type := {
  metadata : DocumentMetadata;
  pages : list PageContent;
  success : bool;
  error_message : option str
}.

(** [ExtractionResult(metadata=..., pages=...)] with the defaults
    [success=True], [error_message=None]. *)
Definition ExtractionResult_ok (md : DocumentMetadata) (ps : list PageContent)
  : ExtractionResult :=
  {| metadata := md; pages := ps; success := true; error_message := None |}.

(** [PageContent(...)] as the three text-only loops build it from a text
    that is already trimmed. *)
Definition page_of_text (page_num : Z) (text : str) : PageContent := {|
  page_number := page_num + 1;
  text := text;
  word_count := if truthy text then len (split_ws text) else 0%Z;
  character_count := len text;
  tables_count := 0;
  tables := []
|}.

(** [min(options.max_pages or total_pages, total_pages)] *)
Definition pages_to_process_of (options : ProcessingOptions) (total_pages : Z) : Z :=
  Z.min (or_int (max_pages options) total_pages) total_pages.

(** The three [_create_error_metadata] methods differ in the document type
    only. *)
Definition create_error_metadata (d : DocumentType) (file_path : Path)
    (start_time : Z) : M DocumentMetadata :=
  ex <- path_exists file_path ;;
  size <- (if ex then stat_st_size file_path else ret 0%Z) ;;
  stamp <- now_isoformat ;;
  t <- datetime_now ;;
  ret {| filename := path_name file_path;
         file_size := size;
         total_pages := 0;
         pages_processed := 0;
         extraction_timestamp := stamp;
         extraction_method := lit "failed";
         processing_time := t - start_time;
         document_type := DocumentType_value d |}.

(** The [DocumentMetadata(...)] of a run that got through. *)
Definition create_metadata (d : DocumentType) (m : ExtractionMethod)
    (file_path : Path) (total processed start_time : Z) : M DocumentMetadata :=
  size <- stat_st_size file_path ;;
  stamp <- now_isoformat ;;
  t <- datetime_now ;;
  ret {| filename := path_name file_path;
         file_size := size;
         total_pages := total;
         pages_processed := processed;
         extraction_timestamp := stamp;
         extraction_method := ExtractionMethod_value m;
         processing_time := t - start_time;
         document_type := DocumentType_value d |}.

(** The abstract base class: what every processor offers. *)
Module DocumentProcessor.
Record t : Type := {
  extract_text : Path -> ProcessingOptions -> M ExtractionResult;
  supports_file_type : Path -> bool
}.
End DocumentProcessor.

(* ================================================================== *)
(** ** PDFProcessor *)
(* ================================================================== *)

Module PDFProcessor.

Definition supports_file_type (file_path : Path) : bool :=
  str_eqb (lower (path_suffix file_path)) (lit ".pdf").

Definition _create_error_metadata := create_error_metadata PDF.

Definition _extract_with_pdfplumber (file_path : Path)
    (options : ProcessingOptions) (start_time : Z) : M ExtractionResult :=
  emit (EvOpen PDFPLUMBER) ;;
  pdf_pages <- call (fun w => pdfplumber_open w file_path) ;;
  let total_pages := len pdf_pages in
  let pages_to_process := pages_to_process_of options total_pages in
  pages <- for_each (fun page_num =>
      page <- getitem pdf_pages page_num ;;
      extracted <- call (fun _ => pp_extract_text page) ;;
      let text := or_str extracted in
      tables <- (if extract_tables options
                 then found <- call (fun _ => pp_extract_tables page) ;;
                      ret (or_list found)
                 else ret []) ;;
      ret {| page_number := page_num + 1;
             text := strip text;
             word_count := if truthy (strip text) then len (split_ws text) else 0%Z;
             character_count := len (strip text);
             tables_count := len tables;
             tables := tables |})
    (range pages_to_process) ;;
  md <- create_metadata PDF PDFPLUMBER file_path total_pages pages_to_process start_time ;;
  ret (ExtractionResult_ok md pages).

Definition _extract_with_pymupdf (file_path : Path)
    (options : ProcessingOptions) (start_time : Z) : M ExtractionResult :=
  emit (EvOpen PYMUPDF) ;;
  doc <- call (fun w => fitz_open w file_path) ;;
  let total_pages := len doc in
  let pages_to_process := pages_to_process_of options total_pages in
  pages <- for_each (fun page_num =>
      page <- getitem doc page_num ;;
      text <- call (fun _ => fp_get_text page) ;;
      ret {| page_number := page_num + 1;
             text := strip text;
             word_count := if truthy (strip text) then len (split_ws text) else 0%Z;
             character_count := len (strip text);
             tables_count := 0;
             tables := [] |})
    (range pages_to_process) ;;
  md <- create_metadata PDF PYMUPDF file_path total_pages pages_to_process start_time ;;
  ret (ExtractionResult_ok md pages).

Definition extract_text (file_path : Path) (options : ProcessingOptions)
  : M ExtractionResult :=
  start_time <- datetime_now ;;
  try_except (_extract_with_pdfplumber file_path options start_time)
    (fun e =>
       log WARNING ;;
       try_except (_extract_with_pymupdf file_path options start_time)
         (fun fallback_error =>
            log ERROR ;;
            md <- _create_error_metadata file_path start_time ;;
            ret {| metadata := md;
                   pages := [];
                   success := false;
                   error_message :=
                     Some (lit "PDF extraction failed: " ++ exn_str e) |})).

Definition processor : DocumentProcessor.t := {|
  DocumentProcessor.extract_text := extract_text;
  DocumentProcessor.supports_file_type := supports_file_type
|}.

End PDFProcessor.

(* ================================================================== *)
(** ** TXTProcessor *)
(* ================================================================== *)

Module TXTProcessor.

Definition supports_file_type (file_path : Path) : bool :=
  str_eqb (lower (path_suffix file_path)) (lit ".txt").

Definition _create_error_metadata := create_error_metadata TXT.

(** [[page for page in pages if page.strip()]] *)
Definition keep_nonblank (pages : list str) : list str :=
  filter (fun page => truthy (strip page)) pages.

Definition _split_into_pages (content : str) : list str :=
  let pages := split [FF] content in
  if (1 <? len pages)%Z then keep_nonblank pages
  else
    let pages := split [NL; NL; NL] content in
    if (1 <? len pages)%Z then keep_nonblank pages
    else if (3000 <? len content)%Z
    then map (fun i => slice content i (i + 3000))
             (range_step 0 (List.length content) 3000)
    else if truthy (strip content) then [content] else [[]].

Definition extract_text (file_path : Path) (options : ProcessingOptions)
  : M ExtractionResult :=
  start_time <- datetime_now ;;
  try_except
    (emit (EvOpen PLAIN_TEXT) ;;
     content <- call (fun w => open_read w file_path (encoding options)
                                 (error_handling options)) ;;
     let pages_text := _split_into_pages content in
     let total_pages := len pages_text in
     let pages_to_process := pages_to_process_of options total_pages in
     pages <- for_each (fun page_num =>
         chunk <- getitem pages_text page_num ;;
         ret (page_of_text page_num (strip chunk)))
       (range pages_to_process) ;;
     md <- create_metadata TXT PLAIN_TEXT file_path total_pages pages_to_process start_time ;;
     ret (ExtractionResult_ok md pages))
    (fun e =>
       log ERROR ;;
       md <- _create_error_metadata file_path start_time ;;
       ret {| metadata := md;
              pages := [];
              success := false;
              error_message := Some (lit "TXT extraction failed: " ++ exn_str e) |}).

Definition processor : DocumentProcessor.t := {|
  DocumentProcessor.extract_text := extract_text;
  DocumentProcessor.supports_file_type := supports_file_type
|}.

End TXTProcessor.

(* ================================================================== *)
(** ** DOCXProcessor *)
(* ================================================================== *)

Module DOCXProcessor.

Definition supports_file_type (file_path : Path) : bool :=
  str_eqb (lower (path_suffix file_path)) (lit ".docx").

Definition _create_error_metadata := create_error_metadata DOCX.

(** The [for paragraph in doc.paragraphs] loop over the two lists it
    appends to. *)
Fixpoint group_loop (paragraphs : list str) (pages : list str)
    (current_page : list str) : list str * list str :=
  match paragraphs with
  | [] => (pages, current_page)
  | paragraph :: rest =>
      let text := strip paragraph in
      if truthy text then group_loop rest pages (current_page ++ [text])
      else match current_page with
           | _ :: _ => group_loop rest (pages ++ [join [NL] current_page]) []
           | [] => group_loop rest pages current_page
           end
  end.

Definition _group_into_pages (paragraphs : list str)
    (options : ProcessingOptions) : list str :=
  let '(pages, current_page) := group_loop paragraphs [] [] in
  let pages :=
    match current_page with
    | _ :: _ => pages ++ [join [NL] current_page]
    | [] => pages
    end in
  let pages :=
    match pages, paragraphs with
    | [], _ :: _ =>
        let all_text :=
          join [NL] (filter (fun p => truthy (strip p)) paragraphs) in
        if truthy all_text then [all_text] else [[]]
    | _, _ => pages
    end in
  match pages with
  | [] => [[]]
  | _ :: _ => pages
  end.

Definition extract_text (file_path : Path) (options : ProcessingOptions)
  : M ExtractionResult :=
  start_time <- datetime_now ;;
  try_except
    (emit (EvOpen PYTHON_DOCX) ;;
     paragraphs <- call (fun w => docx_Document w file_path) ;;
     let pages_text := _group_into_pages paragraphs options in
     let total_pages := len pages_text in
     let pages_to_process := pages_to_process_of options total_pages in
     pages <- for_each (fun page_num =>
         chunk <- getitem pages_text page_num ;;
         ret (page_of_text page_num chunk))
       (range pages_to_process) ;;
     md <- create_metadata DOCX PYTHON_DOCX file_path total_pages pages_to_process start_time ;;
     ret (ExtractionResult_ok md pages))
    (fun e =>
       log ERROR ;;
       md <- _create_error_metadata file_path start_time ;;
       ret {| metadata := md;
              pages := [];
              success := false;
              error_message := Some (lit "DOCX extraction failed: " ++ exn_str e) |}).

Definition processor : DocumentProcessor.t := {|
  DocumentProcessor.extract_text := extract_text;
  DocumentProcessor.supports_file_type := supports_file_type
|}.

End DOCXProcessor.

(* ================================================================== *)
(** ** DocParseEngine *)
(* ================================================================== *)

Module DocParseEngine.

(** [self.processors] *)
Definition processors (d : DocumentType) : DocumentProcessor.t :=
  match d with
  | PDF => PDFProcessor.processor
  | TXT => TXTProcessor.processor
  | DOCX => DOCXProcessor.processor
  end.

Definition get_supported_extensions : list str :=
  map DocumentType_value [PDF; TXT; DOCX].

(** [file_path.suffix.lower().lstrip('.')] *)
Definition extension_of (file_path : Path) : str :=
  lstrip_dot (lower (path_suffix file_path)).

Definition is_supported_file (file_path : Path) : M bool :=
  let extension := extension_of file_path in
  try_except_class ValueError
    (doc_type <- DocumentType_call extension ;;
     ret (DocumentProcessor.supports_file_type (processors doc_type) file_path))
    (ret false).

Definition extract_text (file_path : Path) (options : option ProcessingOptions)
  : M ExtractionResult :=
  let options :=
    match options with Some o => o | None => ProcessingOptions_default end in
  log INFO ;;
  ex <- path_exists file_path ;;
  if negb ex then
    log ERROR ;;
    stamp <- now_isoformat ;;
    ret {| metadata := {| filename := path_name file_path;
                          file_size := 0;
                          total_pages := 0;
                          pages_processed := 0;
                          extraction_timestamp := stamp;
                          extraction_method := lit "failed";
                          processing_time := 0;
                          document_type := lit "unknown" |};
           pages := [];
           success := false;
           error_message := Some (lit "File not found") |}
  else
    let extension := extension_of file_path in
    looked_up <- try_except_class ValueError
      (doc_type <- DocumentType_call extension ;; ret (inr doc_type))
      (log ERROR ;;
       size <- stat_st_size file_path ;;
       stamp <- now_isoformat ;;
       ret (inl {| metadata := {| filename := path_name file_path;
                                  file_size := size;
                                  total_pages := 0;
                                  pages_processed := 0;
                                  extraction_timestamp := stamp;
                                  extraction_method := lit "failed";
                                  processing_time := 0;
                                  document_type := extension |};
                   pages := [];
                   success := false;
                   error_message :=
                     Some (lit "Unsupported file type: " ++ extension) |})) ;;
    match looked_up with
    | inl failure => ret failure
    | inr doc_type =>
        emit (EvDispatch doc_type) ;;
        result <- DocumentProcessor.extract_text (processors doc_type)
                    file_path options ;;
        log (if success result then INFO else ERROR) ;;
        ret result
    end.

End DocParseEngine.

(** [extract_document(file_path, max_pages)] with no further keywords. *)
Definition extract_document (file_path : Path) (max_pages : option Z)
  : M ExtractionResult :=
  DocParseEngine.extract_text file_path
    (Some {| max_pages := max_pages;
             preserve_formatting := false;
             extract_tables := true;
             extract_metadata := true;
             encoding := lit "utf-8";
             error_handling := lit "ignore" |}).

Definition get_supported_formats : list str :=
  DocParseEngine.get_supported_extensions.

(** A fresh run: no clock reading taken, nothing recorded. *)
Definition initial : State := {| ticks := 0; trace := [] |}.

(* ================================================================== *)
(** ** The segmentation as the specification words it *)
(* ================================================================== *)

Module Worded.

(** The length of the run of newlines [s] starts with. *)
Fixpoint newline_run (s : str) : nat :=
  match s with
  | c :: s' => if (c =? NL)%N then S (newline_run s') else 0
  | [] => 0
  end.

(** Cut [s] at every maximal run of three or more newlines.  [skip]
    counts the newlines of the current run still to pass over. *)
Fixpoint split_newline_runs_from (cur : str) (skip : nat) (s : str) : list str :=
  match s with
  | [] => [rev cur]
  | c :: s' =>
      match skip with
      | S k => split_newline_runs_from cur k s'
      | O =>
          if 3 <=? newline_run s
          then rev cur :: split_newline_runs_from [] (newline_run s - 1) s'
          else split_newline_runs_from (c :: cur) 0 s'
      end
  end.

Definition split_newline_runs (s : str) : list str :=
  split_newline_runs_from [] 0 s.

(** Steps 1 to 4 of the text segmentation algorithm: a split is used when
    more than one non-blank chunk comes out of it. *)
Definition split_into_pages (content : str) : list str :=
  let chunks := TXTProcessor.keep_nonblank (split [FF] content) in
  if (1 <? len chunks)%Z then chunks
  else
    let chunks := TXTProcessor.keep_nonblank (split_newline_runs content) in
    if (1 <? len chunks)%Z then chunks
    else if (3000 <? len content)%Z
    then map (fun i => slice content i (i + 3000))
             (range_step 0 (List.length content) 3000)
    else if truthy (strip content) then [content] else [[]].

(** The file's extension as it is written in the name, without the dot. *)
Definition raw_extension (file_path : Path) : str :=
  lstrip_dot (path_suffix file_path).

End Worded.

(* ================================================================== *)
(** ** Concrete worlds *)
(* ================================================================== *)

Module Scenario.

Definition boom (msg : string) : exn := Exn OtherException (lit msg).

(** One file of [size] bytes (or none) looked at through each library. *)
Definition world (size : option Z)
    (plumber : exn + list PlumberPage) (fitz : exn + list FitzPage)
    (txt : exn + str) (docx : exn + list str) : World := {|
  fs_stat := fun _ => size;
  stat_error := fun _ => None;
  open_write := fun _ => None;
  clock := fun k => (1000 * Z.of_nat k)%Z;
  isoformat := fun _ => lit "2024-05-01T12:00:00";
  pdfplumber_open := fun _ => plumber;
  fitz_open := fun _ => fitz;
  open_read := fun _ _ _ => txt;
  docx_Document := fun _ => docx
|}.

Definition not_that_format {A : Type} : exn + A := inl (boom "not this format").

Definition txt_world (content : str) : World :=
  world (Some (len content)) not_that_format not_that_format
        (inr content) not_that_format.

Definition docx_world (paragraphs : list str) : World :=
  world (Some 2048%Z) not_that_format not_that_format
        not_that_format (inr paragraphs).

Definition pdf_world (plumber : exn + list PlumberPage)
    (fitz : exn + list FitzPage) : World :=
  world (Some 4096%Z) plumber fitz not_that_format not_that_format.

(** The error of [os.stat] for a name longer than the file system takes. *)
Definition name_too_long : exn :=
  Exn OtherException (lit "[Errno 36] File name too long").

(** A path that cannot be looked at: [stat] and every library fail on the
    name. *)
Definition unreadable_world : World := {|
  fs_stat := fun _ => None;
  stat_error := fun _ => Some name_too_long;
  open_write := fun _ => Some name_too_long;
  clock := fun k => (1000 * Z.of_nat k)%Z;
  isoformat := fun _ => lit "2024-05-01T12:00:00";
  pdfplumber_open := fun _ => inl name_too_long;
  fitz_open := fun _ => inl name_too_long;
  open_read := fun _ _ _ => inl name_too_long;
  docx_Document := fun _ => inl name_too_long
|}.

(** A name of 300 characters. *)
Definition long_name : Path := repeat 97%N 296 ++ lit ".pdf".

Definition no_file_world : World :=
  world None not_that_format not_that_format
        (inl (Exn FileNotFoundError (lit "[Errno 2] No such file or directory")))
        not_that_format.

Definition plumber_page (t : string) : PlumberPage :=
  {| pp_extract_text := inr (Some (lit t)); pp_extract_tables := inr (Some []) |}.

Definition fitz_page (t : string) : FitzPage :=
  {| fp_get_text := inr (lit t) |}.

Definition five_pages : list PlumberPage :=
  map plumber_page ["one "; " two"; "three"; "four"; "five"]%string.

Definition options_with (n : option Z) : ProcessingOptions := {|
  max_pages := n;
  preserve_formatting := false;
  extract_tables := true;
  extract_metadata := true;
  encoding := lit "utf-8";
  error_handling := lit "ignore"
|}.

(** ["Page one content\f\fPage two content"] *)
Definition two_pages : str :=
  lit "Page one content" ++ [FF; FF] ++ lit "Page two content".

(** ["a\n\n\nb\f"] and ["a\n\n\n\nb"] *)
Definition trailing_form_feed : str := lit "a" ++ [NL; NL; NL] ++ lit "b" ++ [FF].
Definition four_newlines : str := lit "a" ++ [NL; NL; NL; NL] ++ lit "b".

(** 3001 letters with no separator. *)
Definition long_line : str := repeat 97%N 3001.

End Scenario.

(* ================================================================== *)
(** ** Vocabulary of the statements *)
(* ================================================================== *)

Unset Implicit Arguments.

(** No whitespace at either end. *)
Definition trimmed (t : str) : Prop :=
  (forall c r, t = c :: r -> isspace c = false)
  /\ (forall c r, t = r ++ [c] -> isspace c = false).

(** [sep] occurs in [s]. *)
Definition occurs (sep s : str) : Prop := exists a b, s = a ++ sep ++ b.

(** What the result model asks of one page. *)
Definition page_well_formed (pc : PageContent) : Prop :=
  trimmed (text pc)
  /\ (word_count pc = 0%Z <-> text pc = [])
  /\ (text pc <> [] -> word_count pc = len (split_ws (text pc)))
  /\ character_count pc = len (text pc)
  /\ tables_count pc = len (tables pc).

(** The method [extract_text] of the processor registered for [d]. *)
Definition run_processor (d : DocumentType) : Path -> ProcessingOptions -> M ExtractionResult :=
  DocumentProcessor.extract_text (DocParseEngine.processors d).

(** A trimmed text with something in it. *)
Definition solid (t : str) : Prop := trimmed t /\ t <> [].

(** The number of pages the processor for [d] finds in the document, by
    the backend [m] that read it. *)
Definition identified (d : DocumentType) (w : World) (p : Path)
    (o : ProcessingOptions) (m : ExtractionMethod) (n : Z) : Prop :=
  match d, m with
  | PDF, PDFPLUMBER => exists pdf_pages, pdfplumber_open w p = inr pdf_pages /\ n = len pdf_pages
  | PDF, PYMUPDF => exists doc, fitz_open w p = inr doc /\ n = len doc
  | TXT, PLAIN_TEXT =>
      exists content,
        open_read w p (encoding o) (error_handling o) = inr content
        /\ n = len (TXTProcessor._split_into_pages content)
  | DOCX, PYTHON_DOCX =>
      exists paragraphs,
        docx_Document w p = inr paragraphs
        /\ n = len (DOCXProcessor._group_into_pages paragraphs o)
  | _, _ => False
  end.

(** The shape of a result whose [success] is false. *)
Definition failure_shaped (d : DocumentType) (r : ExtractionResult) : Prop :=
  success r = false
  /\ pages r = []
  /\ (exists msg, error_message r = Some msg)
  /\ total_pages (metadata r) = 0%Z
  /\ pages_processed (metadata r) = 0%Z
  /\ extraction_method (metadata r) = lit "failed"
  /\ document_type (metadata r) = DocumentType_value d.

(** The shape of a result that the backend [m] of the processor for [d]
    produced. *)
Definition success_shaped (d : DocumentType) (w : World) (p : Path)
    (o : ProcessingOptions) (m : ExtractionMethod) (r : ExtractionResult) : Prop :=
  success r = true
  /\ error_message r = None
  /\ identified d w p o m (total_pages (metadata r))
  /\ extraction_method (metadata r) = ExtractionMethod_value m
  /\ pages_processed (metadata r) = pages_to_process_of o (total_pages (metadata r))
  /\ List.length (pages r) = Z.to_nat (pages_processed (metadata r))
  /\ Forall page_well_formed (pages r)
  /\ document_type (metadata r) = DocumentType_value d.

(** The member of [DocumentType] with value [v], if there is one. *)
Definition DocumentType_of_value (v : str) : option DocumentType :=
  if str_eqb v (lit "pdf") then Some PDF
  else if str_eqb v (lit "txt") then Some TXT
  else if str_eqb v (lit "docx") then Some DOCX
  else None.

(** [ProcessingOptions()] stands in for a missing argument. *)
Definition options_or_default (options : option ProcessingOptions) : ProcessingOptions :=
  match options with Some o => o | None => ProcessingOptions_default end.

(** The state after the engine's own log records. *)
Definition logged (ls : list level) (s : State) : State :=
  {| ticks := ticks s; trace := map EvLog ls ++ trace s |}.

(** Between [before] and [after] nothing but log records was left behind:
    no processor was handed the path and no library was called. *)
Definition no_processor_called (before after : State) : Prop :=
  exists new,
    trace after = new ++ trace before
    /\ forall ev, In ev new -> exists l, ev = EvLog l.

(** The two results the engine builds itself. *)
Definition not_found_result (w : World) (p : Path) (s : State) : ExtractionResult :=
  {| metadata := {| filename := path_name p;
                    file_size := 0;
                    total_pages := 0;
                    pages_processed := 0;
                    extraction_timestamp := isoformat w (clock w (ticks s));
                    extraction_method := lit "failed";
                    processing_time := 0;
                    document_type := lit "unknown" |};
     pages := [];
     success := false;
     error_message := Some (lit "File not found") |}.

Definition unsupported_result (w : World) (p : Path) (size : Z) (s : State)
  : ExtractionResult :=
  {| metadata := {| filename := path_name p;
                    file_size := size;
                    total_pages := 0;
                    pages_processed := 0;
                    extraction_timestamp := isoformat w (clock w (ticks s));
                    extraction_method := lit "failed";
                    processing_time := 0;
                    document_type := DocParseEngine.extension_of p |};
     pages := [];
     success := false;
     error_message :=
       Some (lit "Unsupported file type: " ++ DocParseEngine.extension_of p) |}.

(** The same options with another [max_pages]. *)
Definition with_max_pages (o : ProcessingOptions) (n : option Z) : ProcessingOptions :=
  {| max_pages := n;
     preserve_formatting := preserve_formatting o;
     extract_tables := extract_tables o;
     extract_metadata := extract_metadata o;
     encoding := encoding o;
     error_handling := error_handling o |}.

(** What holds of every result, successful or not. *)
Definition result_consistent (r : ExtractionResult) : Prop :=
  (success r = true <-> error_message r = None)
  /\ (success r = false -> pages r = [] /\ pages_processed (metadata r) = 0%Z).

(** No run of [lower_runs] starts from, or arrives at, the code point. *)
Definition runs_avoid (x : char) : bool :=
  forallb (fun r => let '(first, last, _, target) := r in
                    negb ((first <=? x) && (x <=? last))
                    && negb ((target <=? x) && (x <=? target + (last - first))))%N
          lower_runs.

(** Whether a cased code point stands before, the ignorable ones passed
    over: all that lowering takes from what stands before. *)
Definition cased_before (before : str) : bool :=
  match skip_case_ignorable before with
  | c :: _ => is_cased c
  | [] => false
  end.
(* ================================================================== *)
(** ** A processor's run as a value *)
(* ================================================================== *)

(** The outcomes of a loop, in order: the first error, or all results. *)
Fixpoint collect {A : Type} (l : list (exn + A)) : exn + list A :=
  match l with
  | [] => inr []
  | inl e :: _ => inl e
  | inr a :: rest =>
      match collect rest with
      | inl e => inl e
      | inr others => inr (a :: others)
      end
  end.

(** The items of a list with their indices, from [start] on. *)
Fixpoint numbered_from {A : Type} (start : nat) (l : list A) : list (Z * A) :=
  match l with
  | [] => []
  | x :: rest => (Z.of_nat start, x) :: numbered_from (S start) rest
  end.

Definition numbered {A : Type} (l : list A) : list (Z * A) := numbered_from 0 l.

(** The page the primary PDF loop makes of [page], or the error of one of
    its two calls. *)
Definition plumber_page_content (o : ProcessingOptions) (page_num : Z)
    (page : PlumberPage) : exn + PageContent :=
  match pp_extract_text page with
  | inl e => inl e
  | inr extracted =>
      let raw := or_str extracted in
      match (if extract_tables o
             then match pp_extract_tables page with
                  | inl e => inl e
                  | inr found => inr (or_list found)
                  end
             else inr []) with
      | inl e => inl e
      | inr tbls =>
          inr {| page_number := page_num + 1;
                 text := strip raw;
                 word_count := if truthy (strip raw) then len (split_ws raw) else 0%Z;
                 character_count := len (strip raw);
                 tables_count := len tbls;
                 tables := tbls |}
      end
  end.

Definition fitz_page_content (page_num : Z) (page : FitzPage) : exn + PageContent :=
  match fp_get_text page with
  | inl e => inl e
  | inr raw =>
      inr {| page_number := page_num + 1;
             text := strip raw;
             word_count := if truthy (strip raw) then len (split_ws raw) else 0%Z;
             character_count := len (strip raw);
             tables_count := 0;
             tables := [] |}
  end.

(** What the backend [m] finds in the document: an error on opening it, or
    one page in the making for each page or chunk. *)
Definition document_units (w : World) (p : Path) (o : ProcessingOptions)
    (m : ExtractionMethod) : exn + list (Z -> exn + PageContent) :=
  match m with
  | PDFPLUMBER =>
      match pdfplumber_open w p with
      | inl e => inl e
      | inr pdf_pages =>
          inr (map (fun page i => plumber_page_content o i page) pdf_pages)
      end
  | PYMUPDF =>
      match fitz_open w p with
      | inl e => inl e
      | inr doc => inr (map (fun page i => fitz_page_content i page) doc)
      end
  | PLAIN_TEXT =>
      match open_read w p (encoding o) (error_handling o) with
      | inl e => inl e
      | inr content =>
          inr (map (fun chunk i => inr (page_of_text i (strip chunk)))
                   (TXTProcessor._split_into_pages content))
      end
  | PYTHON_DOCX =>
      match docx_Document w p with
      | inl e => inl e
      | inr paragraphs =>
          inr (map (fun chunk i => inr (page_of_text i chunk))
                   (DOCXProcessor._group_into_pages paragraphs o))
      end
  end.

(** The pages the loop of [m] builds: those of the first
    [pages_to_process] units. *)
Definition built_pages (o : ProcessingOptions)
    (units : list (Z -> exn + PageContent)) : exn + list PageContent :=
  collect (map (fun '(i, build) => build i)
               (firstn (Z.to_nat (pages_to_process_of o (len units)))
                       (numbered units))).

(** The state once the backend [m] was called. *)
Definition opened (m : ExtractionMethod) (s : State) : State :=
  {| ticks := ticks s; trace := EvOpen m :: trace s |}.

(** The state two clock readings later. *)
Definition stamped (s : State) : State :=
  {| ticks := S (S (ticks s)); trace := trace s |}.

(** The metadata of a run that got through, built in state [s]. *)
Definition metadata_at (w : World) (p : Path) (d : DocumentType)
    (m : ExtractionMethod) (size total processed start_time : Z) (s : State)
  : DocumentMetadata :=
  {| filename := path_name p;
     file_size := size;
     total_pages := total;
     pages_processed := processed;
     extraction_timestamp := isoformat w (clock w (ticks s));
     extraction_method := ExtractionMethod_value m;
     processing_time := clock w (S (ticks s)) - start_time;
     document_type := DocumentType_value d |}.

(** What [stat().st_size] gives for a path. *)
Definition stat_size (w : World) (p : Path) : exn + Z :=
  match stat_error w p with
  | Some e => inl e
  | None =>
      match fs_stat w p with
      | Some n => inr n
      | None => inl (Exn FileNotFoundError (lit "[Errno 2] No such file or directory"))
      end
  end.

(** The document type a backend belongs to. *)
Definition method_owner (m : ExtractionMethod) : DocumentType :=
  match m with
  | PDFPLUMBER | PYMUPDF => PDF
  | PLAIN_TEXT => TXT
  | PYTHON_DOCX => DOCX
  end.

(** One attempt with the backend [m], from the call of the library to the
    result: what it returns or raises, and the state it leaves. *)
Definition attempt (m : ExtractionMethod) (p : Path) (o : ProcessingOptions)
    (start_time : Z) : M ExtractionResult :=
  fun w s =>
    match document_units w p o m with
    | inl e => (inl e, opened m s)
    | inr units =>
        match built_pages o units with
        | inl e => (inl e, opened m s)
        | inr pages =>
            match stat_size w p with
            | inl e => (inl e, opened m s)
            | inr size =>
                (inr (ExtractionResult_ok
                        (metadata_at w p (method_owner m) m size (len units)
                           (pages_to_process_of o (len units)) start_time (opened m s))
                        pages),
                 stamped (opened m s))
            end
        end
    end.

(** The state one clock reading later. *)
Definition started (s : State) : State :=
  {| ticks := S (ticks s); trace := trace s |}.

(** The failure a processor's [except] block builds in state [s]. *)
Definition failure_at (w : World) (p : Path) (d : DocumentType) (msg : str)
    (start_time : Z) (s : State) : ExtractionResult :=
  {| metadata :=
       {| filename := path_name p;
          file_size := match fs_stat w p with Some size => size | None => 0%Z end;
          total_pages := 0;
          pages_processed := 0;
          extraction_timestamp := isoformat w (clock w (ticks s));
          extraction_method := lit "failed";
          processing_time := clock w (S (ticks s)) - start_time;
          document_type := DocumentType_value d |};
     pages := [];
     success := false;
     error_message := Some msg |}.

(** What a processor's [except] block ends in, entered in state [s]: the
    failure, or the error of [exists] when the path cannot be looked at. *)
Definition handled (w : World) (p : Path) (d : DocumentType) (msg : str)
    (start_time : Z) (s : State) : (exn + ExtractionResult) * State :=
  match stat_error w p with
  | Some e => (inl e, s)
  | None => (inr (failure_at w p d msg start_time s), stamped s)
  end.

(** The prefix each processor puts before the error's own text. *)
Definition failure_prefix (d : DocumentType) : str :=
  match d with
  | PDF => lit "PDF extraction failed: "
  | TXT => lit "TXT extraction failed: "
  | DOCX => lit "DOCX extraction failed: "
  end.

(** The backend a processor tries first. *)
Definition primary_method (d : DocumentType) : ExtractionMethod :=
  match d with PDF => PDFPLUMBER | TXT => PLAIN_TEXT | DOCX => PYTHON_DOCX end.

(** The backends a processor tries, in order. *)
Definition methods_of (d : DocumentType) : list ExtractionMethod :=
  match d with
  | PDF => [PDFPLUMBER; PYMUPDF]
  | TXT => [PLAIN_TEXT]
  | DOCX => [PYTHON_DOCX]
  end.

(** [1, 2, ..., n] *)
Definition one_to (n : nat) : list Z := map (fun i => Z.of_nat i + 1)%Z (seq 0 n).

(** The world [w] with another answer of [pdfplumber.open]. *)
Definition with_pdfplumber (w : World) (answer : exn + list PlumberPage) : World :=
  {| fs_stat := fs_stat w;
     stat_error := stat_error w;
     open_write := open_write w;
     clock := clock w;
     isoformat := isoformat w;
     pdfplumber_open := fun _ => answer;
     fitz_open := fitz_open w;
     open_read := open_read w;
     docx_Document := docx_Document w |}.

(** A page without tables. *)
Definition no_tables (pc : PageContent) : Prop :=
  tables pc = [] /\ tables_count pc = 0%Z.

(** Whitespace only (the empty text included). *)
Definition blank (s : str) : Prop := forall c, In c s -> isspace c = true.

(** The paragraphs the DOCX grouping keeps: trimmed, and the blank ones
    left out. *)
Definition kept_paragraphs (paragraphs : list str) : list str :=
  filter truthy (map strip paragraphs).

(** The words of a list of texts, in order. *)
Definition words_of (texts : list str) : list str :=
  List.concat (map split_ws texts).

(** The sum of the [word_count]s of some pages. *)
Definition total_words (pages : list PageContent) : Z :=
  fold_right Z.add 0%Z (map word_count pages).

(* ================================================================== *)
(** ** [to_dict]: results as Python dictionaries *)
(* ================================================================== *)

(** The values a result is made of once it is a dictionary.  A [float] is
    kept as the number of microseconds it stands for, the unit of
    [processing_time] in this model; a dictionary keeps its keys in the
    order they were inserted. *)
#[warnings="-register-all"]
Inductive pyvalue : Type :=
  | PyNone
  | PyBool (b : bool)
  | PyInt (n : Z)
  | PyFloat (micros : Z)
  | PyStr (s : str)
  | PyList (items : list pyvalue)
  | PyDict (entries : list (str * pyvalue)).

(** [d[key]], if the key is there. *)
Fixpoint dict_get (key : str) (entries : list (str * pyvalue)) : option pyvalue :=
  match entries with
  | [] => None
  | (k, v) :: rest => if str_eqb k key then Some v else dict_get key rest
  end.

(** [v[key]] for a value that is a dictionary. *)
Definition value_at (key : str) (v : pyvalue) : option pyvalue :=
  match v with PyDict entries => dict_get key entries | _ => None end.

Definition dict_keys (v : pyvalue) : list str :=
  match v with PyDict entries => map fst entries | _ => [] end.

Definition optional_str (o : option str) : pyvalue :=
  match o with None => PyNone | Some s => PyStr s end.

Definition table_value (t : table) : pyvalue :=
  PyList (map (fun row => PyList (map optional_str row)) t).

(** [DocumentMetadata.to_dict]: [asdict(self)] *)
Definition DocumentMetadata_to_dict (md : DocumentMetadata) : pyvalue :=
  PyDict [ (lit "filename", PyStr (filename md));
           (lit "file_size", PyInt (file_size md));
           (lit "total_pages", PyInt (total_pages md));
           (lit "pages_processed", PyInt (pages_processed md));
           (lit "extraction_timestamp", PyStr (extraction_timestamp md));
           (lit "extraction_method", PyStr (extraction_method md));
           (lit "processing_time", PyFloat (processing_time md));
           (lit "document_type", PyStr (document_type md)) ].

(** [PageContent.to_dict]: [asdict(self)] *)
Definition PageContent_to_dict (pc : PageContent) : pyvalue :=
  PyDict [ (lit "page_number", PyInt (page_number pc));
           (lit "text", PyStr (text pc));
           (lit "word_count", PyInt (word_count pc));
           (lit "character_count", PyInt (character_count pc));
           (lit "tables_count", PyInt (tables_count pc));
           (lit "tables", PyList (map table_value (tables pc))) ].

(** [ExtractionResult.to_dict] *)
Definition ExtractionResult_to_dict (r : ExtractionResult) : pyvalue :=
  PyDict [ (lit "metadata", DocumentMetadata_to_dict (metadata r));
           (lit "pages", PyList (map PageContent_to_dict (pages r)));
           (lit "success", PyBool (success r));
           (lit "error_message", optional_str (error_message r)) ].

(* ================================================================== *)
(** ** The service layer: [backend/app.py] *)
(* ================================================================== *)

(** [HTTPException(status_code, detail)] *)
Record HTTPException : Type := { status_code : Z; detail : option str }.

(** What a coroutine of the service ends with: its value, an
    [HTTPException], or another exception. *)
Inductive outcome (A : Type) : Type :=
  | Returned (a : A)
  | RaisedHTTP (he : HTTPException)
  | Raised (e : exn).
Arguments Returned {A} a.
Arguments RaisedHTTP {A} he.
Arguments Raised {A} e.

(** [process_document_async(file_path, options)]: the engine is run in the
    executor and awaited; its result is turned into a dictionary, or into
    the exception the route answers with. *)
Definition process_document_async (file_path : Path) (options : ProcessingOptions)
    (w : World) (s : State) : outcome pyvalue * State :=
  match DocParseEngine.extract_text file_path (Some options) w s with
  | (inr result, s') =>
      if success result
      then (Returned (ExtractionResult_to_dict result), logged [INFO] s')
      else (RaisedHTTP {| status_code := 422; detail := error_message result |},
            logged [ERROR] s')
  | (inl e, s') =>
      (RaisedHTTP {| status_code := 500;
                     detail := Some (lit "Document processing failed: " ++ exn_str e) |},
       logged [ERROR] s')
  end.

(** [RATE_LIMIT] requests a minute for each address; a minute in the unit
    of the clock. *)
Definition RATE_LIMIT : Z := 10.
Definition one_minute : Z := 60000000.

(** [request_counts = defaultdict(list)]: the request times kept for each
    address; an address never seen reads as the empty list. *)
Definition request_counts : Type := str -> list Z.

Definition no_requests : request_counts := fun _ => [].

(** [request_counts[client_ip] = times] *)
Definition set_requests (counts : request_counts) (client_ip : str)
    (times : list Z) : request_counts :=
  fun ip => if str_eqb ip client_ip then times else counts ip.

(** [check_rate_limit(client_ip)] at the clock reading [now]: the verdict
    and the table it leaves. *)
Definition check_rate_limit (client_ip : str) (now : Z) (counts : request_counts)
  : bool * request_counts :=
  let minute_ago := (now - one_minute)%Z in
  let counts :=
    set_requests counts client_ip
      (filter (fun req_time => (minute_ago <? req_time)%Z) (counts client_ip)) in
  if (RATE_LIMIT <=? len (counts client_ip))%Z
  then (false, counts)
  else (true, set_requests counts client_ip (counts client_ip ++ [now])).

(** The service answering requests one after the other, each an address
    and the clock reading of its check: the table, and the requests let
    through so far. *)
Definition serve_step (st : request_counts * list (str * Z)) (request : str * Z)
  : request_counts * list (str * Z) :=
  let '(counts, accepted) := st in
  let '(ok, counts') := check_rate_limit (fst request) (snd request) counts in
  (counts', if ok then accepted ++ [request] else accepted).

Definition serve (requests : list (str * Z)) : request_counts * list (str * Z) :=
  fold_left serve_step requests (no_requests, []).

(** The times of the requests of one address. *)
Definition times_of (client_ip : str) (requests : list (str * Z)) : list Z :=
  map snd (filter (fun request => str_eqb (fst request) client_ip) requests).

(** Clock readings that never go back. *)
Definition in_order (times : list Z) : Prop :=
  forall a b c t u, times = a ++ t :: b ++ u :: c -> (t <= u)%Z.

(** The times within the minute that ends at [t]. *)
Definition within_minute_before (t : Z) (times : list Z) : list Z :=
  filter (fun u => (t - one_minute <? u)%Z && (u <=? t)%Z) times.

(** Eleven requests of one address, a second apart. *)
Definition eleven_requests : list (str * Z) :=
  map (fun k => (lit "10.0.0.7", (1000000 * Z.of_nat k)%Z)) (seq 0 11).


(* ================================================================== *)
(** ** Uploads: [validate_file] and [save_uploaded_file] of [backend/app.py] *)
(* ================================================================== *)

Definition MAX_FILE_SIZE : Z := 50 * 1024 * 1024.

(** [str(n)] of a Python [int]. *)
Definition str_of_int (n : Z) : str :=
  lit (DecimalString.NilZero.string_of_int (Z.to_int n)).

(** An [UploadFile]: the name the client sent, the bytes of the body, and
    whether the spooled file behind it can be used at all; when it cannot,
    [seek] and [read] raise.  The position in the file is threaded through
    the calls. *)
Record UploadFile : Type := {
  upload_filename : option str;
  upload_body : list N;
  upload_error : option exn
}.

(** [await file.seek(offset)] *)
Definition file_seek (file : UploadFile) (offset : nat) : M nat :=
  match upload_error file with
  | Some e => raise e
  | None => ret offset
  end.

(** [await file.read(size)]: the next [size] bytes, fewer at the end. *)
Definition file_read (file : UploadFile) (position : nat) (size : Z)
  : M (list N * nat) :=
  match upload_error file with
  | Some e => raise e
  | None =>
      let chunk := firstn (Z.to_nat size) (skipn position (upload_body file)) in
      ret (chunk, position + List.length chunk)
  end.

(** [await file.read()]: all that is left. *)
Definition file_read_all (file : UploadFile) (position : nat) : M (list N * nat) :=
  match upload_error file with
  | Some e => raise e
  | None =>
      let chunk := skipn position (upload_body file) in
      ret (chunk, position + List.length chunk)
  end.

Definition chunk_size : Z := 8192.

(** What [validate_file] answers: [(is_valid, error_msg)]. *)
Definition validation : Type := (bool * option str)%type.

(** The [while True] loop that adds up the chunks.  Every round but the
    last reads at least one byte, so one round more than there are bytes is
    enough; [(false, None)], which the function never answers, stands for
    running out of rounds. *)
Fixpoint size_loop (rounds : nat) (file : UploadFile) (position : nat) (size : Z)
  : M (validation * nat) :=
  match rounds with
  | O => ret ((false, None), position)
  | S rounds' =>
      read <- file_read file position chunk_size ;;
      let '(chunk, position) := read in
      if negb (truthy chunk)
      then
        position <- file_seek file 0 ;;
        ret ((true, None), position)
      else
        let size := (size + len chunk)%Z in
        if (MAX_FILE_SIZE <? size)%Z
        then
          position <- file_seek file 0 ;;
          ret ((false,
                Some (lit "File too large. Maximum size: "
                      ++ str_of_int (MAX_FILE_SIZE / (1024 * 1024)) ++ lit "MB")),
               position)
        else size_loop rounds' file position size
  end.

(** The message of the loop, with the limit written out. *)
Definition too_large_message : str :=
  lit "File too large. Maximum size: 50MB".

(** [validate_file(file)] with the file at [position]; the answer and the
    position it leaves the file at.  [SUPPORTED_EXTENSIONS] is a [set], and
    [set_order] is the order its iteration happens to have. *)
Definition validate_file (set_order : list str) (file : UploadFile) (position : nat)
  : M (validation * nat) :=
  try_except
    (match upload_filename file with
     | None => ret ((false, Some (lit "No filename provided")), position)
     | Some filename =>
         if negb (truthy filename)
         then ret ((false, Some (lit "No filename provided")), position)
         else
           is_supported <- DocParseEngine.is_supported_file filename ;;
           if negb is_supported
           then
             let supported := join (lit ", ") set_order in
             ret ((false,
                   Some (lit "Unsupported file type. Supported formats: " ++ supported)),
                  position)
           else
             position <- file_seek file 0 ;;
             size_loop (S (List.length (upload_body file))) file position 0
     end)
    (fun e =>
       log ERROR ;;
       ret ((false, Some (lit "File validation failed: " ++ exn_str e)), position)).

(** [os.path.splitext(p)] of [posixpath]: the extension starts at the last
    dot, when that dot comes behind the last slash and some character
    between the two is not a dot. *)
Definition splitext (p : str) : str * str :=
  match rfind_char DOT p with
  | None => (p, [])
  | Some dotIndex =>
      let filenameIndex :=
        match rfind_char SLASH p with Some sepIndex => S sepIndex | None => 0 end in
      if (filenameIndex <=? dotIndex)
         && existsb (fun c => negb (c =? DOT)%N) (slice p filenameIndex dotIndex)
      then (firstn dotIndex p, skipn dotIndex p)
      else (p, [])
  end.

(** [dir / other] of [pathlib], for a single segment: an absolute segment
    stands for itself. *)
Definition truediv (dir : Path) (other : str) : Path :=
  if startswith [SLASH] other then other else dir ++ [SLASH] ++ other.

Section SaveUploadedFile.

(** [c.isalnum()] is read off the Unicode tables; [tempfile.gettempdir()]
    and [str(uuid.uuid4())] are what the platform and the generator give. *)
Variable isalnum : char -> bool.
Variable temp_dir : Path.
Variable unique_id : str.

Definition safe_name_of (name : str) : str :=
  rstrip (filter (fun c => isalnum c || (c =? 32) || (c =? 45) || (c =? 95))%N name).

Definition unique_filename_of (filename : str) : str :=
  let '(name, ext) := splitext filename in
  safe_name_of name ++ lit "_" ++ unique_id ++ ext.

(** [with open(file_path, 'wb') as f: f.write(content)]: what the file
    system makes of it. *)
Definition write_bytes (file_path : Path) (content : list N) : M unit :=
  call (fun w => match open_write w file_path with
                 | Some e => inl e
                 | None => inr tt
                 end).

(** [save_uploaded_file(file)] with the file at [position]: the path, and
    the bytes written there.  Without a file name [splitext] raises. *)
Definition save_uploaded_file (file : UploadFile) (position : nat)
  : M (Path * list N) :=
  match upload_filename file with
  | None =>
      raise (Exn OtherException
               (lit "expected str, bytes or os.PathLike object, not NoneType"))
  | Some filename =>
      let unique_filename := unique_filename_of filename in
      let file_path := truediv temp_dir unique_filename in
      read <- file_read_all file position ;;
      let content := fst read in
      write_bytes file_path content ;;
      log INFO ;;
      ret (file_path, content)
  end.

End SaveUploadedFile.

(** [c.isalnum()] on ASCII; a UUID as [str(uuid.uuid4())] prints it. *)
Definition ascii_isalnum (c : char) : bool :=
  ((48 <=? c) && (c <=? 57) || (65 <=? c) && (c <=? 90) || (97 <=? c) && (c <=? 122))%N.

Definition sample_uuid : str := lit "3f2b8c1e-9d4a-4e6f-8b7a-0c5d2e1f9a3b".

Definition upload (name : string) (body : list N) : UploadFile :=
  {| upload_filename := Some (lit name); upload_body := body; upload_error := None |}.
(* ================================================================== *)
(** * Properties *)
(* ================================================================== *)

(** ** The model against the examples of the specification *)

Example split_ff_demo :
  split [FF] (lit "a" ++ [FF] ++ [FF] ++ lit "b") = [lit "a"; []; lit "b"].
Proof. reflexivity. Qed.

Example split_nl4_demo :
  split [NL; NL; NL] Scenario.four_newlines = [lit "a"; NL :: lit "b"].
Proof. reflexivity. Qed.

Example split_newline_runs_demo :
  Worded.split_newline_runs Scenario.four_newlines = [lit "a"; lit "b"].
Proof. reflexivity. Qed.

Example split_ws_demo :
  split_ws (lit "  Page one   content ") = [lit "Page"; lit "one"; lit "content"].
Proof. reflexivity. Qed.

Example strip_demo : strip (lit "  a b  ") = lit "a b".
Proof. reflexivity. Qed.

Example suffix_demo :
  path_suffix (lit "/tmp/up/report.xyz") = lit ".xyz"
  /\ path_name (lit "/tmp/up/report.xyz") = lit "report.xyz"
  /\ DocParseEngine.extension_of (lit "Report.PDF") = lit "pdf"
  /\ path_suffix (lit ".bashrc") = [].
Proof. repeat split; reflexivity. Qed.

(** The end-to-end example of the specification: two form-feed separated
    pages. *)
Example two_pages_demo :
  exists r s,
    DocParseEngine.extract_text (lit "notes.txt") None
      (Scenario.txt_world Scenario.two_pages) initial = (inr r, s)
    /\ total_pages (metadata r) = 2%Z
    /\ map text (pages r) = [lit "Page one content"; lit "Page two content"]
    /\ map word_count (pages r) = [3; 3]%Z.
Proof. eexists; eexists; split; [vm_compute; reflexivity|]. repeat split. Qed.

(** [max_pages = 1] against a five-page PDF. *)
Example five_pages_demo :
  exists r s,
    DocParseEngine.extract_text (lit "big.pdf") (Some (Scenario.options_with (Some 1%Z)))
      (Scenario.pdf_world (inr Scenario.five_pages) Scenario.not_that_format) initial
      = (inr r, s)
    /\ total_pages (metadata r) = 5%Z
    /\ pages_processed (metadata r) = 1%Z
    /\ map text (pages r) = [lit "one"]
    /\ trace s = [EvLog INFO; EvOpen PDFPLUMBER; EvDispatch PDF; EvLog INFO].
Proof. eexists; eexists; split; [vm_compute; reflexivity|]. repeat split. Qed.

(** ** Strings: trimming and whitespace tokens *)

Section Trimming.

Lemma lstrip_head (s : str) (c : char) (r : str) :
  lstrip s = c :: r -> isspace c = false.
Proof.
  induction s as [|d s IH]; simpl; [discriminate|].
  destruct (isspace d) eqn:Ed; [exact IH|].
  intros H; injection H as -> _; exact Ed.
Qed.

Lemma lstrip_decompose (s : str) :
  exists ws, s = ws ++ lstrip s /\ forallb isspace ws = true.
Proof.
  induction s as [|d s (ws & E & Hws)]; simpl.
  - exists []; auto.
  - destruct (isspace d) eqn:Ed.
    + exists (d :: ws); simpl; rewrite Ed, Hws; split; [congruence|reflexivity].
    + exists []; auto.
Qed.

Lemma rstrip_decompose (s : str) :
  exists ws, s = rstrip s ++ ws /\ forallb isspace ws = true.
Proof.
  unfold rstrip. destruct (lstrip_decompose (rev s)) as (ws & E & Hws).
  exists (rev ws); split.
  - rewrite <- rev_app_distr, <- E, rev_involutive; reflexivity.
  - rewrite forallb_forall in *. intros x Hx; apply Hws, in_rev, Hx.
Qed.

Lemma rstrip_last (s : str) (c : char) (r : str) :
  rstrip s = r ++ [c] -> isspace c = false.
Proof.
  unfold rstrip; intros H.
  apply (f_equal (@rev char)) in H.
  rewrite rev_involutive, rev_app_distr in H; simpl in H.
  exact (lstrip_head _ _ _ H).
Qed.

Lemma strip_trimmed (s : str) : trimmed (strip s).
Proof.
  split; intros c r H.
  - unfold strip in H.
    destruct (rstrip_decompose (lstrip s)) as (ws & E & _).
    rewrite H in E; simpl in E. exact (lstrip_head _ _ _ E).
  - exact (rstrip_last _ _ _ H).
Qed.

Lemma trimmed_nil : trimmed [].
Proof.
  split; intros c r H; [discriminate|].
  destruct r; discriminate.
Qed.

(** Whitespace in front of a text adds no token. *)
Lemma split_ws_leading (ws t : str) :
  forallb isspace ws = true -> split_ws (ws ++ t) = split_ws t.
Proof.
  unfold split_ws. induction ws as [|d ws IH]; simpl; [reflexivity|].
  intros H; apply andb_prop in H as [Hd Hws]. rewrite Hd; auto.
Qed.

Lemma split_ws_from_blank (ws cur : str) :
  forallb isspace ws = true ->
  split_ws_from cur ws = match cur with [] => [] | _ :: _ => [rev cur] end.
Proof.
  revert cur; induction ws as [|d ws IH]; intros cur H; simpl; [reflexivity|].
  simpl in H; apply andb_prop in H as [Hd Hws]. rewrite Hd.
  destruct cur; rewrite (IH [] Hws); reflexivity.
Qed.

(** Whitespace behind a text adds no token either. *)
Lemma split_ws_from_trailing (t ws cur : str) :
  forallb isspace ws = true ->
  split_ws_from cur (t ++ ws) = split_ws_from cur t.
Proof.
  intros Hws; revert cur; induction t as [|d t IH]; intros cur; simpl.
  - apply split_ws_from_blank, Hws.
  - destruct (isspace d); [destruct cur|]; rewrite ?IH; reflexivity.
Qed.

(** [text.split()] and [text.strip().split()] see the same words. *)
Lemma split_ws_strip (s : str) : split_ws (strip s) = split_ws s.
Proof.
  destruct (lstrip_decompose s) as (ws & E & Hws).
  destruct (rstrip_decompose (lstrip s)) as (ws' & E' & Hws').
  transitivity (split_ws (lstrip s)).
  - unfold strip, split_ws. symmetry.
    etransitivity; [|apply (split_ws_from_trailing _ ws' [] Hws')].
    rewrite <- E'; reflexivity.
  - symmetry. etransitivity; [|apply (split_ws_leading ws _ Hws)].
    rewrite <- E; reflexivity.
Qed.

Lemma split_ws_from_open (s cur : str) :
  cur <> [] -> split_ws_from cur s <> [].
Proof.
  revert cur; induction s as [|d s IH]; intros cur Hc; simpl.
  - destruct cur; [congruence|discriminate].
  - destruct (isspace d).
    + destruct cur; [congruence|discriminate].
    + apply IH; discriminate.
Qed.

(** A trimmed text that is not empty has a word. *)
Lemma trimmed_has_word (t : str) :
  trimmed t -> t <> [] -> split_ws t <> [].
Proof.
  intros [Hhd _] Hne. destruct t as [|c r]; [congruence|].
  unfold split_ws; simpl. rewrite (Hhd c r eq_refl).
  apply split_ws_from_open; discriminate.
Qed.

Lemma strip_idempotent_on_trimmed (t : str) : trimmed t -> strip t = t.
Proof.
  intros [Hhd Hlast]. unfold strip.
  assert (El : lstrip t = t).
  { destruct t as [|c r]; [reflexivity|]. simpl; rewrite (Hhd c r eq_refl); reflexivity. }
  rewrite El. unfold rstrip.
  destruct (rev t) as [|c r] eqn:Er.
  - simpl. apply (f_equal (@rev char)) in Er. rewrite rev_involutive in Er. auto.
  - assert (Et : t = rev r ++ [c]).
    { apply (f_equal (@rev char)) in Er. rewrite rev_involutive in Er. exact Er. }
    simpl. rewrite (Hlast c (rev r) Et). simpl. auto.
Qed.

End Trimming.

(** ** Reasoning about runs *)

Section Runs.

Context {A B : Type}.

Lemma bind_inr (m : M A) (f : A -> M B) w s b s2 :
  bind m f w s = (inr b, s2) ->
  exists a s1, m w s = (inr a, s1) /\ f a w s1 = (inr b, s2).
Proof.
  unfold bind. destruct (m w s) as [[e|a] s1]; [discriminate|].
  intros H; exists a, s1; auto.
Qed.

Lemma bind_inl (m : M A) (f : A -> M B) w s e s2 :
  bind m f w s = (inl e, s2) ->
  m w s = (inl e, s2)
  \/ exists a s1, m w s = (inr a, s1) /\ f a w s1 = (inl e, s2).
Proof.
  unfold bind. destruct (m w s) as [[e'|a] s1]; intros H.
  - left. injection H as <- <-; reflexivity.
  - right. exists a, s1; auto.
Qed.

Lemma try_except_inr (m : M A) (h : exn -> M A) w s a s2 :
  try_except m h w s = (inr a, s2) ->
  m w s = (inr a, s2)
  \/ exists e s1, m w s = (inl e, s1) /\ h e w s1 = (inr a, s2).
Proof.
  unfold try_except. destruct (m w s) as [[e|a'] s1]; intros H.
  - right. exists e, s1; auto.
  - left. exact H.
Qed.

(** A handler that always returns makes the whole [try] return. *)
Lemma try_except_returns (m : M A) (h : exn -> M A) w s :
  (forall e s1, exists a s2, h e w s1 = (inr a, s2)) ->
  exists a s2, try_except m h w s = (inr a, s2).
Proof.
  intros Hh. unfold try_except. destruct (m w s) as [[e|a] s1]; [apply Hh|].
  exists a, s1; reflexivity.
Qed.

End Runs.

Lemma for_each_inr {A B : Type} (f : A -> M B) (l : list A) w s ys s' :
  for_each f l w s = (inr ys, s') ->
  Forall2 (fun x y => exists s1 s2, f x w s1 = (inr y, s2)) l ys.
Proof.
  revert s ys s'; induction l as [|x l IH]; intros s ys s' H; simpl in H.
  - injection H as <- _; constructor.
  - apply bind_inr in H as (y & s1 & Hy & H).
    unfold bind in H. destruct (for_each f l w s1) as [[e|zs] s2] eqn:E; [discriminate|].
    injection H as <- _. constructor; [exists s, s1; exact Hy|exact (IH _ _ _ E)].
Qed.

Lemma getitem_inr {A : Type} (l : list A) (i : Z) w s a s' :
  getitem l i w s = (inr a, s') -> In a l /\ s' = s.
Proof.
  unfold getitem.
  destruct (if (_ <? 0)%Z then None else nth_error l _) as [x|] eqn:E;
    [|discriminate].
  intros H; injection H as <- <-. split; [|reflexivity].
  destruct (_ <? 0)%Z in E; [discriminate|]. exact (nth_error_In _ _ E).
Qed.

(** Decompose a run that returned, bind by bind. *)
Ltac run_inv H :=
  repeat match type of H with
         | bind _ _ _ _ = (inr _, _) =>
             let a := fresh "a" in let s := fresh "s" in let Ha := fresh "Ha" in
             apply bind_inr in H as (a & s & Ha & H)
         end.

(** ** Every page is well formed *)

Lemma page_of_text_well_formed (i : Z) (t : str) :
  trimmed t -> page_well_formed (page_of_text i t).
Proof.
  intros Ht. unfold page_well_formed, page_of_text; simpl.
  split; [exact Ht|]. split; [|split; [|split; reflexivity]].
  - destruct t as [|c r]; [split; reflexivity|]. simpl. split; [|discriminate].
    intros H. exfalso. apply (trimmed_has_word (c :: r) Ht); [discriminate|].
    unfold len in H. destruct (split_ws (c :: r)); [reflexivity|discriminate].
  - intros Hne. destruct t; [congruence|reflexivity].
Qed.

(** The page the two PDF loops build from the text a backend gave. *)
Lemma pdf_page_well_formed (i : Z) (raw : str) (tbls : list table) :
  page_well_formed
    {| page_number := i + 1;
       text := strip raw;
       word_count := if truthy (strip raw) then len (split_ws raw) else 0%Z;
       character_count := len (strip raw);
       tables_count := len tbls;
       tables := tbls |}.
Proof.
  pose proof (page_of_text_well_formed i (strip raw) (strip_trimmed raw))
    as (Ht & Hz & Hw & _ & _).
  unfold page_of_text in *; simpl in *. rewrite split_ws_strip in *.
  unfold page_well_formed; simpl. rewrite split_ws_strip.
  split; [exact Ht|]. split; [exact Hz|]. split; [exact Hw|]. split; reflexivity.
Qed.

Lemma call_inr {A : Type} (f : World -> exn + A) w s a s' :
  call f w s = (inr a, s') -> f w = inr a /\ s' = s.
Proof. unfold call; intros H; injection H as -> <-; auto. Qed.

Lemma ret_inr {A : Type} (a b : A) w s s' :
  ret a w s = (inr b, s') -> b = a /\ s' = s.
Proof. unfold ret; intros H; injection H as -> <-; auto. Qed.

Lemma Forall2_produced {A B : Type} (R : A -> B -> Prop) (P : B -> Prop)
    (l : list A) (ys : list B) :
  Forall2 R l ys -> (forall x y, R x y -> P y) -> Forall P ys.
Proof. induction 1; intros HP; constructor; eauto. Qed.

(** *** Joining trimmed paragraphs *)

Lemma last_of_app (x y r : str) (c : char) :
  y <> [] -> x ++ y = r ++ [c] -> exists r', y = r' ++ [c].
Proof.
  intros Hy E. destruct (exists_last Hy) as (y' & d & ->).
  rewrite app_assoc in E. apply app_inj_tail in E as [_ ->].
  exists y'; reflexivity.
Qed.

Lemma join_solid (sep : str) (l : list str) :
  Forall solid l -> l <> [] -> solid (join sep l).
Proof.
  induction l as [|p l IH]; intros Hall Hne; [congruence|].
  inversion Hall as [|? ? [[Hhd Hlast] Hp] Hl]; subst.
  destruct l as [|q l]; [simpl; split; [split|]; assumption|].
  assert (HJ : solid (join sep (q :: l))) by (apply IH; [assumption|discriminate]).
  destruct HJ as [[_ HJlast] HJne].
  change (join sep (p :: q :: l)) with (p ++ sep ++ join sep (q :: l)).
  split; [split|].
  - intros c r E. destruct p as [|c' p']; [congruence|].
    injection E as -> _. exact (Hhd _ _ eq_refl).
  - intros c r E. rewrite app_assoc in E.
    destruct (last_of_app _ _ _ _ HJne E) as (r' & E').
    exact (HJlast _ _ E').
  - destruct p; [congruence|discriminate].
Qed.

Lemma solid_strip (p : str) : truthy (strip p) = true -> solid (strip p).
Proof.
  intros H; split; [apply strip_trimmed|]. destruct (strip p); discriminate.
Qed.

(** *** The paragraph loop *)

Lemma group_loop_trimmed (paragraphs pages cur pages' cur' : list str) :
  Forall trimmed pages -> Forall solid cur ->
  DOCXProcessor.group_loop paragraphs pages cur = (pages', cur') ->
  Forall trimmed pages' /\ Forall solid cur'.
Proof.
  revert pages cur; induction paragraphs as [|p ps IH]; intros pages cur Hp Hc E;
    simpl in E.
  - injection E as <- <-; auto.
  - destruct (truthy (strip p)) eqn:Et.
    + apply (IH _ _ Hp) in E; [exact E|].
      apply Forall_app; split; [exact Hc|]. constructor; [|constructor].
      apply solid_strip, Et.
    + destruct cur as [|c cur].
      * exact (IH _ _ Hp Hc E).
      * apply IH in E; [exact E| |constructor].
        apply Forall_app; split; [exact Hp|]. constructor; [|constructor].
        apply join_solid; [exact Hc|discriminate].
Qed.

(** The loop ends with nothing collected only when every paragraph is
    blank. *)
Lemma group_loop_nothing (paragraphs pages cur : list str) :
  DOCXProcessor.group_loop paragraphs pages cur = ([], []) ->
  pages = [] /\ cur = []
  /\ filter (fun p => truthy (strip p)) paragraphs = [].
Proof.
  revert pages cur; induction paragraphs as [|p ps IH]; intros pages cur E;
    simpl in E.
  - injection E as -> ->; auto.
  - simpl. destruct (truthy (strip p)) eqn:Et.
    + apply IH in E as (_ & E & _). destruct cur; discriminate.
    + destruct cur as [|c cur].
      * exact (IH _ _ E).
      * apply IH in E as (E & _ & _). destruct pages; discriminate.
Qed.

Lemma group_into_pages_trimmed (paragraphs : list str) (options : ProcessingOptions) :
  Forall trimmed (DOCXProcessor._group_into_pages paragraphs options).
Proof.
  unfold DOCXProcessor._group_into_pages.
  destruct (DOCXProcessor.group_loop paragraphs [] []) as [pages cur] eqn:E.
  pose proof (group_loop_trimmed _ _ _ _ _ (Forall_nil _) (Forall_nil _) E)
    as [Hp Hc].
  assert (Hblank : Forall trimmed [[] : str])
    by (constructor; [apply trimmed_nil|constructor]).
  destruct cur as [|c cur].
  - destruct pages as [|pg pages]; [|exact Hp].
    apply group_loop_nothing in E as (_ & _ & ->).
    destruct paragraphs; exact Hblank.
  - assert (Hj : trimmed (join [NL] (c :: cur)))
      by (apply join_solid; [exact Hc|discriminate]).
    destruct pages as [|pg pages]; simpl.
    + constructor; [exact Hj|constructor].
    + apply (Forall_app trimmed (pg :: pages)); split; [exact Hp|].
      constructor; [exact Hj|constructor].
Qed.

(** The grouping never comes back with no page at all. *)
Lemma group_into_pages_nonempty (paragraphs : list str) (options : ProcessingOptions) :
  DOCXProcessor._group_into_pages paragraphs options <> [].
Proof.
  unfold DOCXProcessor._group_into_pages.
  destruct (DOCXProcessor.group_loop paragraphs [] []) as [pages cur].
  destruct cur, pages, paragraphs; simpl;
    try destruct (truthy _); try discriminate;
    try (intros H; apply app_eq_nil in H as [_ H]; discriminate).
Qed.

(** ** The shape of what a processor returns *)

Lemma create_metadata_inr d m p total processed t w s md s' :
  create_metadata d m p total processed t w s = (inr md, s') ->
  total_pages md = total /\ pages_processed md = processed
  /\ extraction_method md = ExtractionMethod_value m
  /\ document_type md = DocumentType_value d.
Proof.
  unfold create_metadata, now_isoformat. intros H. run_inv H.
  apply ret_inr in H as [-> _]. simpl. auto.
Qed.

(** The error metadata are there whenever the path can be looked at:
    [stat] is asked for the size only for a path that exists. *)
Lemma create_error_metadata_returns d p t w s :
  stat_error w p = None ->
  exists md s',
    create_error_metadata d p t w s = (inr md, s')
    /\ total_pages md = 0%Z /\ pages_processed md = 0%Z
    /\ extraction_method md = lit "failed"
    /\ document_type md = DocumentType_value d
    /\ ticks s' = S (S (ticks s)) /\ trace s' = trace s.
Proof.
  intros Hok.
  unfold create_error_metadata, bind, path_exists, call, stat_st_size,
    now_isoformat, bind, datetime_now, call, ret. rewrite Hok.
  destruct (fs_stat w p) eqn:E; simpl; rewrite ?Hok, ?E; eexists; eexists;
    (split; [reflexivity|]); simpl; auto 10.
Qed.

(** And they are there only then. *)
Lemma create_error_metadata_stat d p t w s md s' :
  create_error_metadata d p t w s = (inr md, s') -> stat_error w p = None.
Proof.
  unfold create_error_metadata. unfold bind at 1. unfold path_exists, call.
  destruct (stat_error w p); [discriminate|reflexivity].
Qed.

Lemma for_each_length {A B : Type} (f : A -> M B) (l : list A) w s ys s' :
  for_each f l w s = (inr ys, s') -> List.length ys = List.length l.
Proof.
  intros H. apply for_each_inr in H. symmetry. exact (Forall2_length H).
Qed.

Lemma range_length (n : Z) : List.length (range n) = Z.to_nat n.
Proof. unfold range. rewrite length_map, length_seq. reflexivity. Qed.

Lemma pdfplumber_shape p o t w s r s' :
  PDFProcessor._extract_with_pdfplumber p o t w s = (inr r, s') ->
  success_shaped PDF w p o PDFPLUMBER r.
Proof.
  unfold PDFProcessor._extract_with_pdfplumber. intros H. run_inv H.
  apply call_inr in Ha0 as [Hopen ->].
  apply ret_inr in H as [-> _].
  apply create_metadata_inr in Ha2 as (Ht & Hp & Hm & Hd).
  unfold success_shaped; simpl. rewrite Ht, Hp.
  split; [reflexivity|]. split; [reflexivity|].
  split; [exists a0; auto|]. split; [exact Hm|]. split; [reflexivity|].
  split; [rewrite (for_each_length _ _ _ _ _ _ Ha1); apply range_length|].
  split; [|exact Hd].
  apply for_each_inr in Ha1. apply (Forall2_produced _ _ _ _ Ha1).
  intros x y (sa & sb & Hy). run_inv Hy. apply ret_inr in Hy as [-> _].
  apply pdf_page_well_formed.
Qed.

Lemma pymupdf_shape p o t w s r s' :
  PDFProcessor._extract_with_pymupdf p o t w s = (inr r, s') ->
  success_shaped PDF w p o PYMUPDF r.
Proof.
  unfold PDFProcessor._extract_with_pymupdf. intros H. run_inv H.
  apply call_inr in Ha0 as [Hopen ->].
  apply ret_inr in H as [-> _].
  apply create_metadata_inr in Ha2 as (Ht & Hp & Hm & Hd).
  unfold success_shaped; simpl. rewrite Ht, Hp.
  split; [reflexivity|]. split; [reflexivity|].
  split; [exists a0; auto|]. split; [exact Hm|]. split; [reflexivity|].
  split; [rewrite (for_each_length _ _ _ _ _ _ Ha1); apply range_length|].
  split; [|exact Hd].
  apply for_each_inr in Ha1. apply (Forall2_produced _ _ _ _ Ha1).
  intros x y (sa & sb & Hy). run_inv Hy. apply ret_inr in Hy as [-> _].
  exact (pdf_page_well_formed _ _ []).
Qed.

(** The [except] block shared by the three processors. *)
Lemma failure_handler_returns d p t msg w s :
  stat_error w p = None ->
  exists r s',
    (log ERROR ;;
     md <- create_error_metadata d p t ;;
     ret {| metadata := md; pages := []; success := false;
            error_message := Some msg |}) w s = (inr r, s')
    /\ failure_shaped d r /\ error_message r = Some msg
    /\ trace s' = EvLog ERROR :: trace s.
Proof.
  intros Hok.
  destruct (create_error_metadata_returns d p t w
              {| ticks := ticks s; trace := EvLog ERROR :: trace s |} Hok)
    as (md & s' & E & Ht & Hp & Hm & Hd & _ & Htr).
  exists {| metadata := md; pages := []; success := false;
            error_message := Some msg |}, s'.
  split; [|split; [|split]].
  - unfold bind at 1. unfold log, emit. unfold bind. rewrite E. reflexivity.
  - unfold failure_shaped; simpl. eauto 10.
  - reflexivity.
  - exact Htr.
Qed.

Lemma failure_handler_inr d p t msg w s r s' :
  (log ERROR ;;
   md <- create_error_metadata d p t ;;
   ret {| metadata := md; pages := []; success := false;
          error_message := Some msg |}) w s = (inr r, s') ->
  failure_shaped d r /\ error_message r = Some msg.
Proof.
  intros H.
  assert (Hok : stat_error w p = None).
  { unfold bind at 1 in H. unfold log, emit in H.
    apply bind_inr in H as (md & s1 & Hmd & _).
    exact (create_error_metadata_stat _ _ _ _ _ _ _ Hmd). }
  destruct (failure_handler_returns d p t msg w s Hok) as (r0 & s0 & E & Hs & Hm & _).
  rewrite E in H. injection H as <- _. auto.
Qed.


Lemma datetime_now_inr w s t s' :
  datetime_now w s = (inr t, s') ->
  t = clock w (ticks s) /\ s' = {| ticks := S (ticks s); trace := trace s |}.
Proof. unfold datetime_now; intros H; injection H as <- <-; auto. Qed.

(** In range, the loop over [pages_text] is a [map]. *)
Lemma getitem_nth {A : Type} (l : list A) (k : nat) (d : A) w s :
  k < List.length l -> getitem l (Z.of_nat k) w s = (inr (nth k l d), s).
Proof.
  intros Hk. unfold getitem.
  destruct (Z.of_nat k <? 0)%Z eqn:E; [apply Z.ltb_lt in E; lia|].
  rewrite E, Nat2Z.id.
  destruct (nth_error l k) as [a|] eqn:En.
  - rewrite (nth_error_nth _ _ d En). reflexivity.
  - apply nth_error_None in En; lia.
Qed.

Lemma for_each_getitem {A B : Type} (g : Z -> A -> B) (l : list A) (d : A)
    (start n : nat) w s :
  start + n <= List.length l ->
  for_each (fun i => chunk <- getitem l i ;; ret (g i chunk))
           (map Z.of_nat (seq start n)) w s
  = (inr (map (fun k => g (Z.of_nat k) (nth k l d)) (seq start n)), s).
Proof.
  revert start; induction n as [|n IH]; intros start Hn; simpl; [reflexivity|].
  unfold bind at 1. unfold bind at 1.
  rewrite (getitem_nth l start d) by lia. unfold ret at 1.
  unfold bind. rewrite IH by lia. reflexivity.
Qed.

Lemma pages_to_process_le (o : ProcessingOptions) (total : Z) :
  (pages_to_process_of o total <= total)%Z.
Proof. unfold pages_to_process_of. lia. Qed.

Lemma text_loop_run (g : Z -> str -> PageContent) (chunks : list str)
    (o : ProcessingOptions) w s :
  for_each (fun i => chunk <- getitem chunks i ;; ret (g i chunk))
           (range (pages_to_process_of o (len chunks))) w s
  = (inr (map (fun k => g (Z.of_nat k) (nth k chunks []))
              (seq 0 (Z.to_nat (pages_to_process_of o (len chunks))))), s).
Proof.
  unfold range. apply for_each_getitem.
  pose proof (pages_to_process_le o (len chunks)). unfold len in *. lia.
Qed.

Lemma txt_shape p o w s r s' :
  TXTProcessor.extract_text p o w s = (inr r, s') ->
  success_shaped TXT w p o PLAIN_TEXT r \/ failure_shaped TXT r.
Proof.
  unfold TXTProcessor.extract_text. intros H.
  apply bind_inr in H as (t & s1 & _ & H).
  apply try_except_inr in H as [H | (e & s2 & _ & H)].
  - left. run_inv H. apply call_inr in Ha0 as [Hread ->].
    rewrite text_loop_run in Ha1. injection Ha1 as <- _.
    apply ret_inr in H as [-> _].
    apply create_metadata_inr in Ha2 as (Ht & Hp & Hm & Hd).
    unfold success_shaped; simpl. rewrite Ht, Hp.
    split; [reflexivity|]. split; [reflexivity|].
    split; [exists a0; auto|]. split; [exact Hm|]. split; [reflexivity|].
    split; [rewrite length_map, length_seq; reflexivity|].
    split; [|exact Hd].
    apply Forall_forall. intros pc Hin. apply in_map_iff in Hin as (k & <- & _).
    apply page_of_text_well_formed, strip_trimmed.
  - right. exact (proj1 (failure_handler_inr _ _ _ _ _ _ _ _ H)).
Qed.

Lemma docx_shape p o w s r s' :
  DOCXProcessor.extract_text p o w s = (inr r, s') ->
  success_shaped DOCX w p o PYTHON_DOCX r \/ failure_shaped DOCX r.
Proof.
  unfold DOCXProcessor.extract_text. intros H.
  apply bind_inr in H as (t & s1 & _ & H).
  apply try_except_inr in H as [H | (e & s2 & _ & H)].
  - left. run_inv H. apply call_inr in Ha0 as [Hread ->].
    rewrite text_loop_run in Ha1. injection Ha1 as <- _.
    apply ret_inr in H as [-> _].
    apply create_metadata_inr in Ha2 as (Ht & Hp & Hm & Hd).
    unfold success_shaped; simpl. rewrite Ht, Hp.
    split; [reflexivity|]. split; [reflexivity|].
    split; [exists a0; auto|]. split; [exact Hm|]. split; [reflexivity|].
    split; [rewrite length_map, length_seq; reflexivity|].
    split; [|exact Hd].
    apply Forall_forall. intros pc Hin. apply in_map_iff in Hin as (k & <- & _).
    apply page_of_text_well_formed.
    pose proof (group_into_pages_trimmed a0 o) as Hall.
    rewrite Forall_forall in Hall.
    destruct (nth_in_or_default k (DOCXProcessor._group_into_pages a0 o) [])
      as [Hin | ->]; [exact (Hall _ Hin)|apply trimmed_nil].
  - right. exact (proj1 (failure_handler_inr _ _ _ _ _ _ _ _ H)).
Qed.

Lemma pdf_shape p o w s r s' :
  PDFProcessor.extract_text p o w s = (inr r, s') ->
  success_shaped PDF w p o PDFPLUMBER r
  \/ success_shaped PDF w p o PYMUPDF r
  \/ failure_shaped PDF r.
Proof.
  unfold PDFProcessor.extract_text. intros H.
  apply bind_inr in H as (t & s1 & _ & H).
  apply try_except_inr in H as [H | (e & s2 & _ & H)].
  - left. exact (pdfplumber_shape _ _ _ _ _ _ _ H).
  - right. apply bind_inr in H as (u & s3 & _ & H).
    apply try_except_inr in H as [H | (e2 & s4 & _ & H)].
    + left. exact (pymupdf_shape _ _ _ _ _ _ _ H).
    + right. exact (proj1 (failure_handler_inr _ _ _ _ _ _ _ _ H)).
Qed.

(** Whatever a processor returns is a success of one of its backends or a
    failure. *)
Lemma processor_shape d p o w s r s' :
  run_processor d p o w s = (inr r, s') ->
  (exists m, success_shaped d w p o m r) \/ failure_shaped d r.
Proof.
  destruct d; simpl; intros H.
  - apply pdf_shape in H as [H | [H | H]]; eauto.
  - apply txt_shape in H as [H | H]; eauto.
  - apply docx_shape in H as [H | H]; eauto.
Qed.

(** *** Processors return whenever the path can be looked at *)

Lemma bind_returns {A B : Type} (m : M A) (f : A -> M B) w s a s1 :
  m w s = (inr a, s1) ->
  (exists b s2, f a w s1 = (inr b, s2)) ->
  exists b s2, bind m f w s = (inr b, s2).
Proof. intros Hm Hf. unfold bind. rewrite Hm. exact Hf. Qed.

Lemma pdf_returns p o w s :
  stat_error w p = None ->
  exists r s', PDFProcessor.extract_text p o w s = (inr r, s').
Proof.
  intros Hok. unfold PDFProcessor.extract_text.
  eapply bind_returns; [reflexivity|].
  apply try_except_returns. intros e s1.
  eapply bind_returns; [reflexivity|].
  apply try_except_returns. intros e2 s2.
  destruct (failure_handler_returns PDF p (clock w (ticks s))
              (lit "PDF extraction failed: " ++ exn_str e) w s2 Hok)
    as (r & s' & E & _).
  exists r, s'. exact E.
Qed.

Lemma txt_returns p o w s :
  stat_error w p = None ->
  exists r s', TXTProcessor.extract_text p o w s = (inr r, s').
Proof.
  intros Hok. unfold TXTProcessor.extract_text.
  eapply bind_returns; [reflexivity|].
  apply try_except_returns. intros e s1.
  destruct (failure_handler_returns TXT p (clock w (ticks s))
              (lit "TXT extraction failed: " ++ exn_str e) w s1 Hok)
    as (r & s' & E & _).
  exists r, s'. exact E.
Qed.

Lemma docx_returns p o w s :
  stat_error w p = None ->
  exists r s', DOCXProcessor.extract_text p o w s = (inr r, s').
Proof.
  intros Hok. unfold DOCXProcessor.extract_text.
  eapply bind_returns; [reflexivity|].
  apply try_except_returns. intros e s1.
  destruct (failure_handler_returns DOCX p (clock w (ticks s))
              (lit "DOCX extraction failed: " ++ exn_str e) w s1 Hok)
    as (r & s' & E & _).
  exists r, s'. exact E.
Qed.

Lemma processor_returns d p o w s :
  stat_error w p = None ->
  exists r s', run_processor d p o w s = (inr r, s').
Proof.
  intros Hok.
  destruct d; [apply pdf_returns|apply txt_returns|apply docx_returns]; exact Hok.
Qed.

(** ** The engine *)

Lemma str_eqb_eq (a b : str) : str_eqb a b = true <-> a = b.
Proof.
  unfold str_eqb. destruct (list_eq_dec N.eq_dec a b); split; congruence.
Qed.

Lemma DocumentType_call_run v w s :
  DocumentType_call v w s =
  match DocumentType_of_value v with
  | Some d => (inr d, s)
  | None => (inl (Exn ValueError (lit "'" ++ v ++ lit "' is not a valid DocumentType")), s)
  end.
Proof.
  unfold DocumentType_call, DocumentType_of_value.
  repeat (destruct (str_eqb v _); [reflexivity|]). reflexivity.
Qed.

Lemma DocumentType_of_value_Some v d :
  DocumentType_of_value v = Some d <-> v = DocumentType_value d.
Proof.
  unfold DocumentType_of_value. split.
  - destruct (str_eqb v (lit "pdf")) eqn:E1;
      [apply str_eqb_eq in E1; intros H; injection H as <-; exact E1|].
    destruct (str_eqb v (lit "txt")) eqn:E2;
      [apply str_eqb_eq in E2; intros H; injection H as <-; exact E2|].
    destruct (str_eqb v (lit "docx")) eqn:E3;
      [apply str_eqb_eq in E3; intros H; injection H as <-; exact E3|].
    discriminate.
  - intros ->. destruct d; reflexivity.
Qed.

Lemma DocumentType_of_value_None v :
  DocumentType_of_value v = None <-> ~ In v DocParseEngine.get_supported_extensions.
Proof.
  split.
  - intros H [E | [E | [E | []]]]; symmetry in E.
    + apply (DocumentType_of_value_Some v PDF) in E; congruence.
    + apply (DocumentType_of_value_Some v TXT) in E; congruence.
    + apply (DocumentType_of_value_Some v DOCX) in E; congruence.
  - intros H. destruct (DocumentType_of_value v) as [d|] eqn:E; [|reflexivity].
    apply DocumentType_of_value_Some in E. exfalso; apply H.
    rewrite E. destruct d; simpl; auto.
Qed.

(** The engine, run: the three ways through [extract_text] when the path
    can be looked at. *)
Lemma engine_run p oo w s :
  stat_error w p = None ->
  DocParseEngine.extract_text p oo w s =
  match fs_stat w p with
  | None => (inr (not_found_result w p s),
             {| ticks := S (ticks s); trace := EvLog ERROR :: EvLog INFO :: trace s |})
  | Some size =>
      match DocumentType_of_value (DocParseEngine.extension_of p) with
      | None => (inr (unsupported_result w p size s),
                 {| ticks := S (ticks s);
                    trace := EvLog ERROR :: EvLog INFO :: trace s |})
      | Some d =>
          match run_processor d p (options_or_default oo) w
                  {| ticks := ticks s;
                     trace := EvDispatch d :: EvLog INFO :: trace s |} with
          | (inr r, s') =>
              (inr r, {| ticks := ticks s';
                         trace := EvLog (if success r then INFO else ERROR) :: trace s' |})
          | (inl e, s') => (inl e, s')
          end
      end
  end.
Proof.
  intros Hok. unfold DocParseEngine.extract_text.
  unfold bind at 1. unfold log at 1, emit at 1.
  unfold bind at 1. unfold path_exists at 1, call at 1. rewrite Hok.
  destruct (fs_stat w p) as [size|] eqn:Estat; cbn [negb].
  - unfold bind at 1, try_except_class.
    unfold bind at 1. rewrite DocumentType_call_run.
    destruct (DocumentType_of_value (DocParseEngine.extension_of p)) as [d|].
    + unfold ret at 1. unfold bind at 1, emit at 1. unfold bind at 1.
      fold (options_or_default oo). unfold run_processor.
      destruct (DocumentProcessor.extract_text _ _ _ _ _) as [[e|r] s']; [reflexivity|].
      reflexivity.
    + cbn [exn_class_of exn_class_eqb].
      unfold bind at 1, log at 1, emit at 1, bind at 1, stat_st_size at 1.
      cbn [ticks trace]. rewrite Hok, Estat. reflexivity.
  - reflexivity.
Qed.

(** When it cannot, the error of [exists] leaves the engine, after the
    first log record and before anything else. *)
Lemma engine_raises p oo w s e :
  stat_error w p = Some e ->
  DocParseEngine.extract_text p oo w s = (inl e, logged [INFO] s).
Proof.
  intros Herr. unfold DocParseEngine.extract_text.
  unfold bind at 1. unfold log at 1, emit at 1.
  unfold bind at 1. unfold path_exists at 1, call at 1. rewrite Herr. reflexivity.
Qed.

Lemma engine_stat p oo w s r s' :
  DocParseEngine.extract_text p oo w s = (inr r, s') -> stat_error w p = None.
Proof.
  destruct (stat_error w p) as [e|] eqn:E; [|reflexivity].
  rewrite (engine_raises p oo w s e E). discriminate.
Qed.

(** A run of the engine that returned, by its three ways. *)
Ltac engine_ok H :=
  let Hok := fresh "Hok" in
  pose proof (engine_stat _ _ _ _ _ _ H) as Hok;
  rewrite (engine_run _ _ _ _ Hok) in H; revert H.

(** ** Strings: searching and cutting *)

Lemma startswith_spec (pre s : str) :
  startswith pre s = true <-> exists b, s = pre ++ b.
Proof.
  revert s; induction pre as [|a pre IH]; intros s; simpl.
  - split; [exists s; reflexivity|reflexivity].
  - destruct s as [|c s]; [split; [discriminate|intros (b & H); discriminate]|].
    rewrite andb_true_iff, N.eqb_eq, IH. split.
    + intros (-> & b & ->). exists b; reflexivity.
    + intros (b & H). injection H as -> ->. split; [reflexivity|exists b; reflexivity].
Qed.

Lemma find_eq (sep s : str) :
  find sep s =
  if startswith sep s then Some 0
  else match s with [] => None | _ :: s' => option_map S (find sep s') end.
Proof. destruct s; reflexivity. Qed.

(** [find] points at an occurrence. *)
Lemma find_Some (sep s : str) (i : nat) :
  find sep s = Some i ->
  s = firstn i s ++ sep ++ skipn (i + List.length sep) s /\ i <= List.length s.
Proof.
  revert i; induction s as [|c s IH]; intros i; rewrite find_eq.
  - destruct (startswith sep []) eqn:E; [|discriminate].
    intros H; injection H as <-. apply startswith_spec in E as (b & E).
    symmetry in E. apply app_eq_nil in E as [-> ->]. auto.
  - destruct (startswith sep (c :: s)) eqn:E.
    + intros H; injection H as <-. apply startswith_spec in E as (b & E).
      split; [|simpl; lia]. rewrite E. change (0 + List.length sep) with (List.length sep).
      rewrite skipn_app, skipn_all, Nat.sub_diag. reflexivity.
    + destruct (find sep s) as [j|]; [|discriminate]. simpl.
      intros H; injection H as <-. destruct (IH j eq_refl) as [Hs Hj].
      split; [|simpl; lia]. simpl. rewrite <- Hs. reflexivity.
Qed.

Lemma occurs_find (sep s : str) : occurs sep s -> find sep s <> None.
Proof.
  intros (a & b & ->). induction a as [|x a IH]; rewrite find_eq.
  - simpl. assert (E : startswith sep (sep ++ b) = true)
      by (apply startswith_spec; exists b; reflexivity).
    rewrite E; discriminate.
  - simpl app. destruct (startswith sep _); [discriminate|].
    destruct (find sep (a ++ sep ++ b)); [discriminate|congruence].
Qed.

Lemma find_None (sep s : str) : find sep s = None <-> ~ occurs sep s.
Proof.
  split.
  - intros H Ho. exact (occurs_find _ _ Ho H).
  - intros H. destruct (find sep s) as [i|] eqn:E; [|reflexivity].
    exfalso; apply H. apply find_Some in E as [E _].
    exists (firstn i s), (skipn (i + List.length sep) s); exact E.
Qed.

Lemma occurs_single (c : char) (s : str) : occurs [c] s <-> In c s.
Proof.
  split.
  - intros (a & b & ->). apply in_elt.
  - intros H. apply in_split in H as (a & b & ->). exists a, b; reflexivity.
Qed.

Lemma split_rounds_nonempty (n : nat) (sep s : str) : split_rounds n sep s <> [].
Proof. destruct n; simpl; [|destruct (find sep s)]; discriminate. Qed.

(** [split] comes back with more than one chunk exactly when the separator
    occurs. *)
Lemma split_several (sep s : str) :
  sep <> [] -> ((1 <? len (split sep s))%Z = true <-> occurs sep s).
Proof.
  intros Hsep. unfold split.
  destruct (find sep s) as [i|] eqn:E.
  - assert (Ho : occurs sep s).
    { destruct (find_Some _ _ _ E) as [Hs _]. eexists; eexists; exact Hs. }
    split; [intros _; exact Ho|intros _].
    destruct (List.length s) as [|n] eqn:El.
    + exfalso. apply length_zero_iff_nil in El; subst s.
      destruct Ho as (a & b & H). symmetry in H.
      apply app_eq_nil in H as [_ H]. apply app_eq_nil in H as [H _]. auto.
    + simpl. rewrite E. apply Z.ltb_lt. unfold len.
      pose proof (split_rounds_nonempty n sep (skipn (i + List.length sep) s)) as Hne.
      destruct (split_rounds n sep (skipn (i + List.length sep) s)); [congruence|].
      simpl List.length. lia.
  - assert (Hn : ~ occurs sep s) by (apply find_None; exact E).
    split; [|intros Ho; contradiction].
    destruct (List.length s); simpl; rewrite ?E; discriminate.
Qed.

Lemma split_rounds_nil (n : nat) (sep : str) :
  sep <> [] -> split_rounds n sep [] = [[]].
Proof.
  intros Hsep. destruct n; [reflexivity|].
  destruct sep; [congruence|reflexivity].
Qed.

(** More rounds than characters change nothing. *)
Lemma split_rounds_enough (sep : str) (n m : nat) (s : str) :
  sep <> [] -> List.length s <= n -> List.length s <= m ->
  split_rounds n sep s = split_rounds m sep s.
Proof.
  intros Hsep. revert m s; induction n as [|n IH]; intros m s Hn Hm.
  - assert (s = []) by (apply length_zero_iff_nil; lia). subst s.
    rewrite !split_rounds_nil by assumption. reflexivity.
  - destruct m as [|m].
    + assert (s = []) by (apply length_zero_iff_nil; lia). subst s.
      rewrite !split_rounds_nil by assumption. reflexivity.
    + simpl. destruct (find sep s) as [i|]; [|reflexivity].
      f_equal. assert (0 < List.length sep) by (destruct sep; [congruence|simpl; lia]).
      apply IH; rewrite length_skipn; lia.
Qed.

(** Joining what [split] cut gives the text back. *)
Lemma join_split_rounds (sep : str) (n : nat) (s : str) :
  join sep (split_rounds n sep s) = s.
Proof.
  revert s; induction n as [|n IH]; intros s; simpl; [reflexivity|].
  destruct (find sep s) as [i|] eqn:E; [|reflexivity].
  pose proof (split_rounds_nonempty n sep (skipn (i + List.length sep) s)) as Hne.
  destruct (split_rounds n sep (skipn (i + List.length sep) s)) as [|x rest] eqn:Er;
    [congruence|].
  change (join sep (firstn i s :: x :: rest))
    with (firstn i s ++ sep ++ join sep (x :: rest)).
  rewrite <- Er, IH. symmetry. exact (proj1 (find_Some _ _ _ E)).
Qed.

Lemma join_split (sep s : str) : join sep (split sep s) = s.
Proof. apply join_split_rounds. Qed.

(** ** Fixed windows *)

Section Windows.

Variable width : nat.
Hypothesis width_pos : 0 < width.
Variable s : str.

Let window (i : nat) : str := slice s i (i + width).
Let total : nat := List.length s.

Lemma window_eq (i : nat) : window i = firstn width (skipn i s).
Proof. unfold window, slice. f_equal. lia. Qed.

Lemma windows_concat (rounds i : nat) :
  total - i <= rounds ->
  List.concat (map window (range_from rounds i total width)) = skipn i s.
Proof.
  revert i; induction rounds as [|r IH]; intros i Hr; simpl.
  - symmetry. apply skipn_all2. unfold total in Hr. lia.
  - destruct (i <? total) eqn:E.
    + apply Nat.ltb_lt in E. simpl. rewrite IH by lia.
      rewrite window_eq, Nat.add_comm, <- skipn_skipn.
      apply firstn_skipn.
    + apply Nat.ltb_ge in E. symmetry. apply skipn_all2. exact E.
Qed.

(** The number of windows is the ceiling of what is left over [width]. *)
Lemma windows_count (rounds i : nat) :
  total - i <= rounds ->
  let n := List.length (range_from rounds i total width) in
  total - i <= n * width /\ n * width < total - i + width.
Proof.
  revert i; induction rounds as [|r IH]; intros i Hr; simpl.
  - lia.
  - destruct (i <? total) eqn:E.
    + apply Nat.ltb_lt in E. simpl List.length.
      destruct (IH (i + width) ltac:(lia)) as [Hlo Hhi].
      set (n := List.length (range_from r (i + width) total width)) in *.
      destruct (le_lt_dec width (total - i)) as [Hw | Hw].
      * split; lia.
      * assert (n = 0) by nia. subst n. rewrite H. lia.
    + apply Nat.ltb_ge in E. simpl. lia.
Qed.

Lemma range_from_nth (rounds i k x : nat) :
  nth_error (range_from rounds i total width) k = Some x ->
  x = i + k * width /\ x < total.
Proof.
  revert i k; induction rounds as [|r IH]; intros i k; simpl.
  - destruct k; discriminate.
  - destruct (i <? total) eqn:E; [|destruct k; discriminate].
    apply Nat.ltb_lt in E. destruct k as [|k]; simpl.
    + intros H; injection H as <-. lia.
    + intros H. apply IH in H. lia.
Qed.

(** Every window but the last is full. *)
Lemma windows_full (rounds i k : nat) :
  S k < List.length (range_from rounds i total width) ->
  List.length (nth k (map window (range_from rounds i total width)) []) = width.
Proof.
  intros Hk.
  destruct (nth_error (range_from rounds i total width) k) as [x|] eqn:Ex;
    [|apply nth_error_None in Ex; lia].
  destruct (nth_error (range_from rounds i total width) (S k)) as [y|] eqn:Ey;
    [|apply nth_error_None in Ey; lia].
  apply range_from_nth in Ey as [-> Hy].
  pose proof (range_from_nth _ _ _ _ Ex) as [Hx _].
  erewrite nth_error_nth; [|apply map_nth_error; exact Ex].
  rewrite window_eq, length_firstn, length_skipn. unfold total in *. simpl in Hy. lia.
Qed.

End Windows.

(** ** Lower case *)

Lemma lower_char_avoid (x c : char) :
  runs_avoid x = true -> (lower_char c = x <-> c = x).
Proof.
  unfold runs_avoid, lower_char. intros Hx. rewrite forallb_forall in Hx.
  destruct (List.find _ lower_runs) as [[[[first last] step] target]|] eqn:E;
    [|tauto].
  apply find_some in E as [Hin Hc]. specialize (Hx _ Hin). cbv beta iota in Hx.
  apply andb_prop in Hc as [Hc _]. apply andb_prop in Hc as [H1 H2].
  apply N.leb_le in H1, H2.
  apply andb_prop in Hx as [Ha Hb].
  apply negb_true_iff, andb_false_iff in Ha, Hb.
  rewrite !N.leb_gt in Ha, Hb. split; intros H; exfalso; lia.
Qed.

Lemma lower_char_dot (c : char) : (lower_char c =? DOT)%N = (c =? DOT)%N.
Proof.
  assert (Hd : runs_avoid DOT = true) by (vm_compute; reflexivity).
  pose proof (lower_char_avoid DOT c Hd) as H.
  destruct (lower_char c =? DOT)%N eqn:E1, (c =? DOT)%N eqn:E2; try reflexivity.
  - apply N.eqb_eq in E1. apply N.eqb_neq in E2. tauto.
  - apply N.eqb_neq in E1. apply N.eqb_eq in E2. tauto.
Qed.

(** What one code point lowers to holds a dot only when it is the dot. *)
Lemma lowered_piece_dot (c : char) (before rest : str) :
  In DOT (if (c =? 931)%N then [handle_capital_sigma before rest] else lower_full c)
  <-> c = DOT.
Proof.
  destruct (c =? 931)%N eqn:Es.
  - apply N.eqb_eq in Es. subst c. unfold handle_capital_sigma.
    split; [|discriminate]. destruct (_ && _); simpl; intuition discriminate.
  - unfold lower_full. destruct (c =? 304)%N eqn:Ei.
    + apply N.eqb_eq in Ei. subst c. split; [|discriminate].
      simpl; intuition discriminate.
    + pose proof (lower_char_dot c) as H. simpl. split.
      * intros [Hc|[]]. apply N.eqb_eq. rewrite <- H. apply N.eqb_eq. exact Hc.
      * intros ->. left. apply N.eqb_eq. rewrite H. apply N.eqb_refl.
Qed.

Lemma lowered_piece_nonempty (c : char) (before rest : str) :
  (if (c =? 931)%N then [handle_capital_sigma before rest] else lower_full c) <> [].
Proof.
  destruct (c =? 931)%N; [discriminate|]. unfold lower_full.
  destruct (c =? 304)%N; discriminate.
Qed.

Lemma lower_from_keeps_dots (before s : str) :
  In DOT (lower_from before s) <-> In DOT s.
Proof.
  revert before. induction s as [|c s IH]; intros before; simpl; [tauto|].
  rewrite in_app_iff, IH, lowered_piece_dot. intuition congruence.
Qed.

Lemma lower_keeps_dots (s : str) : In DOT (lower s) <-> In DOT s.
Proof. apply lower_from_keeps_dots. Qed.

Lemma lower_from_nonempty (before s : str) : s <> [] -> lower_from before s <> [].
Proof.
  destruct s as [|c s]; [congruence|]. intros _ H. simpl in H.
  apply app_eq_nil in H as [H _]. exact (lowered_piece_nonempty _ _ _ H).
Qed.

Lemma cased_before_cons (c : char) (before : str) :
  cased_before (c :: before)
  = if is_case_ignorable c then cased_before before else is_cased c.
Proof. unfold cased_before. simpl. destruct (is_case_ignorable c); reflexivity. Qed.

Lemma lower_from_context (b1 b2 s : str) :
  cased_before b1 = cased_before b2 -> lower_from b1 s = lower_from b2 s.
Proof.
  revert b1 b2. induction s as [|c s IH]; intros b1 b2 H; [reflexivity|].
  cbn [lower_from]. f_equal.
  - destruct (c =? 931)%N; [|reflexivity]. unfold handle_capital_sigma.
    fold (cased_before b1). fold (cased_before b2). rewrite H. reflexivity.
  - apply IH. rewrite !cased_before_cons, H. reflexivity.
Qed.

(** Leading dots are lowered to themselves and leave the rest as it would
    be lowered without them. *)
Lemma lstrip_dot_lower_from (s before : str) :
  cased_before before = false ->
  lstrip_dot (lower_from before s) = lower (lstrip_dot s).
Proof.
  revert before. induction s as [|c s IH]; intros before Hb; [reflexivity|].
  cbn [lstrip_dot]. destruct (c =? DOT)%N eqn:Ec.
  - apply N.eqb_eq in Ec. subst c.
    change (lower_from before (DOT :: s)) with (DOT :: lower_from (DOT :: before) s).
    cbn [lstrip_dot]. rewrite N.eqb_refl. apply IH.
    rewrite cased_before_cons. exact Hb.
  - unfold lower. rewrite (lower_from_context [] before (c :: s)) by (symmetry; exact Hb).
    cbn [lower_from].
    pose proof (lowered_piece_dot c before s) as Hd.
    pose proof (lowered_piece_nonempty c before s) as Hn.
    destruct (if (c =? 931)%N then _ else _) as [|x piece]; [congruence|].
    cbn [app lstrip_dot]. destruct (x =? DOT)%N eqn:Ex; [|reflexivity].
    apply N.eqb_eq in Ex. subst x. apply N.eqb_neq in Ec.
    exfalso. apply Ec. apply Hd. left. reflexivity.
Qed.

Lemma lower_dot_cons (rest : str) : lower (DOT :: rest) = DOT :: lower rest.
Proof.
  unfold lower. change (lower_from [] (DOT :: rest)) with (DOT :: lower_from [DOT] rest).
  f_equal. apply lower_from_context. reflexivity.
Qed.

Example lower_demo :
  lower (lit "REPORT.PDF") = lit "report.pdf"
  /\ lower [201; 88; 69]%N = [233; 120; 101]%N
  /\ lower [304]%N = [105; 775]%N
  /\ lower [927; 916; 927; 931; 46; 931; 913; 931]%N
     = [959; 948; 959; 963; 46; 963; 945; 962]%N
  /\ lower [8490; 65313]%N = [107; 65345]%N.
Proof. repeat split; vm_compute; reflexivity. Qed.

(* ================================================================== *)
(** * The claims *)
(* ================================================================== *)

Lemma shaped_consistent d w p o r :
  (exists m, success_shaped d w p o m r) \/ failure_shaped d r ->
  result_consistent r.
Proof.
  intros [(m & Hs & He & _) | (Hs & Hp & (msg & He) & _ & Hn & _)];
    unfold result_consistent; rewrite Hs, He.
  - split; [split; reflexivity|discriminate].
  - split; [split; discriminate|auto].
Qed.

(** C1 (as the code has it).  For every result a processor or the engine
    returns, [success] is true exactly when [error_message] is [None], and
    a result whose [success] is false has no pages and [pages_processed]
    zero.  The converse, that an empty [pages] means failure, is not part
    of it. *)
Theorem result_invariant :
  (forall d p o w s r s',
      run_processor d p o w s = (inr r, s') -> result_consistent r)
  /\ (forall p oo w s r s',
         DocParseEngine.extract_text p oo w s = (inr r, s') -> result_consistent r).
Proof.
  split.
  - intros d p o w s r s' H.
    exact (shaped_consistent _ _ _ _ _ (processor_shape _ _ _ _ _ _ _ H)).
  - intros p oo w s r s' H0. engine_ok H0.
    destruct (fs_stat w p) as [size|].
    + destruct (DocumentType_of_value _) as [d|].
      * destruct (run_processor d p _ w _) as [[e|r0] s0] eqn:E; [discriminate|].
        intros H; injection H as <- _.
        exact (shaped_consistent _ _ _ _ _ (processor_shape _ _ _ _ _ _ _ E)).
      * intros H; injection H as <- _. unfold result_consistent; simpl.
        split; [split; discriminate|auto].
    + intros H; injection H as <- _. unfold result_consistent; simpl.
      split; [split; discriminate|auto].
Qed.

Lemma result_invariant_witness :
  exists r s',
    DocParseEngine.extract_text (lit "notes.txt") None
      (Scenario.txt_world Scenario.two_pages) initial = (inr r, s')
    /\ result_consistent r.
Proof.
  destruct (DocParseEngine.extract_text (lit "notes.txt") None
              (Scenario.txt_world Scenario.two_pages) initial)
    as [[e|r] s'] eqn:E.
  - vm_compute in E. discriminate.
  - exists r, s'. split; [reflexivity|].
    exact (proj2 result_invariant _ _ _ _ _ _ E).
Defined.

(** C1 as stated fails: a text file that holds one form feed, and a PDF
    with no page, are extracted with [success] true and no page at all. *)
Lemma empty_pages_without_failure :
  (exists r s',
      DocParseEngine.extract_text (lit "blank.txt") None
        (Scenario.txt_world [FF]) initial = (inr r, s')
      /\ success r = true /\ pages r = []
      /\ ~ (success r = false <-> pages r = []))
  /\ (exists r s',
         DocParseEngine.extract_text (lit "empty.pdf") None
           (Scenario.pdf_world (inr []) Scenario.not_that_format) initial = (inr r, s')
         /\ success r = true /\ pages r = []
         /\ ~ (success r = false <-> pages r = [])).
Proof.
  split; eexists; eexists; (split; [vm_compute; reflexivity|]); simpl;
    (split; [reflexivity|]); (split; [reflexivity|]);
    intros [_ H]; specialize (H eq_refl); discriminate.
Qed.

Lemma no_form_feed (content : str) :
  ~ In FF content -> (1 <? len (split [FF] content))%Z = false.
Proof.
  intros H. destruct (1 <? len (split [FF] content))%Z eqn:E; [|reflexivity].
  exfalso; apply H. apply occurs_single. apply split_several in E; [exact E|discriminate].
Qed.

Lemma no_triple_newline (content : str) :
  ~ occurs [NL; NL; NL] content ->
  (1 <? len (split [NL; NL; NL] content))%Z = false.
Proof.
  intros H. destruct (1 <? len (split [NL; NL; NL] content))%Z eqn:E; [|reflexivity].
  exfalso; apply H. apply split_several in E; [exact E|discriminate].
Qed.

(** The window branch of the segmentation, with what the windows add up
    to. *)
Lemma split_into_pages_cases_windows (content : str) :
  3000 < List.length content ->
  ~ In FF content ->
  ~ occurs [NL; NL; NL] content ->
  let windows := map (fun i => slice content i (i + 3000))
                     (range_step 0 (List.length content) 3000) in
  TXTProcessor._split_into_pages content = windows
  /\ (List.length windows = (List.length content + 2999) / 3000
      /\ 3000 * (List.length windows - 1) < List.length content
           <= 3000 * List.length windows
      /\ (forall k, S k < List.length windows ->
                    List.length (nth k windows []) = 3000)
      /\ List.concat windows = content).
Proof.
  intros Hlen Hff Hnl. cbv zeta.
  assert (Hpos : 0 < 3000) by lia.
  split.
  - unfold TXTProcessor._split_into_pages.
    rewrite (no_form_feed _ Hff), (no_triple_newline _ Hnl).
    assert (E : (3000 <? len content)%Z = true)
      by (apply Z.ltb_lt; unfold len; lia).
    rewrite E. reflexivity.
  - unfold range_step. rewrite length_map.
    pose proof (windows_count 3000 Hpos content (List.length content) 0
                  ltac:(lia)) as Hc.
    cbv zeta in Hc.
    set (n := List.length (range_from (List.length content) 0 (List.length content) 3000)) in *.
    rewrite Nat.sub_0_r in Hc. destruct Hc as [Hlo Hhi].
    split; [|split; [|split]].
    + apply Nat.div_unique with (r := List.length content + 2999 - 3000 * n); lia.
    + lia.
    + intros k Hk. apply (windows_full 3000 Hpos content). exact Hk.
    + exact (windows_concat 3000 Hpos content (List.length content) 0 ltac:(lia)).
Qed.

(** C2 (as the code has it).  The segmentation tries form feed, three
    newlines, fixed windows, whole content, in this order.  The form-feed
    split is used as soon as the content holds a form feed, and the
    three-newline split as soon as it holds three newlines in a row,
    whatever the number of non-blank chunks; both cut at the leftmost
    occurrence first, and only their non-blank chunks are kept.  Without
    either separator, a content of more than 3000 characters is cut into
    windows, and a shorter one is one chunk: itself, or the empty chunk when
    it is blank. *)
Theorem split_into_pages_order (content : str) :
  (In FF content ->
     TXTProcessor._split_into_pages content
     = TXTProcessor.keep_nonblank (split [FF] content))
  /\ (~ In FF content -> occurs [NL; NL; NL] content ->
        TXTProcessor._split_into_pages content
        = TXTProcessor.keep_nonblank (split [NL; NL; NL] content))
  /\ (~ In FF content -> ~ occurs [NL; NL; NL] content ->
        3000 < List.length content ->
        TXTProcessor._split_into_pages content
        = map (fun i => slice content i (i + 3000))
              (range_step 0 (List.length content) 3000))
  /\ (~ In FF content -> ~ occurs [NL; NL; NL] content ->
        List.length content <= 3000 ->
        TXTProcessor._split_into_pages content
        = [if truthy (strip content) then content else []])
  /\ (forall chunks chunk,
        In chunk (TXTProcessor.keep_nonblank chunks)
        <-> In chunk chunks /\ strip chunk <> [])
  /\ join [FF] (split [FF] content) = content
  /\ join [NL; NL; NL] (split [NL; NL; NL] content) = content.
Proof.
  unfold TXTProcessor._split_into_pages.
  split; [|split; [|split; [|split; [|split; [|split]]]]].
  - intros H. apply occurs_single in H.
    apply (split_several [FF]) in H; [|discriminate]. rewrite H. reflexivity.
  - intros Hff H. rewrite (no_form_feed _ Hff).
    apply (split_several [NL; NL; NL]) in H; [|discriminate]. rewrite H. reflexivity.
  - intros Hff Hnl Hlen. rewrite (no_form_feed _ Hff), (no_triple_newline _ Hnl).
    assert (E : (3000 <? len content)%Z = true)
      by (apply Z.ltb_lt; unfold len; lia).
    rewrite E. reflexivity.
  - intros Hff Hnl Hlen. rewrite (no_form_feed _ Hff), (no_triple_newline _ Hnl).
    assert (E : (3000 <? len content)%Z = false)
      by (apply Z.ltb_ge; unfold len; lia).
    rewrite E. destruct (truthy (strip content)); reflexivity.
  - intros chunks chunk. unfold TXTProcessor.keep_nonblank.
    rewrite filter_In. split; intros [Hin Hs]; (split; [exact Hin|]).
    + intros E. rewrite E in Hs. discriminate Hs.
    + destruct (strip chunk); [congruence|reflexivity].
  - apply join_split.
  - apply join_split.
Qed.

Lemma split_into_pages_order_witness :
  TXTProcessor._split_into_pages Scenario.trailing_form_feed
  = [lit "a" ++ [NL; NL; NL] ++ lit "b"]
  /\ TXTProcessor._split_into_pages Scenario.four_newlines
     = [lit "a"; NL :: lit "b"].
Proof.
  split.
  - rewrite (proj1 (split_into_pages_order Scenario.trailing_form_feed)).
    + reflexivity.
    + unfold Scenario.trailing_form_feed. rewrite !in_app_iff. simpl. auto.
  - destruct (split_into_pages_order Scenario.four_newlines) as (_ & H & _).
    rewrite H.
    + reflexivity.
    + intros Hin. vm_compute in Hin. intuition discriminate.
    + exists (lit "a"), (NL :: lit "b"). reflexivity.
Defined.

(** C2 as stated fails.  A form feed behind the last page makes the code
    take the form-feed split although one chunk only is not blank, where
    the wording goes on to the newline split; and a run of four newlines
    leaves its fourth newline at the head of the next chunk. *)
Lemma segmentation_differs_from_wording :
  (TXTProcessor._split_into_pages Scenario.trailing_form_feed
   = [lit "a" ++ [NL; NL; NL] ++ lit "b"]
   /\ Worded.split_into_pages Scenario.trailing_form_feed
      = [lit "a"; lit "b" ++ [FF]])
  /\ (TXTProcessor._split_into_pages Scenario.four_newlines = [lit "a"; NL :: lit "b"]
      /\ Worded.split_into_pages Scenario.four_newlines = [lit "a"; lit "b"])
  /\ TXTProcessor._split_into_pages Scenario.trailing_form_feed
     <> Worded.split_into_pages Scenario.trailing_form_feed
  /\ TXTProcessor._split_into_pages Scenario.four_newlines
     <> Worded.split_into_pages Scenario.four_newlines.
Proof.
  split; [split; reflexivity|]. split; [split; reflexivity|].
  split; vm_compute; discriminate.
Qed.

(** C3.  A content of more than 3000 characters with no form feed and no
    three newlines in a row is cut into ceil(L / 3000) chunks, all but the
    last of 3000 characters, whose concatenation is the content. *)
Theorem fixed_window_segmentation (content : str) :
  3000 < List.length content ->
  ~ In FF content ->
  ~ occurs [NL; NL; NL] content ->
  let chunks := TXTProcessor._split_into_pages content in
  let n := List.length chunks in
  n = (List.length content + 2999) / 3000
  /\ 3000 * (n - 1) < List.length content <= 3000 * n
  /\ (forall k, S k < n -> List.length (nth k chunks []) = 3000)
  /\ List.concat chunks = content.
Proof.
  intros Hlen Hff Hnl.
  destruct (split_into_pages_cases_windows content Hlen Hff Hnl) as [E Hw].
  cbv zeta. rewrite E. exact Hw.
Qed.

Lemma fixed_window_segmentation_witness :
  List.length (TXTProcessor._split_into_pages Scenario.long_line) = 2
  /\ List.concat (TXTProcessor._split_into_pages Scenario.long_line)
     = Scenario.long_line.
Proof.
  assert (Hlen : 3000 < List.length Scenario.long_line).
  { unfold Scenario.long_line. rewrite repeat_length. lia. }
  assert (Hff : ~ In FF Scenario.long_line).
  { intros H. apply repeat_spec in H. discriminate. }
  assert (Hnl : ~ occurs [NL; NL; NL] Scenario.long_line).
  { apply find_None. vm_compute. reflexivity. }
  destruct (fixed_window_segmentation Scenario.long_line Hlen Hff Hnl)
    as (Hn & _ & _ & Hc).
  split; [|exact Hc].
  rewrite Hn. unfold Scenario.long_line. rewrite repeat_length. reflexivity.
Defined.

Lemma identified_nonneg d w p o m n : identified d w p o m n -> (0 <= n)%Z.
Proof.
  destruct d, m; simpl; try contradiction;
    intros (x & _ & ->); unfold len; lia.
Qed.

Lemma success_is_shaped d p o w s r s' :
  run_processor d p o w s = (inr r, s') -> success r = true ->
  exists m, success_shaped d w p o m r.
Proof.
  intros H Hs. apply processor_shape in H as [H | (Hf & _)]; [exact H|congruence].
Qed.

(** C4 (as the code has it).  In every successful extraction,
    [total_pages] is the number of pages or chunks the processor found in
    the document, and [pages_processed] is [min(max_pages, total_pages)]
    for a positive [max_pages] and [total_pages] when [max_pages] is unset;
    in both cases [pages] has [pages_processed] entries.  In general
    [pages] has [max(pages_processed, 0)] entries: a negative [max_pages]
    is taken as it is, [pages_processed] is that negative number, and there
    is no page. *)
Theorem page_counts d p o w s r s' :
  run_processor d p o w s = (inr r, s') ->
  success r = true ->
  (exists m, identified d w p o m (total_pages (metadata r))
             /\ extraction_method (metadata r) = ExtractionMethod_value m)
  /\ (max_pages o = None ->
        pages_processed (metadata r) = total_pages (metadata r)
        /\ len (pages r) = pages_processed (metadata r))
  /\ (forall n, max_pages o = Some n -> (0 < n)%Z ->
        pages_processed (metadata r) = Z.min n (total_pages (metadata r))
        /\ len (pages r) = pages_processed (metadata r))
  /\ (forall n, max_pages o = Some n -> (n < 0)%Z ->
        pages_processed (metadata r) = n /\ pages r = [])
  /\ len (pages r) = Z.max (pages_processed (metadata r)) 0.
Proof.
  intros H Hs.
  destruct (success_is_shaped _ _ _ _ _ _ _ H Hs)
    as (m & _ & _ & Hid & Hm & Hpp & Hlen & _).
  pose proof (identified_nonneg _ _ _ _ _ _ Hid) as Hnn.
  unfold pages_to_process_of in Hpp.
  split; [exists m; auto|]. split; [|split; [|split]].
  - intros Hnone. rewrite Hnone in Hpp. simpl in Hpp. unfold len. rewrite Hlen. lia.
  - intros n Hsome Hpos. rewrite Hsome in Hpp. simpl in Hpp. unfold len. rewrite Hlen.
    destruct (n =? 0)%Z eqn:E; [apply Z.eqb_eq in E; lia|]. lia.
  - intros n Hsome Hneg. rewrite Hsome in Hpp. simpl in Hpp.
    destruct (n =? 0)%Z eqn:E; [apply Z.eqb_eq in E; lia|].
    assert (Hn : pages_processed (metadata r) = n) by lia.
    split; [exact Hn|]. apply length_zero_iff_nil. rewrite Hlen, Hn. lia.
  - unfold len. rewrite Hlen. lia.
Qed.

Lemma page_counts_witness :
  exists r s',
    run_processor PDF (lit "big.pdf") (Scenario.options_with (Some 1%Z))
      (Scenario.pdf_world (inr Scenario.five_pages) Scenario.not_that_format)
      initial = (inr r, s')
    /\ total_pages (metadata r) = 5%Z
    /\ pages_processed (metadata r) = Z.min 1 (total_pages (metadata r))
    /\ len (pages r) = pages_processed (metadata r).
Proof.
  destruct (run_processor PDF (lit "big.pdf") (Scenario.options_with (Some 1%Z))
              (Scenario.pdf_world (inr Scenario.five_pages) Scenario.not_that_format)
              initial) as [[e|r] s'] eqn:E; [vm_compute in E; discriminate|].
  assert (Hs : success r = true /\ total_pages (metadata r) = 5%Z)
    by (vm_compute in E; injection E as <- _; split; reflexivity).
  destruct Hs as [Hs Ht].
  destruct (page_counts _ _ _ _ _ _ _ E Hs) as (_ & _ & Hcap & _).
  destruct (Hcap 1%Z eq_refl ltac:(lia)) as [Hpp Hlen].
  exists r, s'. auto.
Defined.

(** C4 as stated fails: with [max_pages = -2] the extraction succeeds,
    [pages_processed] is -2, and [pages] has no entry, not -2 of them. *)
Lemma negative_cap_counts_differ :
  exists r s',
    run_processor TXT (lit "notes.txt") (Scenario.options_with (Some (-2)%Z))
      (Scenario.txt_world Scenario.two_pages) initial = (inr r, s')
    /\ success r = true
    /\ total_pages (metadata r) = 2%Z
    /\ pages_processed (metadata r) = (-2)%Z
    /\ len (pages r) = 0%Z
    /\ len (pages r) <> pages_processed (metadata r).
Proof.
  eexists; eexists. split; [vm_compute; reflexivity|]. simpl.
  repeat (split; [reflexivity|]). discriminate.
Qed.

(** C5 (as the code has it).  When the primary sub-strategy raises and
    the fallback raises too, and the path can be looked at ([exists] does
    not raise in the [except] block), the PDF processor returns a failure:
    no pages, method ["failed"], zero [total_pages] and [pages_processed],
    and the message of the primary error, not of the fallback's. *)
Theorem pdf_both_backends_fail p o w s e1 s1 e2 s2 :
  stat_error w p = None ->
  PDFProcessor._extract_with_pdfplumber p o (clock w (ticks s)) w
    {| ticks := S (ticks s); trace := trace s |} = (inl e1, s1) ->
  PDFProcessor._extract_with_pymupdf p o (clock w (ticks s)) w
    (logged [WARNING] s1) = (inl e2, s2) ->
  exists r s',
    PDFProcessor.extract_text p o w s = (inr r, s')
    /\ success r = false
    /\ pages r = []
    /\ extraction_method (metadata r) = lit "failed"
    /\ total_pages (metadata r) = 0%Z
    /\ pages_processed (metadata r) = 0%Z
    /\ error_message r = Some (lit "PDF extraction failed: " ++ exn_str e1).
Proof.
  intros Hok H1 H2.
  destruct (failure_handler_returns PDF p (clock w (ticks s))
              (lit "PDF extraction failed: " ++ exn_str e1) w s2 Hok)
    as (r & s' & E & (Hs & Hp & _ & Ht & Hpp & Hm & _) & He & _).
  exists r, s'. split; [|auto 10].
  unfold PDFProcessor.extract_text.
  unfold bind at 1. unfold datetime_now at 1.
  unfold try_except at 1. rewrite H1.
  unfold bind at 1. unfold log at 1, emit at 1.
  unfold try_except at 1.
  change {| ticks := ticks s1; trace := EvLog WARNING :: trace s1 |}
    with (logged [WARNING] s1).
  rewrite H2. exact E.
Qed.

Lemma pdf_both_backends_fail_witness :
  exists r s',
    PDFProcessor.extract_text (lit "broken.pdf") ProcessingOptions_default
      (Scenario.pdf_world (inl (Scenario.boom "No /Root object"))
                          (inl (Scenario.boom "cannot open broken document")))
      initial = (inr r, s')
    /\ success r = false
    /\ pages r = []
    /\ extraction_method (metadata r) = lit "failed"
    /\ total_pages (metadata r) = 0%Z
    /\ pages_processed (metadata r) = 0%Z
    /\ error_message r
       = Some (lit "PDF extraction failed: "
               ++ exn_str (Scenario.boom "No /Root object")).
Proof.
  eapply (pdf_both_backends_fail (lit "broken.pdf") ProcessingOptions_default
            (Scenario.pdf_world (inl (Scenario.boom "No /Root object"))
                                (inl (Scenario.boom "cannot open broken document")))
            initial (Scenario.boom "No /Root object")
            {| ticks := 1; trace := [EvOpen PDFPLUMBER] |}
            (Scenario.boom "cannot open broken document")
            {| ticks := 1; trace := [EvOpen PYMUPDF; EvLog WARNING; EvOpen PDFPLUMBER] |});
    reflexivity.
Defined.

(** C5 as stated fails: for a name too long for the file system both
    sub-strategies raise, and the PDF processor returns no failure: the
    error of [exists], called in the [except] block, leaves it. *)
Lemma pdf_failure_escapes :
  exists e1 s1 e2 s2 s',
    PDFProcessor._extract_with_pdfplumber Scenario.long_name ProcessingOptions_default
      0%Z Scenario.unreadable_world {| ticks := 1; trace := [] |} = (inl e1, s1)
    /\ PDFProcessor._extract_with_pymupdf Scenario.long_name ProcessingOptions_default
         0%Z Scenario.unreadable_world (logged [WARNING] s1) = (inl e2, s2)
    /\ PDFProcessor.extract_text Scenario.long_name ProcessingOptions_default
         Scenario.unreadable_world initial = (inl Scenario.name_too_long, s')
    /\ forall r s'',
         PDFProcessor.extract_text Scenario.long_name ProcessingOptions_default
           Scenario.unreadable_world initial <> (inr r, s'').
Proof.
  eexists; eexists; eexists; eexists; eexists.
  split; [vm_compute; reflexivity|]. split; [vm_compute; reflexivity|].
  split; [vm_compute; reflexivity|].
  intros r s'' H. vm_compute in H. discriminate.
Qed.

(** C6.  Every page a processor produces has a text without whitespace at
    either end, a [word_count] that is zero exactly for the empty text and
    counts the whitespace-separated words otherwise, a [character_count]
    that is the length of the text, and a [tables_count] that is the number
    of tables. *)
Theorem pages_well_formed d p o w s r s' :
  run_processor d p o w s = (inr r, s') ->
  Forall page_well_formed (pages r).
Proof.
  intros H.
  apply processor_shape in H
    as [(m & _ & _ & _ & _ & _ & _ & Hall & _) | (_ & Hp & _)].
  - exact Hall.
  - rewrite Hp. constructor.
Qed.

Lemma pages_well_formed_witness :
  exists r s',
    run_processor DOCX (lit "letter.docx") ProcessingOptions_default
      (Scenario.docx_world [lit " Dear all, "; lit "  "; lit "see you  soon "; lit "B."])
      initial = (inr r, s')
    /\ map text (pages r) = [lit "Dear all,"; lit "see you  soon" ++ [NL] ++ lit "B."]
    /\ Forall page_well_formed (pages r).
Proof.
  destruct (run_processor DOCX (lit "letter.docx") ProcessingOptions_default
              (Scenario.docx_world
                 [lit " Dear all, "; lit "  "; lit "see you  soon "; lit "B."])
              initial) as [[e|r] s'] eqn:E; [vm_compute in E; discriminate|].
  exists r, s'. split; [reflexivity|]. split.
  - vm_compute in E. injection E as <- _. reflexivity.
  - exact (pages_well_formed _ _ _ _ _ _ _ E).
Defined.

(** Lowering the suffix and then dropping the dot is lowering the
    extension as written. *)
Lemma extension_is_lowered_raw (p : Path) :
  DocParseEngine.extension_of p = lower (Worded.raw_extension p).
Proof.
  unfold DocParseEngine.extension_of, Worded.raw_extension, lower at 1.
  apply lstrip_dot_lower_from. reflexivity.
Qed.

Lemma only_logged (s : State) (l1 l2 : level) (n : nat) :
  no_processor_called s {| ticks := n; trace := EvLog l1 :: EvLog l2 :: trace s |}.
Proof.
  exists [EvLog l1; EvLog l2]. split; [reflexivity|].
  intros ev [<- | [<- | []]]; eauto.
Qed.

(** C7 (as the code has it).  For a path that [exists] answers with
    [False] ([stat] finds no such file, and raises no other error) the
    engine returns, with no processor called, a failure with the message
    ["File not found"], document type ["unknown"], and zero [file_size],
    [total_pages], [pages_processed] and [processing_time]. *)
Theorem file_not_found p oo w s :
  stat_error w p = None ->
  fs_stat w p = None ->
  exists r s',
    DocParseEngine.extract_text p oo w s = (inr r, s')
    /\ success r = false
    /\ pages r = []
    /\ error_message r = Some (lit "File not found")
    /\ document_type (metadata r) = lit "unknown"
    /\ file_size (metadata r) = 0%Z
    /\ total_pages (metadata r) = 0%Z
    /\ pages_processed (metadata r) = 0%Z
    /\ processing_time (metadata r) = 0%Z
    /\ no_processor_called s s'.
Proof.
  intros Hok Hstat. rewrite (engine_run _ _ _ _ Hok), Hstat.
  eexists; eexists. split; [reflexivity|]. simpl.
  repeat (split; [reflexivity|]). apply only_logged.
Qed.

Lemma file_not_found_witness :
  exists r s',
    DocParseEngine.extract_text (lit "/tmp/gone.pdf") None
      Scenario.no_file_world initial = (inr r, s')
    /\ success r = false
    /\ pages r = []
    /\ error_message r = Some (lit "File not found")
    /\ document_type (metadata r) = lit "unknown"
    /\ file_size (metadata r) = 0%Z
    /\ total_pages (metadata r) = 0%Z
    /\ pages_processed (metadata r) = 0%Z
    /\ processing_time (metadata r) = 0%Z
    /\ no_processor_called initial s'.
Proof.
  apply (file_not_found (lit "/tmp/gone.pdf") None Scenario.no_file_world initial);
    reflexivity.
Defined.

(** C7 as stated fails: a name too long for the file system references no
    existing file, and the engine returns nothing for it: the error of
    [exists] leaves [extract_text]. *)
Lemma missing_path_raises :
  fs_stat Scenario.unreadable_world Scenario.long_name = None
  /\ List.length Scenario.long_name = 300
  /\ DocParseEngine.extract_text Scenario.long_name None
       Scenario.unreadable_world initial
     = (inl Scenario.name_too_long, logged [INFO] initial)
  /\ forall r s',
       DocParseEngine.extract_text Scenario.long_name None
         Scenario.unreadable_world initial <> (inr r, s').
Proof.
  split; [reflexivity|]. split; [vm_compute; reflexivity|].
  assert (E : DocParseEngine.extract_text Scenario.long_name None
                Scenario.unreadable_world initial
              = (inl Scenario.name_too_long, logged [INFO] initial))
    by (apply engine_raises; reflexivity).
  split; [exact E|]. intros r s'. rewrite E. discriminate.
Qed.

(** C8 (as the code has it).  For an existing file whose extension,
    lower-cased, is none of pdf, txt, docx, the engine returns, with no
    processor called, a failure whose [document_type] is that extension
    lower-cased and without its dot, with zero [total_pages] and
    [pages_processed]. *)
Theorem unsupported_extension p oo w s size :
  stat_error w p = None ->
  fs_stat w p = Some size ->
  ~ In (lower (Worded.raw_extension p)) DocParseEngine.get_supported_extensions ->
  exists r s',
    DocParseEngine.extract_text p oo w s = (inr r, s')
    /\ success r = false
    /\ pages r = []
    /\ document_type (metadata r) = lower (Worded.raw_extension p)
    /\ error_message r
       = Some (lit "Unsupported file type: " ++ lower (Worded.raw_extension p))
    /\ total_pages (metadata r) = 0%Z
    /\ pages_processed (metadata r) = 0%Z
    /\ no_processor_called s s'.
Proof.
  intros Hok Hstat Hext. rewrite <- extension_is_lowered_raw in *.
  apply DocumentType_of_value_None in Hext.
  rewrite (engine_run _ _ _ _ Hok), Hstat, Hext.
  eexists; eexists. split; [reflexivity|]. simpl.
  repeat (split; [reflexivity|]). apply only_logged.
Qed.

Lemma unsupported_extension_witness :
  exists r s',
    DocParseEngine.extract_text (lit "report.xyz") None
      (Scenario.txt_world (lit "hello")) initial = (inr r, s')
    /\ success r = false
    /\ document_type (metadata r) = lit "xyz".
Proof.
  destruct (unsupported_extension (lit "report.xyz") None
              (Scenario.txt_world (lit "hello")) initial 5%Z eq_refl eq_refl)
    as (r & s' & E & Hs & _ & Hd & _).
  - vm_compute. intuition discriminate.
  - exists r, s'. split; [exact E|]. split; [exact Hs|]. rewrite Hd. reflexivity.
Defined.

(** Lowering is that of [str.lower]: [REPORT.EXE] with U+00C9 for the
    first E of the extension gives the document type [exe] with U+00E9 for
    its first letter. *)
Example non_ascii_extension_demo :
  exists r s',
    DocParseEngine.extract_text (lit "REPORT." ++ [201; 88; 69]%N) None
      (Scenario.txt_world (lit "hello")) initial = (inr r, s')
    /\ success r = false
    /\ document_type (metadata r) = [233; 120; 101]%N
    /\ error_message r = Some (lit "Unsupported file type: " ++ [233; 120; 101]%N).
Proof.
  eexists; eexists. split; [vm_compute; reflexivity|]. simpl.
  repeat split; reflexivity.
Qed.

(** C8 as stated fails: for [REPORT.XYZ] the document type is ["xyz"], not
    the extension as the name has it. *)
Lemma document_type_is_not_raw :
  exists r s',
    DocParseEngine.extract_text (lit "REPORT.XYZ") None
      (Scenario.txt_world (lit "hello")) initial = (inr r, s')
    /\ success r = false
    /\ Worded.raw_extension (lit "REPORT.XYZ") = lit "XYZ"
    /\ document_type (metadata r) = lit "xyz"
    /\ document_type (metadata r) <> Worded.raw_extension (lit "REPORT.XYZ").
Proof.
  eexists; eexists. split; [vm_compute; reflexivity|]. simpl.
  split; [reflexivity|]. split; [reflexivity|]. split; [reflexivity|].
  vm_compute. discriminate.
Qed.

Lemma engine_returns p oo w s :
  stat_error w p = None ->
  exists r s', DocParseEngine.extract_text p oo w s = (inr r, s').
Proof.
  intros Hok.
  rewrite (engine_run _ _ _ _ Hok). destruct (fs_stat w p) as [size|]; [|eauto].
  destruct (DocumentType_of_value _) as [d|]; [|eauto].
  destruct (processor_returns d p (options_or_default oo) w
              {| ticks := ticks s; trace := EvDispatch d :: EvLog INFO :: trace s |} Hok)
    as (r & s' & E).
  rewrite E. eauto.
Qed.

Lemma txt_read_error p o w s e r s' :
  open_read w p (encoding o) (error_handling o) = inl e ->
  TXTProcessor.extract_text p o w s = (inr r, s') ->
  failure_shaped TXT r
  /\ error_message r = Some (lit "TXT extraction failed: " ++ exn_str e).
Proof.
  intros Hread. unfold TXTProcessor.extract_text.
  unfold bind at 1. unfold datetime_now at 1. unfold try_except at 1.
  unfold bind at 1. unfold emit at 1. unfold bind at 1. unfold call at 1.
  rewrite Hread. apply failure_handler_inr.
Qed.

Lemma docx_parse_error p o w s e r s' :
  docx_Document w p = inl e ->
  DOCXProcessor.extract_text p o w s = (inr r, s') ->
  failure_shaped DOCX r
  /\ error_message r = Some (lit "DOCX extraction failed: " ++ exn_str e).
Proof.
  intros Hread. unfold DOCXProcessor.extract_text.
  unfold bind at 1. unfold datetime_now at 1. unfold try_except at 1.
  unfold bind at 1. unfold emit at 1. unfold bind at 1. unfold call at 1.
  rewrite Hread. apply failure_handler_inr.
Qed.

Lemma pdf_primary_error p o w s e1 s1 r s' :
  PDFProcessor._extract_with_pdfplumber p o (clock w (ticks s)) w
    {| ticks := S (ticks s); trace := trace s |} = (inl e1, s1) ->
  PDFProcessor.extract_text p o w s = (inr r, s') ->
  success_shaped PDF w p o PYMUPDF r
  \/ (failure_shaped PDF r
      /\ error_message r = Some (lit "PDF extraction failed: " ++ exn_str e1)).
Proof.
  intros H1. unfold PDFProcessor.extract_text.
  unfold bind at 1. unfold datetime_now at 1. unfold try_except at 1.
  rewrite H1. intros H. apply bind_inr in H as (u & s2 & _ & H).
  apply try_except_inr in H as [H | (e2 & s3 & _ & H)].
  - left. exact (pymupdf_shape _ _ _ _ _ _ _ H).
  - right. exact (failure_handler_inr _ _ _ _ _ _ _ _ H).
Qed.

(** C9 (as the code has it).  For a path that can be looked at ([exists]
    and [stat] raise nothing but "no such file"), each processor and the
    engine return a result, a success or a fully formed failure, and do not
    raise.  A read or parse error of the TXT and DOCX processors becomes a
    failure that carries its message.  An error of the primary PDF
    sub-strategy is answered by the fallback: the result is the fallback's
    success, or, when the fallback raises too, a failure that carries the
    primary's message. *)
Theorem extraction_never_raises p w s :
  stat_error w p = None ->
  (forall d o, exists r s',
      run_processor d p o w s = (inr r, s')
      /\ ((success r = true /\ error_message r = None) \/ failure_shaped d r))
  /\ (forall oo, exists r s', DocParseEngine.extract_text p oo w s = (inr r, s'))
  /\ (forall o e r s',
        open_read w p (encoding o) (error_handling o) = inl e ->
        run_processor TXT p o w s = (inr r, s') ->
        success r = false
        /\ error_message r = Some (lit "TXT extraction failed: " ++ exn_str e))
  /\ (forall o e r s',
        docx_Document w p = inl e ->
        run_processor DOCX p o w s = (inr r, s') ->
        success r = false
        /\ error_message r = Some (lit "DOCX extraction failed: " ++ exn_str e))
  /\ (forall o e1 s1 r s',
        PDFProcessor._extract_with_pdfplumber p o (clock w (ticks s)) w
          {| ticks := S (ticks s); trace := trace s |} = (inl e1, s1) ->
        run_processor PDF p o w s = (inr r, s') ->
        (success r = true
         /\ extraction_method (metadata r) = ExtractionMethod_value PYMUPDF)
        \/ (success r = false
            /\ error_message r = Some (lit "PDF extraction failed: " ++ exn_str e1))).
Proof.
  intros Hok. split; [|split; [|split; [|split]]].
  - intros d o. destruct (processor_returns d p o w s Hok) as (r & s' & E).
    exists r, s'. split; [exact E|].
    apply processor_shape in E as [(m & Hs & He & _) | Hf]; auto.
  - intros oo. apply engine_returns. exact Hok.
  - intros o e r s' Hread H.
    destruct (txt_read_error _ _ _ _ _ _ _ Hread H) as [(Hs & _) He]. auto.
  - intros o e r s' Hread H.
    destruct (docx_parse_error _ _ _ _ _ _ _ Hread H) as [(Hs & _) He]. auto.
  - intros o e1 s1 r s' H1 H.
    destruct (pdf_primary_error _ _ _ _ _ _ _ _ H1 H)
      as [(Hs & _ & _ & Hm & _) | [(Hs & _) He]]; auto.
Qed.

Lemma extraction_never_raises_witness :
  exists r s',
    run_processor TXT (lit "latin1.txt") ProcessingOptions_default
      (Scenario.world (Some 12%Z) Scenario.not_that_format Scenario.not_that_format
         (inl (Scenario.boom "'utf-8' codec can't decode byte 0xe9"))
         Scenario.not_that_format)
      initial = (inr r, s')
    /\ success r = false
    /\ error_message r
       = Some (lit "TXT extraction failed: "
               ++ lit "'utf-8' codec can't decode byte 0xe9").
Proof.
  destruct (run_processor TXT (lit "latin1.txt") ProcessingOptions_default
      (Scenario.world (Some 12%Z) Scenario.not_that_format Scenario.not_that_format
         (inl (Scenario.boom "'utf-8' codec can't decode byte 0xe9"))
         Scenario.not_that_format)
      initial) as [[e|r] s'] eqn:E; [vm_compute in E; discriminate|].
  exists r, s'. split; [reflexivity|].
  destruct (extraction_never_raises (lit "latin1.txt")
      (Scenario.world (Some 12%Z) Scenario.not_that_format Scenario.not_that_format
         (inl (Scenario.boom "'utf-8' codec can't decode byte 0xe9"))
         Scenario.not_that_format) initial eq_refl) as (_ & _ & Htxt & _).
  exact (Htxt ProcessingOptions_default _ r s' eq_refl E).
Defined.

(** C9 as stated fails: for a name too long for the file system the
    engine and every processor raise: the error of [exists] is no format
    library's, it is raised before the engine's dispatch, and again inside
    each processor's [except] block, and leaves [extract_text]. *)
Lemma stat_error_escapes :
  (exists s',
      DocParseEngine.extract_text Scenario.long_name None
        Scenario.unreadable_world initial = (inl Scenario.name_too_long, s'))
  /\ (forall d, exists s',
         run_processor d Scenario.long_name ProcessingOptions_default
           Scenario.unreadable_world initial = (inl Scenario.name_too_long, s'))
  /\ ~ (exists r s',
          DocParseEngine.extract_text Scenario.long_name None
            Scenario.unreadable_world initial = (inr r, s')).
Proof.
  split; [eexists; vm_compute; reflexivity|].
  split; [intros d; destruct d; eexists; vm_compute; reflexivity|].
  intros (r & s' & H). vm_compute in H. discriminate.
Qed.

(** C10.  With [max_pages = 0] every processor runs exactly as with
    [max_pages] unset: [pages_processed] is [total_pages] and no page is
    cut off. *)
Theorem zero_max_pages_is_unset d p o w s :
  run_processor d p (with_max_pages o (Some 0%Z)) w s
  = run_processor d p (with_max_pages o None) w s
  /\ (forall r s',
        run_processor d p (with_max_pages o (Some 0%Z)) w s = (inr r, s') ->
        success r = true ->
        pages_processed (metadata r) = total_pages (metadata r)
        /\ len (pages r) = total_pages (metadata r)).
Proof.
  split; [destruct d; reflexivity|].
  intros r s' H Hs.
  destruct (success_is_shaped _ _ _ _ _ _ _ H Hs)
    as (m & _ & _ & Hid & _ & Hpp & Hlen & _).
  pose proof (identified_nonneg _ _ _ _ _ _ Hid) as Hnn.
  unfold pages_to_process_of in Hpp. simpl in Hpp.
  unfold len. rewrite Hlen. lia.
Qed.

Lemma zero_max_pages_is_unset_witness :
  exists r s',
    run_processor TXT (lit "notes.txt")
      (with_max_pages ProcessingOptions_default (Some 0%Z))
      (Scenario.txt_world Scenario.two_pages) initial = (inr r, s')
    /\ pages_processed (metadata r) = total_pages (metadata r)
    /\ len (pages r) = total_pages (metadata r)
    /\ total_pages (metadata r) = 2%Z.
Proof.
  destruct (run_processor TXT (lit "notes.txt")
              (with_max_pages ProcessingOptions_default (Some 0%Z))
              (Scenario.txt_world Scenario.two_pages) initial)
    as [[e|r] s'] eqn:E; [vm_compute in E; discriminate|].
  assert (Hs : success r = true /\ total_pages (metadata r) = 2%Z)
    by (vm_compute in E; injection E as <- _; split; reflexivity).
  destruct Hs as [Hs Ht].
  destruct (proj2 (zero_max_pages_is_unset TXT (lit "notes.txt")
                     ProcessingOptions_default
                     (Scenario.txt_world Scenario.two_pages) initial) r s' E Hs)
    as [Hpp Hlen].
  exists r, s'. auto.
Defined.

(* ================================================================== *)
(** * Further properties of the code *)
(* ================================================================== *)

(** ** A run, step by step, is the attempt as a value *)

Lemma create_metadata_run d m p total processed t w s :
  create_metadata d m p total processed t w s =
  match stat_size w p with
  | inr size =>
      (inr (metadata_at w p d m size total processed t s), stamped s)
  | inl e => (inl e, s)
  end.
Proof.
  unfold create_metadata. unfold bind at 1. unfold stat_st_size, stat_size.
  destruct (stat_error w p); [reflexivity|]. destruct (fs_stat w p); reflexivity.
Qed.

Lemma stat_size_inr w p size :
  stat_size w p = inr size <-> stat_error w p = None /\ fs_stat w p = Some size.
Proof.
  unfold stat_size. destruct (stat_error w p); [intuition discriminate|].
  destruct (fs_stat w p); intuition congruence.
Qed.

Lemma for_each_collect {A B : Type} (f : A -> M B) (g : A -> exn + B)
    (l : list A) w s :
  (forall x s0, In x l -> f x w s0 = (g x, s0)) ->
  for_each f l w s = (collect (map g l), s).
Proof.
  revert s; induction l as [|x l IH]; intros s Hf; simpl; [reflexivity|].
  unfold bind at 1. rewrite (Hf x s (or_introl eq_refl)).
  destruct (g x) as [e|y]; [reflexivity|].
  unfold bind. rewrite IH by (intros; apply Hf; right; assumption).
  destruct (collect (map g l)); reflexivity.
Qed.

Lemma numbered_from_seq {A : Type} (start : nat) (l : list A) :
  numbered_from start l
  = combine (map Z.of_nat (seq start (List.length l))) l.
Proof.
  revert start; induction l as [|x l IH]; intros start; simpl; [reflexivity|].
  rewrite IH. reflexivity.
Qed.

Lemma numbered_from_length {A : Type} (start : nat) (l : list A) :
  List.length (numbered_from start l) = List.length l.
Proof. revert start; induction l; intros; simpl; auto. Qed.

(** The loop over [range n] that fetches item [i] and builds from it is the
    collection over the first [n] numbered items. *)
Lemma for_each_numbered {A B : Type} (step : Z -> A -> M B)
    (g : Z -> A -> exn + B) (l : list A) (n : nat) w s :
  (forall i x s0, step i x w s0 = (g i x, s0)) ->
  n <= List.length l ->
  for_each (fun i => x <- getitem l i ;; step i x) (map Z.of_nat (seq 0 n)) w s
  = (collect (map (fun '(i, x) => g i x) (firstn n (numbered l))), s).
Proof.
  intros Hstep.
  assert (Hgen : forall (rest : list A) (start : nat) s0,
             (forall k, k < List.length rest ->
                        nth_error l (start + k) = nth_error rest k) ->
             n - start <= List.length rest -> start <= n ->
             for_each (fun i => x <- getitem l i ;; step i x)
               (map Z.of_nat (seq start (n - start))) w s0
             = (collect (map (fun '(i, x) => g i x)
                             (firstn (n - start) (numbered_from start rest))), s0)).
  { intros rest start. remember (n - start) as todo eqn:Et.
    revert rest start Et.
    induction todo as [|todo IH]; intros rest start Et s0 Hnth Hlen Hle;
      [reflexivity|].
    destruct rest as [|x rest]; [simpl in Hlen; lia|].
    simpl. unfold bind at 1. unfold bind at 1.
    assert (Hget : getitem l (Z.of_nat start) w s0 = (inr x, s0)).
    { unfold getitem.
      destruct (Z.of_nat start <? 0)%Z eqn:E; [apply Z.ltb_lt in E; lia|].
      rewrite E, Nat2Z.id.
      specialize (Hnth 0 ltac:(simpl; lia)). rewrite Nat.add_0_r in Hnth.
      rewrite Hnth. reflexivity. }
    rewrite Hget, Hstep.
    destruct (g (Z.of_nat start) x) as [e|y]; [reflexivity|].
    unfold bind.
    rewrite (IH rest (S start)); try lia.
    - destruct (collect _); reflexivity.
    - intros k Hk. specialize (Hnth (S k) ltac:(simpl; lia)).
      simpl nth_error in Hnth. rewrite <- Hnth. f_equal. lia.
    - simpl in Hlen. lia. }
  intros Hn. specialize (Hgen l 0 s). rewrite Nat.sub_0_r in Hgen.
  apply Hgen; [intros; reflexivity|lia|lia].
Qed.

Lemma pages_to_process_fits {A : Type} (o : ProcessingOptions) (l : list A) :
  Z.to_nat (pages_to_process_of o (len l)) <= List.length l.
Proof.
  pose proof (pages_to_process_le o (len l)). unfold len in *. lia.
Qed.

Lemma numbered_from_map {A B : Type} (f : A -> B) (start : nat) (l : list A) :
  numbered_from start (map f l)
  = map (fun '(i, x) => (i, f x)) (numbered_from start l).
Proof.
  revert start; induction l as [|x l IH]; intros start; simpl; [reflexivity|].
  rewrite IH. reflexivity.
Qed.

Lemma built_pages_map {A : Type} (o : ProcessingOptions)
    (g : Z -> A -> exn + PageContent) (l : list A) :
  built_pages o (map (fun x i => g i x) l)
  = collect (map (fun '(i, x) => g i x)
                 (firstn (Z.to_nat (pages_to_process_of o (len l))) (numbered l))).
Proof.
  unfold built_pages, numbered, len. rewrite length_map, numbered_from_map.
  rewrite firstn_map, map_map. f_equal. apply map_ext. intros [i x]. reflexivity.
Qed.

Lemma len_map {A B : Type} (f : A -> B) (l : list A) : len (map f l) = len l.
Proof. unfold len. rewrite length_map. reflexivity. Qed.

Lemma pdfplumber_is_attempt p o t w s :
  PDFProcessor._extract_with_pdfplumber p o t w s = attempt PDFPLUMBER p o t w s.
Proof.
  unfold PDFProcessor._extract_with_pdfplumber, attempt, document_units.
  unfold bind at 1. unfold emit at 1. fold (opened PDFPLUMBER s).
  unfold bind at 1. unfold call at 1.
  destruct (pdfplumber_open w p) as [e|pdf_pages]; [reflexivity|].
  unfold bind at 1. unfold range.
  rewrite (for_each_numbered
             (fun i page =>
                extracted <- call (fun _ => pp_extract_text page) ;;
                tables <- (if extract_tables o
                           then found <- call (fun _ => pp_extract_tables page) ;;
                                ret (or_list found)
                           else ret []) ;;
                ret {| page_number := i + 1;
                       text := strip (or_str extracted);
                       word_count := if truthy (strip (or_str extracted))
                                     then len (split_ws (or_str extracted)) else 0%Z;
                       character_count := len (strip (or_str extracted));
                       tables_count := len tables;
                       tables := tables |})
             (plumber_page_content o)).
  - rewrite built_pages_map.
    destruct (collect _) as [e|pages]; [reflexivity|].
    unfold bind. rewrite create_metadata_run, !len_map.
    destruct (stat_size w p); reflexivity.
  - intros i page s0. unfold plumber_page_content, bind, call, ret.
    destruct (pp_extract_text page) as [e|extracted]; [reflexivity|].
    destruct (extract_tables o); [|reflexivity].
    destruct (pp_extract_tables page); reflexivity.
  - apply pages_to_process_fits.
Qed.

Lemma pymupdf_is_attempt p o t w s :
  PDFProcessor._extract_with_pymupdf p o t w s = attempt PYMUPDF p o t w s.
Proof.
  unfold PDFProcessor._extract_with_pymupdf, attempt, document_units.
  unfold bind at 1. unfold emit at 1. fold (opened PYMUPDF s).
  unfold bind at 1. unfold call at 1.
  destruct (fitz_open w p) as [e|doc]; [reflexivity|].
  unfold bind at 1. unfold range.
  rewrite (for_each_numbered
             (fun i page =>
                text <- call (fun _ => fp_get_text page) ;;
                ret {| page_number := i + 1;
                       text := strip text;
                       word_count := if truthy (strip text)
                                     then len (split_ws text) else 0%Z;
                       character_count := len (strip text);
                       tables_count := 0;
                       tables := [] |})
             fitz_page_content).
  - rewrite built_pages_map.
    destruct (collect _) as [e|pages]; [reflexivity|].
    unfold bind. rewrite create_metadata_run, !len_map.
    destruct (stat_size w p); reflexivity.
  - intros i page s0. unfold fitz_page_content, bind, call, ret.
    destruct (fp_get_text page); reflexivity.
  - apply pages_to_process_fits.
Qed.

(** The [except] block, run. *)
Lemma failure_handler_run d p t msg w s :
  (log ERROR ;;
   md <- create_error_metadata d p t ;;
   ret {| metadata := md; pages := []; success := false;
          error_message := Some msg |}) w s
  = handled w p d msg t (logged [ERROR] s).
Proof.
  unfold bind at 1. unfold log, emit.
  change {| ticks := ticks s; trace := EvLog ERROR :: trace s |}
    with (logged [ERROR] s).
  generalize (logged [ERROR] s) as s1. intros s1.
  unfold handled, create_error_metadata, bind, path_exists, call, stat_st_size,
    now_isoformat, bind, datetime_now, call, ret, failure_at, stamped.
  destruct (stat_error w p) eqn:Eerr; [reflexivity|].
  destruct (fs_stat w p) eqn:E; simpl; rewrite ?Eerr, ?E; reflexivity.
Qed.

Lemma handled_inr w p d msg t s r s' :
  handled w p d msg t s = (inr r, s') ->
  stat_error w p = None /\ r = failure_at w p d msg t s /\ s' = stamped s.
Proof.
  unfold handled. destruct (stat_error w p); [discriminate|].
  intros H; injection H as <- <-. auto.
Qed.


Lemma text_loop_tail (d : DocumentType) (m : ExtractionMethod)
    (clean : str -> str) (chunks : list str) p o t w s :
  (pages <- for_each (fun page_num =>
       chunk <- getitem chunks page_num ;;
       ret (page_of_text page_num (clean chunk)))
     (range (pages_to_process_of o (len chunks))) ;;
   md <- create_metadata d m p (len chunks)
           (pages_to_process_of o (len chunks)) t ;;
   ret (ExtractionResult_ok md pages)) w s
  = let units := map (fun chunk i => inr (page_of_text i (clean chunk))) chunks in
    match built_pages o units with
    | inl e => (inl e, s)
    | inr pages =>
        match stat_size w p with
        | inl e => (inl e, s)
        | inr size =>
            (inr (ExtractionResult_ok
                    (metadata_at w p d m size (len units)
                       (pages_to_process_of o (len units)) t s) pages),
             stamped s)
        end
    end.
Proof.
  cbv zeta. unfold bind at 1. unfold range.
  rewrite (for_each_numbered
             (fun i chunk => ret (page_of_text i (clean chunk)))
             (fun i chunk => inr (page_of_text i (clean chunk))));
    [|reflexivity|apply pages_to_process_fits].
  rewrite built_pages_map.
  destruct (collect _) as [e|pages]; [reflexivity|].
  unfold bind. rewrite create_metadata_run, !len_map.
  destruct (stat_size w p); reflexivity.
Qed.

(** The three processors, run: one attempt, or for PDF two, and the
    failure when none got through. *)
Lemma txt_run p o w s :
  TXTProcessor.extract_text p o w s =
  match attempt PLAIN_TEXT p o (clock w (ticks s)) w (started s) with
  | (inr r, s') => (inr r, s')
  | (inl e, s') =>
      handled w p TXT (failure_prefix TXT ++ exn_str e)
        (clock w (ticks s)) (logged [ERROR] s')
  end.
Proof.
  unfold TXTProcessor.extract_text. unfold bind at 1. unfold datetime_now at 1.
  fold (started s). unfold try_except, attempt, document_units.
  unfold bind at 1. unfold emit at 1. fold (opened PLAIN_TEXT (started s)).
  unfold bind at 1. unfold call at 1.
  destruct (open_read w p (encoding o) (error_handling o)) as [e|content];
    [apply failure_handler_run|].
  cbv zeta. rewrite (text_loop_tail TXT PLAIN_TEXT strip). cbv zeta.
  destruct (built_pages o _) as [e|pages]; [apply failure_handler_run|].
  destruct (stat_size w p); [apply failure_handler_run|reflexivity].
Qed.

Lemma docx_run p o w s :
  DOCXProcessor.extract_text p o w s =
  match attempt PYTHON_DOCX p o (clock w (ticks s)) w (started s) with
  | (inr r, s') => (inr r, s')
  | (inl e, s') =>
      handled w p DOCX (failure_prefix DOCX ++ exn_str e)
        (clock w (ticks s)) (logged [ERROR] s')
  end.
Proof.
  unfold DOCXProcessor.extract_text. unfold bind at 1. unfold datetime_now at 1.
  fold (started s). unfold try_except, attempt, document_units.
  unfold bind at 1. unfold emit at 1. fold (opened PYTHON_DOCX (started s)).
  unfold bind at 1. unfold call at 1.
  destruct (docx_Document w p) as [e|paragraphs];
    [apply failure_handler_run|].
  cbv zeta. rewrite (text_loop_tail DOCX PYTHON_DOCX (fun chunk => chunk)). cbv zeta.
  destruct (built_pages o _) as [e|pages]; [apply failure_handler_run|].
  destruct (stat_size w p); [apply failure_handler_run|reflexivity].
Qed.

Lemma pdf_run p o w s :
  PDFProcessor.extract_text p o w s =
  match attempt PDFPLUMBER p o (clock w (ticks s)) w (started s) with
  | (inr r, s') => (inr r, s')
  | (inl e, s') =>
      match attempt PYMUPDF p o (clock w (ticks s)) w (logged [WARNING] s') with
      | (inr r, s'') => (inr r, s'')
      | (inl fallback_error, s'') =>
          handled w p PDF (failure_prefix PDF ++ exn_str e)
            (clock w (ticks s)) (logged [ERROR] s'')
      end
  end.
Proof.
  unfold PDFProcessor.extract_text. unfold bind at 1. unfold datetime_now at 1.
  fold (started s). unfold try_except at 1. rewrite pdfplumber_is_attempt.
  destruct (attempt PDFPLUMBER _ _ _ _ _) as [[e|r] s']; [|reflexivity].
  unfold bind at 1. unfold log at 1, emit at 1.
  change {| ticks := ticks s'; trace := EvLog WARNING :: trace s' |}
    with (logged [WARNING] s').
  unfold try_except. rewrite pymupdf_is_attempt.
  destruct (attempt PYMUPDF _ _ _ _ _) as [[e2|r] s'']; [|reflexivity].
  apply failure_handler_run.
Qed.

(** ** What a successful attempt holds *)

Lemma attempt_inr m p o t w s r s' :
  attempt m p o t w s = (inr r, s') ->
  exists units size,
    document_units w p o m = inr units
    /\ built_pages o units = inr (pages r)
    /\ fs_stat w p = Some size
    /\ r = ExtractionResult_ok
             (metadata_at w p (method_owner m) m size (len units)
                (pages_to_process_of o (len units)) t (opened m s))
             (pages r)
    /\ s' = stamped (opened m s).
Proof.
  unfold attempt.
  destruct (document_units w p o m) as [e|units]; [discriminate|].
  destruct (built_pages o units) as [e|pages] eqn:Eb; [discriminate|].
  destruct (stat_size w p) as [e|size] eqn:Est; [discriminate|].
  apply stat_size_inr in Est as [_ Est].
  intros H; injection H as <- <-. exists units, size. simpl. auto.
Qed.

(** A processor's success is the success of one of its backends. *)
Lemma success_from_attempt d p o w s r s' :
  run_processor d p o w s = (inr r, s') -> success r = true ->
  exists m s0,
    In m (methods_of d)
    /\ attempt m p o (clock w (ticks s)) w s0 = (inr r, s').
Proof.
  destruct d; simpl; intros H Hs.
  - rewrite pdf_run in H.
    destruct (attempt PDFPLUMBER _ _ _ _ _) as [[e|r1] s1] eqn:E1.
    + destruct (attempt PYMUPDF _ _ _ _ _) as [[e2|r2] s2] eqn:E2.
      * apply handled_inr in H as (_ & -> & _). discriminate.
      * injection H as <- <-. exists PYMUPDF. eexists. split; [simpl; auto|exact E2].
    + injection H as <- <-. exists PDFPLUMBER. eexists. split; [simpl; auto|exact E1].
  - rewrite txt_run in H.
    destruct (attempt PLAIN_TEXT _ _ _ _ _) as [[e|r1] s1] eqn:E1.
    + apply handled_inr in H as (_ & -> & _). discriminate.
    + injection H as <- <-. exists PLAIN_TEXT. eexists. split; [simpl; auto|exact E1].
  - rewrite docx_run in H.
    destruct (attempt PYTHON_DOCX _ _ _ _ _) as [[e|r1] s1] eqn:E1.
    + apply handled_inr in H as (_ & -> & _). discriminate.
    + injection H as <- <-. exists PYTHON_DOCX. eexists. split; [simpl; auto|exact E1].
Qed.

Lemma collect_inr {A : Type} (l : list (exn + A)) (ys : list A) :
  collect l = inr ys -> l = map inr ys.
Proof.
  revert ys; induction l as [|[e|a] l IH]; intros ys; simpl.
  - intros H; injection H as <-. reflexivity.
  - discriminate.
  - destruct (collect l) as [e|others]; [discriminate|].
    intros H; injection H as <-. simpl. f_equal. apply IH. reflexivity.
Qed.

Lemma collect_map_inr {A : Type} (ys : list A) : collect (map inr ys) = inr ys.
Proof. induction ys as [|y ys IH]; simpl; [reflexivity|]. rewrite IH. reflexivity. Qed.

(** Every unit of a backend numbers its page one above its index. *)
Lemma units_number_pages w p o m units :
  document_units w p o m = inr units ->
  forall build i pc, In build units -> build i = inr pc -> page_number pc = (i + 1)%Z.
Proof.
  intros Hu build i pc Hin Hb. destruct m; simpl in Hu.
  - destruct (pdfplumber_open w p); [discriminate|]. injection Hu as <-.
    apply in_map_iff in Hin as (page & <- & _).
    unfold plumber_page_content in Hb.
    destruct (pp_extract_text page); [discriminate|].
    destruct (if extract_tables o then _ else _); [discriminate|].
    injection Hb as <-. reflexivity.
  - destruct (fitz_open w p); [discriminate|]. injection Hu as <-.
    apply in_map_iff in Hin as (page & <- & _).
    unfold fitz_page_content in Hb.
    destruct (fp_get_text page); [discriminate|].
    injection Hb as <-. reflexivity.
  - destruct (open_read w p _ _); [discriminate|]. injection Hu as <-.
    apply in_map_iff in Hin as (chunk & <- & _). injection Hb as <-. reflexivity.
  - destruct (docx_Document w p); [discriminate|]. injection Hu as <-.
    apply in_map_iff in Hin as (chunk & <- & _). injection Hb as <-. reflexivity.
Qed.

Lemma numbered_pages {A : Type}
    (g : Z -> A -> exn + PageContent) (l : list A) (start : nat)
    (pages : list PageContent) :
  (forall i x pc, In x l -> g i x = inr pc -> page_number pc = (i + 1)%Z) ->
  forall k,
    collect (map (fun '(i, x) => g i x) (firstn k (numbered_from start l))) = inr pages ->
    map page_number pages
    = map (fun i => Z.of_nat i + 1)%Z (seq start (List.length pages)).
Proof.
  intros Hg. revert start pages; induction l as [|x l IH]; intros start pages k.
  - simpl. rewrite firstn_nil. simpl. intros H; injection H as <-. reflexivity.
  - destruct k as [|k]; simpl.
    + intros H; injection H as <-. reflexivity.
    + destruct (g (Z.of_nat start) x) as [e|pc] eqn:Eg; [discriminate|].
      destruct (collect _) as [e|others] eqn:Ec; [discriminate|].
      intros H; injection H as <-. simpl. f_equal.
      * apply (Hg _ x); [left; reflexivity|exact Eg].
      * apply (IH (fun i y pc Hy => Hg i y pc (or_intror Hy)) _ _ k Ec).
Qed.

(** X1.  The pages of a successful extraction are numbered 1, 2, ..., in
    this order and without a gap, whichever processor and backend ran. *)
Theorem page_numbers_sequential d p o w s r s' :
  run_processor d p o w s = (inr r, s') ->
  success r = true ->
  map page_number (pages r) = one_to (List.length (pages r)).
Proof.
  intros H Hs.
  destruct (success_from_attempt _ _ _ _ _ _ _ H Hs) as (m & s0 & _ & Ha).
  destruct (attempt_inr _ _ _ _ _ _ _ _ Ha) as (units & size & Hu & Hb & _).
  unfold built_pages, numbered in Hb. unfold one_to.
  apply (numbered_pages (fun i build => build i) units 0
           (pages r)
           (fun i build pc Hin Hb => units_number_pages w p o m units Hu build i pc Hin Hb)
           _ Hb).
Qed.

Lemma page_numbers_sequential_witness :
  exists r s',
    run_processor PDF (lit "big.pdf") (Scenario.options_with (Some 3%Z))
      (Scenario.pdf_world (inr Scenario.five_pages) Scenario.not_that_format)
      initial = (inr r, s')
    /\ map page_number (pages r) = [1; 2; 3]%Z.
Proof.
  destruct (run_processor PDF (lit "big.pdf") (Scenario.options_with (Some 3%Z))
              (Scenario.pdf_world (inr Scenario.five_pages) Scenario.not_that_format)
              initial) as [[e|r] s'] eqn:E; [vm_compute in E; discriminate|].
  assert (Hs : success r = true /\ List.length (pages r) = 3)
    by (vm_compute in E; injection E as <- _; split; reflexivity).
  destruct Hs as [Hs Hl].
  exists r, s'. split; [reflexivity|].
  rewrite (page_numbers_sequential _ _ _ _ _ _ _ E Hs), Hl. reflexivity.
Defined.

Lemma ExtractionMethod_value_inj (m1 m2 : ExtractionMethod) :
  ExtractionMethod_value m1 = ExtractionMethod_value m2 -> m1 = m2.
Proof. destruct m1, m2; intros H; try reflexivity; vm_compute in H; discriminate. Qed.

(** The units of a document do not depend on [max_pages]. *)
Lemma units_ignore_max_pages w p o n1 n2 m :
  document_units w p (with_max_pages o n1) m
  = document_units w p (with_max_pages o n2) m.
Proof. destruct m; reflexivity. Qed.

Lemma numbered_from_firstn {A : Type} (k start : nat) (l : list A) :
  firstn k (numbered_from start l) = numbered_from start (firstn k l).
Proof.
  revert k start; induction l as [|x l IH]; intros k start.
  - rewrite !firstn_nil. reflexivity.
  - destruct k; simpl; [reflexivity|]. rewrite IH. reflexivity.
Qed.

Lemma built_pages_length o units pages :
  built_pages o units = inr pages ->
  List.length pages = Z.to_nat (pages_to_process_of o (len units)).
Proof.
  unfold built_pages. intros H. apply collect_inr in H.
  apply (f_equal (@List.length _)) in H. rewrite !length_map in H.
  rewrite <- H, length_firstn. unfold numbered. rewrite numbered_from_length.
  pose proof (pages_to_process_fits o units). lia.
Qed.

Lemma map_inr_inj {A : Type} (l1 l2 : list A) :
  map (@inr exn A) l1 = map inr l2 -> l1 = l2.
Proof.
  revert l2; induction l1 as [|x l1 IH]; intros [|y l2] H; try discriminate;
    [reflexivity|].
  simpl in H. injection H as -> H. f_equal. apply IH, H.
Qed.

(** X2.  A cap only cuts pages off the end: when the same backend answers
    with and without [max_pages = n] (n not 0), the capped pages are the
    first [n] of the uncapped ones, and [total_pages] is the same. *)
Theorem capped_pages_are_a_prefix d p o w s n r1 s1 r2 s2 :
  run_processor d p (with_max_pages o (Some n)) w s = (inr r1, s1) ->
  run_processor d p (with_max_pages o None) w s = (inr r2, s2) ->
  success r1 = true ->
  success r2 = true ->
  extraction_method (metadata r1) = extraction_method (metadata r2) ->
  n <> 0%Z ->
  pages r1 = firstn (Z.to_nat n) (pages r2)
  /\ total_pages (metadata r1) = total_pages (metadata r2).
Proof.
  intros H1 H2 Hs1 Hs2 Hm Hn.
  destruct (success_from_attempt _ _ _ _ _ _ _ H1 Hs1) as (m1 & sa & _ & Ha1).
  destruct (success_from_attempt _ _ _ _ _ _ _ H2 Hs2) as (m2 & sb & _ & Ha2).
  destruct (attempt_inr _ _ _ _ _ _ _ _ Ha1) as (u1 & z1 & Hu1 & Hb1 & _ & Hr1 & _).
  destruct (attempt_inr _ _ _ _ _ _ _ _ Ha2) as (u2 & z2 & Hu2 & Hb2 & _ & Hr2 & _).
  assert (m1 = m2).
  { apply ExtractionMethod_value_inj. rewrite Hr1, Hr2 in Hm. exact Hm. }
  subst m2. rewrite (units_ignore_max_pages w p o (Some n) None) in Hu1.
  rewrite Hu1 in Hu2. injection Hu2 as <-.
  split; [|rewrite Hr1, Hr2; reflexivity].
  pose proof (built_pages_length _ _ _ Hb2) as Hlen2.
  unfold built_pages in Hb1, Hb2.
  apply collect_inr in Hb1, Hb2.
  unfold pages_to_process_of in *. simpl in Hb1, Hb2, Hlen2.
  rewrite Z.min_id in Hb2, Hlen2.
  assert (Hall : firstn (Z.to_nat (len u1)) (numbered u1) = numbered u1).
  { apply firstn_all2. unfold numbered, len. rewrite numbered_from_length. lia. }
  rewrite Hall in Hb2.
  destruct (n =? 0)%Z eqn:E; [apply Z.eqb_eq in E; contradiction|].
  apply map_inr_inj.
  rewrite <- Hb1, <- !firstn_map, <- Hb2.
  assert (Hlen : List.length (map (fun '(i, build) => build i) (numbered u1))
                 = Z.to_nat (len u1)).
  { rewrite length_map. unfold numbered, len. rewrite numbered_from_length. lia. }
  destruct (Z.le_gt_cases n (len u1)) as [Hle | Hgt].
  - rewrite Z.min_l by exact Hle. reflexivity.
  - rewrite Z.min_r by lia. rewrite !firstn_all2 by lia. reflexivity.
Qed.

Lemma capped_pages_are_a_prefix_witness :
  exists r1 s1 r2 s2,
    run_processor TXT (lit "notes.txt")
      (with_max_pages ProcessingOptions_default (Some 1%Z))
      (Scenario.txt_world Scenario.two_pages) initial = (inr r1, s1)
    /\ run_processor TXT (lit "notes.txt")
         (with_max_pages ProcessingOptions_default None)
         (Scenario.txt_world Scenario.two_pages) initial = (inr r2, s2)
    /\ pages r1 = firstn 1 (pages r2)
    /\ total_pages (metadata r1) = total_pages (metadata r2).
Proof.
  destruct (run_processor TXT (lit "notes.txt")
              (with_max_pages ProcessingOptions_default (Some 1%Z))
              (Scenario.txt_world Scenario.two_pages) initial)
    as [[e|r1] s1] eqn:E1; [vm_compute in E1; discriminate|].
  destruct (run_processor TXT (lit "notes.txt")
              (with_max_pages ProcessingOptions_default None)
              (Scenario.txt_world Scenario.two_pages) initial)
    as [[e|r2] s2] eqn:E2; [vm_compute in E2; discriminate|].
  assert (H : success r1 = true /\ success r2 = true
              /\ extraction_method (metadata r1) = extraction_method (metadata r2)).
  { vm_compute in E1, E2. injection E1 as <- _. injection E2 as <- _.
    repeat split; reflexivity. }
  destruct H as (Hs1 & Hs2 & Hm).
  exists r1, s1, r2, s2. split; [reflexivity|]. split; [reflexivity|].
  exact (capped_pages_are_a_prefix TXT _ _ _ _ 1%Z _ _ _ _ E1 E2 Hs1 Hs2 Hm
           ltac:(discriminate)).
Defined.

(** X3.  A negative [max_pages] is not refused: the extraction succeeds
    with no page at all, and reports the negative number as
    [pages_processed]. *)
Theorem negative_max_pages d p o w s n r s' :
  run_processor d p o w s = (inr r, s') ->
  success r = true ->
  max_pages o = Some n ->
  (n < 0)%Z ->
  pages r = [] /\ pages_processed (metadata r) = n.
Proof.
  intros H Hs Hmax Hneg.
  destruct (success_is_shaped _ _ _ _ _ _ _ H Hs)
    as (m & _ & _ & Hid & _ & Hpp & Hlen & _).
  pose proof (identified_nonneg _ _ _ _ _ _ Hid) as Hnn.
  unfold pages_to_process_of in Hpp. rewrite Hmax in Hpp. simpl in Hpp.
  destruct (n =? 0)%Z eqn:E; [apply Z.eqb_eq in E; lia|].
  assert (Hn : pages_processed (metadata r) = n) by lia.
  split; [|exact Hn].
  rewrite Hn in Hlen. apply length_zero_iff_nil. lia.
Qed.

Lemma negative_max_pages_witness :
  exists r s',
    run_processor DOCX (lit "letter.docx") (Scenario.options_with (Some (-2)%Z))
      (Scenario.docx_world [lit "Dear all,"]) initial = (inr r, s')
    /\ pages r = [] /\ pages_processed (metadata r) = (-2)%Z.
Proof.
  destruct (run_processor DOCX (lit "letter.docx") (Scenario.options_with (Some (-2)%Z))
              (Scenario.docx_world [lit "Dear all,"]) initial)
    as [[e|r] s'] eqn:E; [vm_compute in E; discriminate|].
  assert (Hs : success r = true)
    by (vm_compute in E; injection E as <- _; reflexivity).
  exists r, s'. split; [reflexivity|].
  exact (negative_max_pages _ _ _ _ _ (-2)%Z _ _ E Hs eq_refl ltac:(lia)).
Defined.

Lemma in_firstn {A : Type} (x : A) (k : nat) (l : list A) :
  In x (firstn k l) -> In x l.
Proof.
  intros H. rewrite <- (firstn_skipn k l). apply in_or_app. left. exact H.
Qed.

(** Every page that was built comes from a unit of the document. *)
Lemma built_pages_from_units o units pages :
  built_pages o units = inr pages ->
  forall pc, In pc pages -> exists build i, In build units /\ build i = inr pc.
Proof.
  unfold built_pages. intros H pc Hin. apply collect_inr in H.
  assert (Hin' : In (inr pc) (map (@inr exn PageContent) pages))
    by (apply in_map; exact Hin).
  rewrite <- H in Hin'. apply in_map_iff in Hin' as ([i build] & Hb & Hin').
  exists build, i. split; [|exact Hb].
  apply in_firstn in Hin'. unfold numbered in Hin'.
  rewrite numbered_from_seq in Hin'. apply in_combine_r in Hin'. exact Hin'.
Qed.

Lemma units_without_tables w p o m units :
  document_units w p o m = inr units ->
  m <> PDFPLUMBER \/ extract_tables o = false ->
  forall build i pc, In build units -> build i = inr pc -> no_tables pc.
Proof.
  intros Hu Hm build i pc Hin Hb. destruct m; simpl in Hu.
  - destruct Hm as [Hm | Hm]; [congruence|].
    destruct (pdfplumber_open w p); [discriminate|]. injection Hu as <-.
    apply in_map_iff in Hin as (page & <- & _).
    unfold plumber_page_content in Hb. rewrite Hm in Hb.
    destruct (pp_extract_text page); [discriminate|].
    injection Hb as <-. split; reflexivity.
  - destruct (fitz_open w p); [discriminate|]. injection Hu as <-.
    apply in_map_iff in Hin as (page & <- & _).
    unfold fitz_page_content in Hb.
    destruct (fp_get_text page); [discriminate|].
    injection Hb as <-. split; reflexivity.
  - destruct (open_read w p _ _); [discriminate|]. injection Hu as <-.
    apply in_map_iff in Hin as (chunk & <- & _). injection Hb as <-.
    split; reflexivity.
  - destruct (docx_Document w p); [discriminate|]. injection Hu as <-.
    apply in_map_iff in Hin as (chunk & <- & _). injection Hb as <-.
    split; reflexivity.
Qed.

(** X4.  Tables are reported by the primary PDF backend only, and only
    when [extract_tables] is set: every page of the PDF fallback, of a TXT
    or DOCX extraction, or of a run with [extract_tables] off has an empty
    [tables] and a zero [tables_count]. *)
Theorem tables_only_from_primary_pdf d p o w s r s' :
  run_processor d p o w s = (inr r, s') ->
  extraction_method (metadata r) <> ExtractionMethod_value PDFPLUMBER
  \/ extract_tables o = false ->
  Forall no_tables (pages r).
Proof.
  intros H Hm. destruct (success r) eqn:Hs.
  - destruct (success_from_attempt _ _ _ _ _ _ _ H Hs) as (m & s0 & _ & Ha).
    destruct (attempt_inr _ _ _ _ _ _ _ _ Ha) as (units & size & Hu & Hb & _ & Hr & _).
    apply Forall_forall. intros pc Hin.
    destruct (built_pages_from_units _ _ _ Hb pc Hin) as (build & i & Hbu & Hbi).
    apply (units_without_tables w p o m units Hu) with (build := build) (i := i);
      [|exact Hbu|exact Hbi].
    destruct Hm as [Hm | Hm]; [left|right; exact Hm].
    intros ->. apply Hm. rewrite Hr. reflexivity.
  - apply processor_shape in H as [(m & Hs' & _) | (_ & Hp & _)]; [congruence|].
    rewrite Hp. constructor.
Qed.

Lemma tables_only_from_primary_pdf_witness :
  exists r s',
    run_processor PDF (lit "odd.pdf") ProcessingOptions_default
      (Scenario.pdf_world (inl (Scenario.boom "No /Root object"))
                          (inr [Scenario.fitz_page " page one "]))
      initial = (inr r, s')
    /\ List.length (pages r) = 1
    /\ Forall no_tables (pages r).
Proof.
  destruct (run_processor PDF (lit "odd.pdf") ProcessingOptions_default
              (Scenario.pdf_world (inl (Scenario.boom "No /Root object"))
                                  (inr [Scenario.fitz_page " page one "]))
              initial) as [[e|r] s'] eqn:E; [vm_compute in E; discriminate|].
  assert (Hm : extraction_method (metadata r) <> ExtractionMethod_value PDFPLUMBER
               /\ List.length (pages r) = 1).
  { vm_compute in E. injection E as <- _. split; [|reflexivity].
    vm_compute. discriminate. }
  destruct Hm as [Hm Hl].
  exists r, s'. split; [reflexivity|]. split; [exact Hl|].
  exact (tables_only_from_primary_pdf _ _ _ _ _ _ _ E (or_introl Hm)).
Defined.

(** X5.  Pages behind the cap are never looked at: with a positive
    [max_pages = n], two PDFs of the same page count whose first [n] pages
    agree give the same run of the PDF processor, whatever the later pages
    hold, an error included. *)
Theorem pages_behind_the_cap_are_not_read p o w s n pages1 pages2 :
  max_pages o = Some n ->
  (0 < n)%Z ->
  List.length pages1 = List.length pages2 ->
  firstn (Z.to_nat n) pages1 = firstn (Z.to_nat n) pages2 ->
  run_processor PDF p o (with_pdfplumber w (inr pages1)) s
  = run_processor PDF p o (with_pdfplumber w (inr pages2)) s.
Proof.
  intros Hmax Hpos Hlen Hfirst. unfold run_processor. simpl.
  rewrite !pdf_run.
  assert (Ha : forall t s0,
             attempt PDFPLUMBER p o t (with_pdfplumber w (inr pages1)) s0
             = attempt PDFPLUMBER p o t (with_pdfplumber w (inr pages2)) s0).
  { intros t s0. unfold attempt, document_units.
    cbn [pdfplumber_open with_pdfplumber fs_stat].
    rewrite !(built_pages_map o (plumber_page_content o)), !len_map.
    assert (Hl : len pages1 = len pages2) by (unfold len; rewrite Hlen; reflexivity).
    rewrite Hl. unfold numbered. rewrite !numbered_from_firstn.
    assert (Hk : firstn (Z.to_nat (pages_to_process_of o (len pages2))) pages1
                 = firstn (Z.to_nat (pages_to_process_of o (len pages2))) pages2).
    { unfold pages_to_process_of. rewrite Hmax. simpl.
      destruct (n =? 0)%Z eqn:E; [apply Z.eqb_eq in E; lia|].
      destruct (Z.le_gt_cases n (len pages2)) as [Hle | Hgt].
      - rewrite Z.min_l by exact Hle. exact Hfirst.
      - rewrite Z.min_r by lia. unfold len in *.
        rewrite !firstn_all2 in Hfirst by lia. rewrite Hfirst. reflexivity. }
    rewrite Hk. reflexivity. }
  rewrite Ha.
  destruct (attempt PDFPLUMBER _ _ _ _ _) as [[e|r] s1]; reflexivity.
Qed.

Lemma pages_behind_the_cap_are_not_read_witness :
  run_processor PDF (lit "big.pdf") (Scenario.options_with (Some 1%Z))
    (with_pdfplumber (Scenario.pdf_world (inr []) Scenario.not_that_format)
       (inr [Scenario.plumber_page "one";
             {| pp_extract_text := inl (Scenario.boom "bad page");
                pp_extract_tables := inr None |}])) initial
  = run_processor PDF (lit "big.pdf") (Scenario.options_with (Some 1%Z))
      (with_pdfplumber (Scenario.pdf_world (inr []) Scenario.not_that_format)
         (inr [Scenario.plumber_page "one"; Scenario.plumber_page "two"])) initial.
Proof.
  apply (pages_behind_the_cap_are_not_read (lit "big.pdf")
           (Scenario.options_with (Some 1%Z))
           (Scenario.pdf_world (inr []) Scenario.not_that_format) initial 1%Z);
    [reflexivity|lia|reflexivity|reflexivity].
Defined.

(** ** What a run leaves in the trace *)

Lemma attempt_trace m p o t w s x s' :
  attempt m p o t w s = (x, s') -> trace s' = EvOpen m :: trace s.
Proof.
  unfold attempt.
  destruct (document_units w p o m) as [e|units];
    [intros H; injection H as _ <-; reflexivity|].
  destruct (built_pages o units) as [e|pages];
    [intros H; injection H as _ <-; reflexivity|].
  destruct (stat_size w p); intros H; injection H as _ <-; reflexivity.
Qed.

Lemma handled_trace w p d msg t s x s' :
  handled w p d msg t s = (x, s') -> trace s' = trace s.
Proof.
  unfold handled. destruct (stat_error w p); intros H; injection H as _ <-; reflexivity.
Qed.

Lemma processor_trace d p o w s x s' :
  run_processor d p o w s = (x, s') ->
  exists new,
    trace s' = new ++ trace s
    /\ In (EvOpen (primary_method d)) new
    /\ (forall m, In (EvOpen m) new -> method_owner m = d)
    /\ (forall d', ~ In (EvDispatch d') new).
Proof.
  destruct d; simpl.
  - rewrite pdf_run.
    destruct (attempt PDFPLUMBER _ _ _ _ _) as [[e|r1] s1] eqn:E1;
      apply attempt_trace in E1; simpl in E1.
    + destruct (attempt PYMUPDF _ _ _ _ _) as [[e2|r2] s2] eqn:E2;
        apply attempt_trace in E2; simpl in E2; rewrite E1 in E2;
        intros H; [apply handled_trace in H; simpl in H|injection H as _ <-].
      * exists [EvLog ERROR; EvOpen PYMUPDF; EvLog WARNING; EvOpen PDFPLUMBER].
        simpl. rewrite H, E2. split; [reflexivity|]. split; [auto|]. split.
        -- intros m [H0|[H0|[H0|[H0|[]]]]]; try discriminate; injection H0 as <-; reflexivity.
        -- intros d' [H0|[H0|[H0|[H0|[]]]]]; discriminate.
      * exists [EvOpen PYMUPDF; EvLog WARNING; EvOpen PDFPLUMBER].
        rewrite E2. split; [reflexivity|]. split; [simpl; auto|]. split.
        -- intros m [H|[H|[H|[]]]]; try discriminate; injection H as <-; reflexivity.
        -- intros d' [H|[H|[H|[]]]]; discriminate.
    + intros H; injection H as _ <-. exists [EvOpen PDFPLUMBER].
      rewrite E1. split; [reflexivity|]. split; [simpl; auto|]. split.
      * intros m [H|[]]; injection H as <-; reflexivity.
      * intros d' [H|[]]; discriminate.
  - rewrite txt_run.
    destruct (attempt PLAIN_TEXT _ _ _ _ _) as [[e|r1] s1] eqn:E1;
      apply attempt_trace in E1; simpl in E1; intros H;
      [apply handled_trace in H; simpl in H|injection H as _ <-].
    + exists [EvLog ERROR; EvOpen PLAIN_TEXT]. simpl. rewrite H, E1.
      split; [reflexivity|]. split; [auto|]. split.
      * intros m [H0|[H0|[]]]; try discriminate; injection H0 as <-; reflexivity.
      * intros d' [H0|[H0|[]]]; discriminate.
    + exists [EvOpen PLAIN_TEXT]. rewrite E1.
      split; [reflexivity|]. split; [simpl; auto|]. split.
      * intros m [H|[]]; injection H as <-; reflexivity.
      * intros d' [H|[]]; discriminate.
  - rewrite docx_run.
    destruct (attempt PYTHON_DOCX _ _ _ _ _) as [[e|r1] s1] eqn:E1;
      apply attempt_trace in E1; simpl in E1; intros H;
      [apply handled_trace in H; simpl in H|injection H as _ <-].
    + exists [EvLog ERROR; EvOpen PYTHON_DOCX]. simpl. rewrite H, E1.
      split; [reflexivity|]. split; [auto|]. split.
      * intros m [H0|[H0|[]]]; try discriminate; injection H0 as <-; reflexivity.
      * intros d' [H0|[H0|[]]]; discriminate.
    + exists [EvOpen PYTHON_DOCX]. rewrite E1.
      split; [reflexivity|]. split; [simpl; auto|]. split.
      * intros m [H|[]]; injection H as <-; reflexivity.
      * intros d' [H|[]]; discriminate.
Qed.

(** X6.  A processor calls the libraries of its own format and no other:
    in any run it opens its primary backend, every library it opens belongs
    to its document type, and it hands the path to no other processor. *)
Theorem processor_calls_its_own_libraries d p o w s :
  exists x s' new,
    run_processor d p o w s = (x, s')
    /\ trace s' = new ++ trace s
    /\ In (EvOpen (primary_method d)) new
    /\ (forall m, In (EvOpen m) new -> method_owner m = d)
    /\ (forall d', ~ In (EvDispatch d') new).
Proof.
  destruct (run_processor d p o w s) as [x s'] eqn:E.
  destruct (processor_trace _ _ _ _ _ _ _ E) as (new & H).
  exists x, s', new. split; [reflexivity|exact H].
Qed.

(** X7.  The PDF fallback is never run speculatively: the run calls
    PyMuPDF exactly when the primary sub-strategy raised, and a result of
    the primary sub-strategy is returned as it is. *)
Theorem fallback_only_after_primary_raised p o w s r s' :
  PDFProcessor.extract_text p o w s = (inr r, s') ->
  exists new,
    trace s' = new ++ trace s
    /\ (In (EvOpen PYMUPDF) new <->
        exists e s1,
          PDFProcessor._extract_with_pdfplumber p o (clock w (ticks s)) w (started s)
          = (inl e, s1))
    /\ (forall r1 s1,
          PDFProcessor._extract_with_pdfplumber p o (clock w (ticks s)) w (started s)
          = (inr r1, s1) ->
          r = r1 /\ s' = s1 /\ new = [EvOpen PDFPLUMBER]).
Proof.
  rewrite pdf_run, pdfplumber_is_attempt.
  destruct (attempt PDFPLUMBER _ _ _ _ _) as [[e|r1] s1] eqn:E1;
    pose proof (attempt_trace _ _ _ _ _ _ _ _ E1) as T1; simpl in T1.
  - destruct (attempt PYMUPDF _ _ _ _ _) as [[e2|r2] s2] eqn:E2;
      apply attempt_trace in E2; simpl in E2; rewrite T1 in E2;
      intros H; [apply handled_inr in H as (_ & _ & ->)|injection H as _ <-].
    + exists [EvLog ERROR; EvOpen PYMUPDF; EvLog WARNING; EvOpen PDFPLUMBER].
      simpl. rewrite E2. split; [reflexivity|]. split; [|discriminate].
      split; [eauto|auto].
    + exists [EvOpen PYMUPDF; EvLog WARNING; EvOpen PDFPLUMBER].
      rewrite E2. split; [reflexivity|]. split; [|discriminate].
      split; [eauto|simpl; auto].
  - intros H; injection H as <- <-. exists [EvOpen PDFPLUMBER].
    rewrite T1. split; [reflexivity|]. split.
    + split; [intros [H|[]]; discriminate|intros (e & s2 & H); discriminate].
    + intros r2 s2 H; injection H as <- <-. auto.
Qed.

Lemma fallback_only_after_primary_raised_witness :
  exists r s' new,
    PDFProcessor.extract_text (lit "big.pdf") ProcessingOptions_default
      (Scenario.pdf_world (inr Scenario.five_pages)
                          (inr [Scenario.fitz_page "never read"])) initial = (inr r, s')
    /\ trace s' = new ++ trace initial
    /\ ~ In (EvOpen PYMUPDF) new
    /\ extraction_method (metadata r) = lit "pdfplumber".
Proof.
  destruct (PDFProcessor.extract_text (lit "big.pdf") ProcessingOptions_default
      (Scenario.pdf_world (inr Scenario.five_pages)
                          (inr [Scenario.fitz_page "never read"])) initial)
    as [[e|r] s'] eqn:E; [vm_compute in E; discriminate|].
  destruct (fallback_only_after_primary_raised _ _ _ _ _ _ E)
    as (new & Ht & Hiff & _).
  exists r, s', new. split; [reflexivity|]. split; [exact Ht|]. split.
  - intros Hin. apply Hiff in Hin as (e & s1 & Hr). vm_compute in Hr. discriminate.
  - vm_compute in E. injection E as <- _. reflexivity.
Defined.

(** X8.  The engine hands a path to one processor at most, the one whose
    document type is the file's lower-cased extension, and only for a file
    that exists; no library is called without such a dispatch, the
    libraries called are that processor's, and the engine returns what the
    processor returned. *)
Theorem engine_dispatches_by_extension p oo w s r s' :
  DocParseEngine.extract_text p oo w s = (inr r, s') ->
  exists new,
    trace s' = new ++ trace s
    /\ (forall d, In (EvDispatch d) new ->
          fs_stat w p <> None
          /\ DocParseEngine.extension_of p = DocumentType_value d
          /\ (forall d', In (EvDispatch d') new -> d' = d)
          /\ (forall m, In (EvOpen m) new -> method_owner m = d)
          /\ exists s0 s1,
               run_processor d p (options_or_default oo) w s0 = (inr r, s1))
    /\ (forall m, In (EvOpen m) new -> exists d, In (EvDispatch d) new).
Proof.
  intros H0. engine_ok H0.
  destruct (fs_stat w p) as [size|] eqn:Estat.
  - destruct (DocumentType_of_value _) as [d|] eqn:Et.
    + apply DocumentType_of_value_Some in Et.
      destruct (run_processor d p _ w _) as [[e|r0] s0] eqn:E; [discriminate|].
      intros H; injection H as <- <-.
      destruct (processor_trace _ _ _ _ _ _ _ E) as (new & Ht & _ & Hown & Hnd).
      exists (EvLog (if success r0 then INFO else ERROR) :: new
              ++ [EvDispatch d; EvLog INFO]).
      simpl in *. rewrite Ht. split.
      { rewrite <- app_assoc. reflexivity. }
      split.
      * intros d0 [H|H]; [discriminate|].
        apply in_app_or in H as [H|[H|[H|[]]]];
          [exfalso; exact (Hnd _ H)| |discriminate].
        injection H as <-. split; [discriminate|]. split; [exact Et|]. split.
        -- intros d' [H|H]; [discriminate|].
           apply in_app_or in H as [H|[H|[H|[]]]];
             [exfalso; exact (Hnd _ H)| |discriminate].
           injection H as <-. reflexivity.
        -- split.
           ++ intros m [H|H]; [discriminate|].
              apply in_app_or in H as [H|[H|[H|[]]]]; try discriminate.
              exact (Hown _ H).
           ++ eauto.
      * intros m _. exists d. right. apply in_or_app. right. left. reflexivity.
    + intros H; injection H as _ <-. exists [EvLog ERROR; EvLog INFO].
      split; [reflexivity|]. split.
      * intros d [H|[H|[]]]; discriminate.
      * intros m [H|[H|[]]]; discriminate.
  - intros H; injection H as _ <-. exists [EvLog ERROR; EvLog INFO].
    split; [reflexivity|]. split.
    + intros d [H|[H|[]]]; discriminate.
    + intros m [H|[H|[]]]; discriminate.
Qed.

Lemma engine_dispatches_by_extension_witness :
  exists r s' new,
    DocParseEngine.extract_text (lit "Notes.TXT") None
      (Scenario.txt_world Scenario.two_pages) initial = (inr r, s')
    /\ trace s' = new ++ trace initial
    /\ In (EvDispatch TXT) new
    /\ (forall m, In (EvOpen m) new -> method_owner m = TXT).
Proof.
  destruct (DocParseEngine.extract_text (lit "Notes.TXT") None
              (Scenario.txt_world Scenario.two_pages) initial)
    as [[e|r] s'] eqn:E; [vm_compute in E; discriminate|].
  destruct (engine_dispatches_by_extension _ _ _ _ _ _ E) as (new & Ht & Hd & Ho).
  assert (Hin : In (EvDispatch TXT) new).
  { assert (Htr : trace s' = [EvLog INFO; EvOpen PLAIN_TEXT; EvDispatch TXT; EvLog INFO])
      by (vm_compute in E; injection E as _ <-; reflexivity).
    rewrite Htr in Ht. simpl in Ht. rewrite app_nil_r in Ht. subst new.
    simpl. auto. }
  exists r, s', new. split; [reflexivity|]. split; [exact Ht|]. split; [exact Hin|].
  exact (proj1 (proj2 (proj2 (proj2 (Hd TXT Hin))))).
Defined.

(** ** Metadata of every result *)

Lemma attempt_ticks m p o t w s x s' :
  attempt m p o t w s = (x, s') ->
  match x with
  | inl _ => ticks s' = ticks s
  | inr _ => ticks s' = S (S (ticks s))
  end.
Proof.
  unfold attempt.
  destruct (document_units w p o m) as [e|units];
    [intros H; injection H as <- <-; reflexivity|].
  destruct (built_pages o units) as [e|pages];
    [intros H; injection H as <- <-; reflexivity|].
  destruct (stat_size w p); intros H; injection H as <- <-; reflexivity.
Qed.

(** A processor's result is the result of an attempt that began one clock
    reading into the run, or the failure built one reading in. *)
Lemma processor_result_cases d p o w s r s' :
  run_processor d p o w s = (inr r, s') ->
  (exists m s0,
      In m (methods_of d) /\ ticks s0 = S (ticks s)
      /\ attempt m p o (clock w (ticks s)) w s0 = (inr r, s'))
  \/ (exists msg s0,
         ticks s0 = S (ticks s)
         /\ r = failure_at w p d msg (clock w (ticks s)) s0).
Proof.
  destruct d; simpl.
  - rewrite pdf_run.
    destruct (attempt PDFPLUMBER _ _ _ _ _) as [[e|r1] s1] eqn:E1.
    + pose proof (attempt_ticks _ _ _ _ _ _ _ _ E1) as T1. simpl in T1.
      destruct (attempt PYMUPDF _ _ _ _ _) as [[e2|r2] s2] eqn:E2.
      * pose proof (attempt_ticks _ _ _ _ _ _ _ _ E2) as T2. simpl in T2.
        intros H; apply handled_inr in H as (_ & -> & _). right. eexists; eexists.
        split; [|reflexivity]. simpl. lia.
      * intros H; injection H as <- <-. left.
        exists PYMUPDF, (logged [WARNING] s1).
        split; [simpl; auto|]. split; [simpl; lia|exact E2].
    + intros H; injection H as <- <-. left. exists PDFPLUMBER, (started s).
      split; [simpl; auto|]. split; [reflexivity|exact E1].
  - rewrite txt_run.
    destruct (attempt PLAIN_TEXT _ _ _ _ _) as [[e|r1] s1] eqn:E1.
    + pose proof (attempt_ticks _ _ _ _ _ _ _ _ E1) as T1. simpl in T1.
      intros H; apply handled_inr in H as (_ & -> & _). right. eexists; eexists.
      split; [|reflexivity]. simpl. lia.
    + intros H; injection H as <- <-. left. exists PLAIN_TEXT, (started s).
      split; [simpl; auto|]. split; [reflexivity|exact E1].
  - rewrite docx_run.
    destruct (attempt PYTHON_DOCX _ _ _ _ _) as [[e|r1] s1] eqn:E1.
    + pose proof (attempt_ticks _ _ _ _ _ _ _ _ E1) as T1. simpl in T1.
      intros H; apply handled_inr in H as (_ & -> & _). right. eexists; eexists.
      split; [|reflexivity]. simpl. lia.
    + intros H; injection H as <- <-. left. exists PYTHON_DOCX, (started s).
      split; [simpl; auto|]. split; [reflexivity|exact E1].
Qed.

Lemma processor_file_facts d p o w s r s' :
  run_processor d p o w s = (inr r, s') ->
  filename (metadata r) = path_name p
  /\ file_size (metadata r)
     = match fs_stat w p with Some size => size | None => 0%Z end
  /\ (success r = true -> fs_stat w p <> None)
  /\ processing_time (metadata r)
     = (clock w (S (S (ticks s))) - clock w (ticks s))%Z
  /\ extraction_timestamp (metadata r) = isoformat w (clock w (S (ticks s)))
  /\ document_type (metadata r) = DocumentType_value d.
Proof.
  intros H.
  assert (Hd : document_type (metadata r) = DocumentType_value d).
  { apply processor_shape in H
      as [(m & _ & _ & _ & _ & _ & _ & _ & Hd) | (_ & _ & _ & _ & _ & _ & Hd)];
      exact Hd. }
  apply processor_result_cases in H
    as [(m & s0 & _ & Ht & Ha) | (msg & s0 & Ht & ->)].
  - destruct (attempt_inr _ _ _ _ _ _ _ _ Ha) as (units & size & _ & _ & Hst & Hr & _).
    rewrite Hr in *. simpl in *. rewrite Hst, Ht.
    repeat split; auto. discriminate.
  - simpl in *. rewrite Ht. repeat split; auto. discriminate.
Qed.

(** X9.  Whatever the engine returns names the file by the last component
    of the path and gives its size, or 0 when there is no such file; and an
    extraction never succeeds on a path without a file. *)
Theorem result_names_and_sizes_the_file p oo w s r s' :
  DocParseEngine.extract_text p oo w s = (inr r, s') ->
  filename (metadata r) = path_name p
  /\ file_size (metadata r)
     = match fs_stat w p with Some size => size | None => 0%Z end
  /\ (success r = true -> fs_stat w p <> None).
Proof.
  intros H0. engine_ok H0. destruct (fs_stat w p) as [size|] eqn:Estat.
  - destruct (DocumentType_of_value _) as [d|].
    + destruct (run_processor d p _ w _) as [[e|r0] s0] eqn:E; [discriminate|].
      intros H; injection H as <- _.
      destruct (processor_file_facts _ _ _ _ _ _ _ E) as (Hn & Hz & _).
      rewrite Estat in Hz. repeat split; auto. discriminate.
    + intros H; injection H as <- _. simpl. repeat split; auto. discriminate.
  - intros H; injection H as <- _. simpl. repeat split; auto. discriminate.
Qed.

Lemma result_names_and_sizes_the_file_witness :
  exists r s',
    DocParseEngine.extract_text (lit "/srv/in/notes.txt") None
      (Scenario.txt_world Scenario.two_pages) initial = (inr r, s')
    /\ filename (metadata r) = lit "notes.txt"
    /\ file_size (metadata r) = 34%Z.
Proof.
  destruct (DocParseEngine.extract_text (lit "/srv/in/notes.txt") None
              (Scenario.txt_world Scenario.two_pages) initial)
    as [[e|r] s'] eqn:E; [vm_compute in E; discriminate|].
  destruct (result_names_and_sizes_the_file _ _ _ _ _ _ E) as (Hn & Hz & _).
  exists r, s'. split; [reflexivity|]. rewrite Hn, Hz. split; reflexivity.
Defined.

(** X10.  [processing_time] of a processor's result is the time between
    the first clock reading of the run and the third, the fallback's run
    and a failure included; so it is never negative when the clock does not
    run backwards, and the engine's results are never negative then. *)
Theorem processing_time_is_never_negative p w :
  (forall i j, i <= j -> (clock w i <= clock w j)%Z) ->
  (forall d o s r s',
      run_processor d p o w s = (inr r, s') ->
      processing_time (metadata r)
      = (clock w (S (S (ticks s))) - clock w (ticks s))%Z
      /\ (0 <= processing_time (metadata r))%Z)
  /\ (forall oo s r s',
         DocParseEngine.extract_text p oo w s = (inr r, s') ->
         (0 <= processing_time (metadata r))%Z).
Proof.
  intros Hmono. split.
  - intros d o s r s' H.
    destruct (processor_file_facts _ _ _ _ _ _ _ H) as (_ & _ & _ & Hpt & _).
    split; [exact Hpt|]. rewrite Hpt.
    pose proof (Hmono (ticks s) (S (S (ticks s))) ltac:(lia)). lia.
  - intros oo s r s' H0. engine_ok H0.
    destruct (fs_stat w p) as [size|].
    + destruct (DocumentType_of_value _) as [d|].
      * destruct (run_processor d p _ w _) as [[e|r0] s0] eqn:E; [discriminate|].
        intros H; injection H as <- _.
        destruct (processor_file_facts _ _ _ _ _ _ _ E) as (_ & _ & _ & Hpt & _).
        rewrite Hpt. simpl.
        pose proof (Hmono (ticks s) (S (S (ticks s))) ltac:(lia)). lia.
      * intros H; injection H as <- _. simpl. lia.
    + intros H; injection H as <- _. simpl. lia.
Qed.

Lemma processing_time_is_never_negative_witness :
  exists r s',
    run_processor TXT (lit "notes.txt") ProcessingOptions_default
      (Scenario.txt_world Scenario.two_pages) initial = (inr r, s')
    /\ processing_time (metadata r) = 2000%Z
    /\ (0 <= processing_time (metadata r))%Z.
Proof.
  destruct (run_processor TXT (lit "notes.txt") ProcessingOptions_default
              (Scenario.txt_world Scenario.two_pages) initial)
    as [[e|r] s'] eqn:E; [vm_compute in E; discriminate|].
  assert (Hmono : forall i j, i <= j ->
            (clock (Scenario.txt_world Scenario.two_pages) i
             <= clock (Scenario.txt_world Scenario.two_pages) j)%Z)
    by (intros i j Hij; unfold Scenario.txt_world, Scenario.world; cbn [clock]; lia).
  destruct (proj1 (processing_time_is_never_negative (lit "notes.txt")
                     (Scenario.txt_world Scenario.two_pages) Hmono)
              TXT ProcessingOptions_default initial r s' E) as [Hpt Hnn].
  exists r, s'. split; [reflexivity|]. split; [rewrite Hpt; reflexivity|exact Hnn].
Defined.

(** X11.  The [document_type] of an engine result is read off the path
    alone: ["unknown"] when there is no such file, and otherwise the
    lower-cased extension without its dot, whether the format is supported
    or not and whether the extraction succeeded or not. *)
Theorem engine_document_type p oo w s r s' :
  DocParseEngine.extract_text p oo w s = (inr r, s') ->
  document_type (metadata r)
  = match fs_stat w p with
    | None => lit "unknown"
    | Some _ => DocParseEngine.extension_of p
    end.
Proof.
  intros H0. engine_ok H0. destruct (fs_stat w p) as [size|].
  - destruct (DocumentType_of_value _) as [d|] eqn:Et.
    + apply DocumentType_of_value_Some in Et.
      destruct (run_processor d p _ w _) as [[e|r0] s0] eqn:E; [discriminate|].
      intros H; injection H as <- _.
      destruct (processor_file_facts _ _ _ _ _ _ _ E) as (_ & _ & _ & _ & _ & Hd).
      rewrite Hd, Et. reflexivity.
    + intros H; injection H as <- _. reflexivity.
  - intros H; injection H as <- _. reflexivity.
Qed.

Lemma engine_document_type_witness :
  exists r s',
    DocParseEngine.extract_text (lit "broken.PDF") None
      (Scenario.pdf_world (inl (Scenario.boom "No /Root object"))
                          (inl (Scenario.boom "cannot open broken document")))
      initial = (inr r, s')
    /\ success r = false
    /\ document_type (metadata r) = lit "pdf".
Proof.
  destruct (DocParseEngine.extract_text (lit "broken.PDF") None
      (Scenario.pdf_world (inl (Scenario.boom "No /Root object"))
                          (inl (Scenario.boom "cannot open broken document")))
      initial) as [[e|r] s'] eqn:E; [vm_compute in E; discriminate|].
  pose proof (engine_document_type _ _ _ _ _ _ E) as Hd.
  exists r, s'. split; [reflexivity|]. split.
  - vm_compute in E. injection E as <- _. reflexivity.
  - rewrite Hd. reflexivity.
Defined.

(** ** The suffix, the extension and [is_supported_file] *)

Lemma rfind_char_None (c : char) (s : str) :
  rfind_char c s = None -> ~ In c s.
Proof.
  induction s as [|d s IH]; simpl; [auto|].
  destruct (rfind_char c s); [discriminate|].
  destruct (d =? c)%N eqn:E; [discriminate|].
  apply N.eqb_neq in E. intros _ [H|H]; [congruence|exact (IH eq_refl H)].
Qed.

(** [rfind] points at the last occurrence. *)
Lemma rfind_char_Some (c : char) (s : str) (i : nat) :
  rfind_char c s = Some i ->
  exists a b, s = a ++ c :: b /\ List.length a = i /\ ~ In c b.
Proof.
  revert i; induction s as [|d s IH]; intros i; simpl; [discriminate|].
  destruct (rfind_char c s) as [j|] eqn:E.
  - intros H; injection H as <-.
    destruct (IH j eq_refl) as (a & b & -> & Hl & Hb).
    exists (d :: a), b. simpl. auto.
  - destruct (d =? c)%N eqn:Ed; [|discriminate].
    apply N.eqb_eq in Ed. subst d. intros H; injection H as <-.
    exists [], s. split; [reflexivity|]. split; [reflexivity|].
    apply rfind_char_None, E.
Qed.

(** A suffix is empty, or a dot and at least one character with no dot
    among them. *)
Lemma path_suffix_shape (p : Path) :
  path_suffix p = []
  \/ exists rest, path_suffix p = DOT :: rest /\ rest <> [] /\ ~ In DOT rest.
Proof.
  unfold path_suffix.
  destruct (rfind_char DOT (path_name p)) as [i|] eqn:E; [|left; reflexivity].
  destruct ((0 <? i) && (i <? List.length (path_name p) - 1)) eqn:Eb;
    [|left; reflexivity].
  right. apply rfind_char_Some in E as (a & b & Hn & Hl & Hb).
  apply andb_prop in Eb as [_ Hlt]. apply Nat.ltb_lt in Hlt.
  rewrite Hn in *. rewrite length_app in Hlt. simpl in Hlt.
  exists b. split; [|split; [|exact Hb]].
  - rewrite <- Hl. rewrite skipn_app, skipn_all, Nat.sub_diag. reflexivity.
  - intros ->. simpl in Hlt. lia.
Qed.

Lemma lstrip_dot_no_dot (s : str) : ~ In DOT s -> lstrip_dot s = s.
Proof.
  destruct s as [|c s]; [reflexivity|]. simpl. intros H.
  destruct (c =? DOT)%N eqn:E; [|reflexivity].
  apply N.eqb_eq in E. exfalso; apply H. left. exact E.
Qed.

(** The lower-cased suffix is the dot and the extension, or both are
    empty. *)
Lemma suffix_and_extension (p : Path) :
  (lower (path_suffix p) = [] /\ DocParseEngine.extension_of p = [])
  \/ (lower (path_suffix p) = DOT :: DocParseEngine.extension_of p
      /\ DocParseEngine.extension_of p <> []).
Proof.
  unfold DocParseEngine.extension_of.
  destruct (path_suffix_shape p) as [-> | (rest & -> & Hne & Hnd)];
    [left; split; reflexivity|right].
  rewrite (lower_dot_cons rest). cbn [lstrip_dot]. rewrite N.eqb_refl.
  rewrite lstrip_dot_no_dot by (rewrite lower_keeps_dots; exact Hnd).
  split; [reflexivity|]. apply lower_from_nonempty. exact Hne.
Qed.

(** Each processor's own check of the suffix agrees with the engine's
    lookup of the extension. *)
Lemma supports_file_type_spec (d : DocumentType) (p : Path) :
  DocumentProcessor.supports_file_type (DocParseEngine.processors d) p = true
  <-> DocParseEngine.extension_of p = DocumentType_value d.
Proof.
  assert (Hgen : forall v : str,
             v <> [] ->
             (str_eqb (lower (path_suffix p)) (DOT :: v) = true
              <-> DocParseEngine.extension_of p = v)).
  { intros v Hv. rewrite str_eqb_eq.
    destruct (suffix_and_extension p) as [[Hs He] | [Hs He]]; rewrite Hs.
    - rewrite He. split; [discriminate|intros <-; congruence].
    - split; [intros H; injection H as H; exact H|intros ->; reflexivity]. }
  destruct d; simpl;
    [apply (Hgen (lit "pdf"))|apply (Hgen (lit "txt"))|apply (Hgen (lit "docx"))];
    discriminate.
Qed.

(** X12.  [is_supported_file] never raises and changes nothing; it answers
    true exactly when the lower-cased extension of the path is one of pdf,
    txt, docx.  The check each processor makes on the suffix never
    overrules that lookup: a processor supports a file exactly when the
    extension is its own document type. *)
Theorem is_supported_file_by_extension p w s :
  (exists b,
      DocParseEngine.is_supported_file p w s = (inr b, s)
      /\ (b = true <-> In (DocParseEngine.extension_of p) get_supported_formats))
  /\ (forall d,
        DocumentProcessor.supports_file_type (DocParseEngine.processors d) p = true
        <-> DocParseEngine.extension_of p = DocumentType_value d).
Proof.
  split; [|intros d; apply supports_file_type_spec].
  unfold DocParseEngine.is_supported_file, try_except_class.
  unfold bind. rewrite DocumentType_call_run.
  destruct (DocumentType_of_value (DocParseEngine.extension_of p)) as [d|] eqn:E.
  - exists (DocumentProcessor.supports_file_type (DocParseEngine.processors d) p).
    split; [reflexivity|].
    apply DocumentType_of_value_Some in E.
    rewrite supports_file_type_spec. split; [|intros _; exact E].
    intros _. rewrite E. unfold get_supported_formats. destruct d; simpl; auto.
  - exists false. split; [reflexivity|].
    apply DocumentType_of_value_None in E.
    split; [discriminate|]. intros H. contradiction.
Qed.

Example is_supported_file_demo :
  DocParseEngine.is_supported_file (lit "/tmp/Thesis.final.DocX")
    Scenario.no_file_world initial = (inr true, initial)
  /\ DocParseEngine.is_supported_file (lit "archive.tar.gz")
       Scenario.no_file_world initial = (inr false, initial)
  /\ DocParseEngine.is_supported_file (lit ".pdf")
       Scenario.no_file_world initial = (inr false, initial).
Proof. split; [|split]; reflexivity. Qed.

(** ** Segmentation keeps the words *)

Lemma split_ws_from_space (a b cur : str) (c : char) :
  isspace c = true ->
  split_ws_from cur (a ++ c :: b) = split_ws_from cur a ++ split_ws b.
Proof.
  intros Hc. revert cur; induction a as [|d a IH]; intros cur; simpl.
  - rewrite Hc. destruct cur; reflexivity.
  - destruct (isspace d); [destruct cur|]; rewrite IH; reflexivity.
Qed.

(** A separator made of whitespace splits a text between two words. *)
Lemma split_ws_around (sep a b : str) :
  sep <> [] -> forallb isspace sep = true ->
  split_ws (a ++ sep ++ b) = split_ws a ++ split_ws b.
Proof.
  intros Hne Hsp. destruct sep as [|c sep]; [congruence|].
  simpl in Hsp. apply andb_prop in Hsp as [Hc Hsp].
  unfold split_ws at 1. simpl app.
  rewrite (split_ws_from_space a (sep ++ b) [] c Hc).
  rewrite (split_ws_leading sep b Hsp). reflexivity.
Qed.

Lemma words_of_split_rounds (sep : str) (n : nat) (s : str) :
  sep <> [] -> forallb isspace sep = true ->
  words_of (split_rounds n sep s) = split_ws s.
Proof.
  intros Hne Hsp. unfold words_of.
  revert s; induction n as [|n IH]; intros s; simpl.
  - apply app_nil_r.
  - destruct (find sep s) as [i|] eqn:E; simpl; [|apply app_nil_r].
    rewrite IH. rewrite <- (split_ws_around sep _ _ Hne Hsp).
    f_equal. symmetry. exact (proj1 (find_Some _ _ _ E)).
Qed.

Lemma strip_nil_no_words (s : str) : strip s = [] -> split_ws s = [].
Proof. intros H. rewrite <- split_ws_strip, H. reflexivity. Qed.

Lemma words_of_keep_nonblank (chunks : list str) :
  words_of (TXTProcessor.keep_nonblank chunks) = words_of chunks.
Proof.
  unfold words_of, TXTProcessor.keep_nonblank.
  induction chunks as [|c chunks IH]; simpl; [reflexivity|].
  destruct (truthy (strip c)) eqn:E; simpl; rewrite IH; [reflexivity|].
  rewrite strip_nil_no_words; [reflexivity|].
  destruct (strip c); [reflexivity|discriminate].
Qed.

(** The branch of the segmentation a content takes. *)
Lemma split_into_pages_cases (content : str) :
  ~ In FF content ->
  (occurs [NL; NL; NL] content ->
     TXTProcessor._split_into_pages content
     = TXTProcessor.keep_nonblank (split [NL; NL; NL] content))
  /\ (~ occurs [NL; NL; NL] content -> List.length content <= 3000 ->
        TXTProcessor._split_into_pages content
        = [if truthy (strip content) then content else []]).
Proof.
  intros Hff. unfold TXTProcessor._split_into_pages.
  rewrite (no_form_feed _ Hff). split.
  - intros H. apply (split_several [NL; NL; NL]) in H; [|discriminate].
    rewrite H. reflexivity.
  - intros Hnl Hlen. rewrite (no_triple_newline _ Hnl).
    assert (E : (3000 <? len content)%Z = false)
      by (apply Z.ltb_ge; unfold len; lia).
    rewrite E. destruct (truthy (strip content)); reflexivity.
Qed.

Lemma split_into_pages_form_feed (content : str) :
  In FF content ->
  TXTProcessor._split_into_pages content
  = TXTProcessor.keep_nonblank (split [FF] content).
Proof.
  intros H. unfold TXTProcessor._split_into_pages.
  apply occurs_single in H. apply (split_several [FF]) in H; [|discriminate].
  rewrite H. reflexivity.
Qed.

(** The chunks of a content cut at a separator, or short enough to stay
    whole, hold the words of the content. *)
Lemma split_into_pages_words (content : str) :
  In FF content \/ occurs [NL; NL; NL] content \/ List.length content <= 3000 ->
  words_of (TXTProcessor._split_into_pages content) = split_ws content.
Proof.
  intros H.
  destruct (in_dec N.eq_dec FF content) as [Hff | Hff].
  - rewrite (split_into_pages_form_feed content Hff).
    rewrite words_of_keep_nonblank. unfold split.
    apply words_of_split_rounds; [discriminate|reflexivity].
  - destruct H as [H | H]; [contradiction|].
    destruct (find [NL; NL; NL] content) as [i|] eqn:E.
    + assert (Ho : occurs [NL; NL; NL] content).
      { destruct (find_Some _ _ _ E) as [Hs _]. eexists; eexists; exact Hs. }
      rewrite (proj1 (split_into_pages_cases content Hff) Ho).
      rewrite words_of_keep_nonblank. unfold split.
      apply words_of_split_rounds; [discriminate|reflexivity].
    + apply find_None in E. destruct H as [H | H]; [contradiction|].
      rewrite (proj2 (split_into_pages_cases content Hff) E H).
      unfold words_of. simpl. rewrite app_nil_r.
      destruct (truthy (strip content)) eqn:Et; [reflexivity|].
      symmetry. apply strip_nil_no_words. destruct (strip content); [reflexivity|discriminate].
Qed.

Lemma numbered_from_snd {A : Type} (start : nat) (l : list A) :
  map snd (numbered_from start l) = l.
Proof.
  revert start; induction l as [|x l IH]; intros start; simpl; [reflexivity|].
  rewrite IH. reflexivity.
Qed.

(** The pages of a text backend: one for each of the first chunks. *)
Lemma text_pages (clean : str -> str) (o : ProcessingOptions) (chunks : list str) :
  built_pages o (map (fun chunk i => inr (page_of_text i (clean chunk))) chunks)
  = inr (map (fun '(i, chunk) => page_of_text i (clean chunk))
             (firstn (Z.to_nat (pages_to_process_of o (len chunks)))
                     (numbered chunks))).
Proof.
  rewrite (built_pages_map o (fun i chunk => inr (page_of_text i (clean chunk)))).
  rewrite <- collect_map_inr. f_equal. rewrite map_map.
  apply map_ext. intros [i chunk]. reflexivity.
Qed.

Lemma text_pages_texts (clean : str -> str) (k : nat) (chunks : list str) :
  map text (map (fun '(i, chunk) => page_of_text i (clean chunk))
                (firstn k (numbered chunks)))
  = map clean (firstn k chunks).
Proof.
  unfold numbered. rewrite numbered_from_firstn.
  rewrite <- (numbered_from_snd 0 (firstn k chunks)) at 2.
  rewrite !map_map. apply map_ext. intros [i chunk]. reflexivity.
Qed.

Lemma words_of_strip (chunks : list str) :
  words_of (map strip chunks) = words_of chunks.
Proof.
  unfold words_of. rewrite map_map. f_equal.
  apply map_ext. intros c. apply split_ws_strip.
Qed.

(** The word counts of well-formed pages add up to the number of their
    words. *)
Lemma total_words_of_pages (pages : list PageContent) :
  Forall page_well_formed pages ->
  total_words pages = len (words_of (map text pages)).
Proof.
  unfold total_words, words_of, len.
  induction 1 as [|pc pages (_ & Hz & Hw & _) _ IH]; simpl; [reflexivity|].
  rewrite length_app, Nat2Z.inj_add, IH. f_equal.
  destruct (text pc) as [|c t] eqn:E.
  - rewrite (proj2 Hz eq_refl). reflexivity.
  - rewrite Hw by discriminate. reflexivity.
Qed.

(** X13.  A TXT extraction without a cap loses no word: when the file
    holds a form feed or three newlines in a row, or no more than 3000
    characters, the words of the pages, in order, are the words of the
    file, and the [word_count]s add up to their number.  (Fixed windows may
    cut a word in two.) *)
Theorem txt_pages_hold_the_words p o w s r s' content :
  open_read w p (encoding o) (error_handling o) = inr content ->
  run_processor TXT p o w s = (inr r, s') ->
  success r = true ->
  max_pages o = None ->
  In FF content \/ occurs [NL; NL; NL] content \/ List.length content <= 3000 ->
  words_of (map text (pages r)) = split_ws content
  /\ total_words (pages r) = len (split_ws content).
Proof.
  intros Hread H Hs Hmax Hsep.
  assert (Hwf : Forall page_well_formed (pages r)).
  { apply processor_shape in H
      as [(m & _ & _ & _ & _ & _ & _ & Hall & _) | (_ & Hp & _)];
      [exact Hall|rewrite Hp; constructor]. }
  destruct (success_from_attempt _ _ _ _ _ _ _ H Hs) as (m & s0 & Hm & Ha).
  destruct Hm as [<- | []].
  destruct (attempt_inr _ _ _ _ _ _ _ _ Ha) as (units & size & Hu & Hb & _).
  simpl in Hu. rewrite Hread in Hu. injection Hu as <-.
  rewrite text_pages in Hb. injection Hb as Hb.
  assert (Hw : words_of (map text (pages r)) = split_ws content).
  { rewrite <- Hb, text_pages_texts.
    unfold pages_to_process_of. rewrite Hmax. simpl. rewrite Z.min_id.
    rewrite firstn_all2 by (unfold len; lia).
    rewrite words_of_strip. apply split_into_pages_words, Hsep. }
  split; [exact Hw|].
  rewrite (total_words_of_pages _ Hwf), Hw. reflexivity.
Qed.

Lemma txt_pages_hold_the_words_witness :
  exists r s',
    run_processor TXT (lit "notes.txt") ProcessingOptions_default
      (Scenario.txt_world Scenario.two_pages) initial = (inr r, s')
    /\ words_of (map text (pages r))
       = [lit "Page"; lit "one"; lit "content"; lit "Page"; lit "two"; lit "content"]
    /\ total_words (pages r) = 6%Z.
Proof.
  destruct (run_processor TXT (lit "notes.txt") ProcessingOptions_default
              (Scenario.txt_world Scenario.two_pages) initial)
    as [[e|r] s'] eqn:E; [vm_compute in E; discriminate|].
  assert (Hs : success r = true)
    by (vm_compute in E; injection E as <- _; reflexivity).
  assert (Hff : In FF Scenario.two_pages).
  { unfold Scenario.two_pages. rewrite !in_app_iff. simpl. auto. }
  destruct (txt_pages_hold_the_words (lit "notes.txt") ProcessingOptions_default
              (Scenario.txt_world Scenario.two_pages) initial r s'
              Scenario.two_pages eq_refl E Hs eq_refl (or_introl Hff)) as [Hw Ht].
  exists r, s'. split; [reflexivity|]. rewrite Hw, Ht. split; reflexivity.
Defined.

(** ** The DOCX grouping keeps the paragraphs *)

Lemma join_cons (sep p : str) (rest : list str) :
  rest <> [] -> join sep (p :: rest) = p ++ sep ++ join sep rest.
Proof. destruct rest; [congruence|reflexivity]. Qed.

Lemma join_app (sep : str) (l1 l2 : list str) :
  l1 <> [] -> l2 <> [] ->
  join sep (l1 ++ l2) = join sep l1 ++ sep ++ join sep l2.
Proof.
  intros H1 H2. induction l1 as [|x l1 IH]; [congruence|].
  destruct l1 as [|y l1].
  - simpl app. apply join_cons, H2.
  - change ((x :: y :: l1) ++ l2) with (x :: ((y :: l1) ++ l2)).
    rewrite join_cons by discriminate.
    rewrite IH by discriminate.
    rewrite (join_cons sep x (y :: l1)) by discriminate.
    rewrite <- !app_assoc. reflexivity.
Qed.

(** Joining groups that were joined one by one is joining all their
    members. *)
Lemma join_flat (sep : str) (groups : list (list str)) :
  Forall (fun g => g <> []) groups ->
  join sep (map (join sep) groups) = join sep (List.concat groups).
Proof.
  induction 1 as [|g groups Hg Hall IH]; [reflexivity|].
  destruct groups as [|g2 groups].
  - simpl. rewrite app_nil_r. reflexivity.
  - change (map (join sep) (g :: g2 :: groups))
      with (join sep g :: map (join sep) (g2 :: groups)).
    rewrite join_cons by discriminate. rewrite IH.
    change (List.concat (g :: g2 :: groups)) with (g ++ List.concat (g2 :: groups)).
    rewrite join_app; [reflexivity|exact Hg|].
    inversion Hall as [|? ? Hg2 _]; subst. simpl.
    destruct g2; [congruence|discriminate].
Qed.

(** The pages the loop has closed are joined groups of trimmed non-blank
    paragraphs, and groups and open page together hold the kept paragraphs
    read so far. *)
Lemma group_loop_groups (paragraphs : list str) (groups : list (list str))
    (cur pages' cur' : list str) :
  Forall (fun g => g <> [] /\ Forall solid g) groups ->
  Forall solid cur ->
  DOCXProcessor.group_loop paragraphs (map (join [NL]) groups) cur = (pages', cur') ->
  exists groups',
    pages' = map (join [NL]) groups'
    /\ Forall (fun g => g <> [] /\ Forall solid g) groups'
    /\ Forall solid cur'
    /\ List.concat groups' ++ cur'
       = List.concat groups ++ cur ++ kept_paragraphs paragraphs.
Proof.
  revert groups cur; induction paragraphs as [|p ps IH]; intros groups cur Hg Hc E;
    simpl in E.
  - injection E as <- <-. exists groups. rewrite app_nil_r. auto.
  - unfold kept_paragraphs. simpl. destruct (truthy (strip p)) eqn:Et.
    + assert (Hc' : Forall solid (cur ++ [strip p])).
      { apply Forall_app. split; [exact Hc|].
        constructor; [apply solid_strip, Et|constructor]. }
      destruct (IH _ _ Hg Hc' E) as (G & Hp & HG & Hcur & Heq).
      exists G. split; [exact Hp|]. split; [exact HG|]. split; [exact Hcur|].
      rewrite Heq. unfold kept_paragraphs. rewrite <- !app_assoc. reflexivity.
    + destruct cur as [|c cur].
      * exact (IH _ _ Hg Hc E).
      * assert (Hg' : Forall (fun g : list str => g <> [] /\ Forall solid g)
                        (groups ++ [c :: cur])).
        { apply Forall_app. split; [exact Hg|].
          constructor; [split; [discriminate|exact Hc]|constructor]. }
        replace (map (join [NL]) groups ++ [join [NL] (c :: cur)])
          with (map (join [NL]) (groups ++ [c :: cur])) in E
          by (rewrite map_app; reflexivity).
        destruct (IH _ _ Hg' (Forall_nil _) E) as (G & Hp & HG & Hcur & Heq).
        exists G. split; [exact Hp|]. split; [exact HG|]. split; [exact Hcur|].
        rewrite Heq, concat_app. simpl. rewrite app_nil_r, <- !app_assoc. reflexivity.
Qed.

Lemma concat_length_groups {A : Type} (groups : list (list A)) :
  Forall (fun g => g <> []) groups ->
  List.length groups <= List.length (List.concat groups).
Proof.
  induction 1 as [|g groups Hg _ IH]; simpl; [lia|].
  rewrite length_app. destruct g; [congruence|simpl; lia].
Qed.

(** X14.  The DOCX grouping neither loses nor reorders text: joined with
    newlines, its pages are the trimmed non-blank paragraphs joined with
    newlines.  A document without a non-blank paragraph gives the one empty
    page; otherwise every page is non-empty and trimmed, and there are no
    more pages than non-blank paragraphs. *)
Theorem docx_grouping_keeps_the_text (paragraphs : list str) (o : ProcessingOptions) :
  let pages := DOCXProcessor._group_into_pages paragraphs o in
  join [NL] pages = join [NL] (kept_paragraphs paragraphs)
  /\ (kept_paragraphs paragraphs = [] -> pages = [[]])
  /\ (kept_paragraphs paragraphs <> [] ->
        Forall solid pages
        /\ 1 <= List.length pages <= List.length (kept_paragraphs paragraphs)).
Proof.
  cbv zeta. unfold DOCXProcessor._group_into_pages.
  destruct (DOCXProcessor.group_loop paragraphs [] []) as [pages cur] eqn:E.
  destruct (group_loop_groups paragraphs [] [] pages cur
              (Forall_nil _) (Forall_nil _) E)
    as (G & -> & HG & Hsolid & Hc).
  simpl in Hc.
  assert (Hfinal : exists G',
             (match cur with
              | [] => map (join [NL]) G
              | _ :: _ => map (join [NL]) G ++ [join [NL] cur]
              end) = map (join [NL]) G'
             /\ Forall (fun g => g <> [] /\ Forall solid g) G'
             /\ List.concat G' = kept_paragraphs paragraphs).
  { destruct cur as [|c cur].
    - exists G. rewrite app_nil_r in Hc. auto.
    - exists (G ++ [c :: cur]). rewrite map_app. split; [reflexivity|]. split.
      + apply Forall_app; split; [exact HG|].
        constructor; [split; [discriminate|exact Hsolid]|constructor].
      + rewrite concat_app; simpl; rewrite app_nil_r; exact Hc. }
  destruct Hfinal as (G' & -> & HG' & Hk).
  assert (Hne : Forall (fun g : list str => g <> []) G').
  { apply Forall_forall. intros g Hin. rewrite Forall_forall in HG'.
    exact (proj1 (HG' g Hin)). }
  rewrite <- Hk.
  destruct G' as [|g G'].
  - assert (Hres : match map (join [NL]) ([] : list (list str)), paragraphs with
                   | [], _ :: _ =>
                       if truthy (join [NL]
                            (filter (fun p => truthy (strip p)) paragraphs))
                       then [join [NL]
                               (filter (fun p => truthy (strip p)) paragraphs)]
                       else [[]]
                   | _, _ => map (join [NL]) []
                   end = match paragraphs with [] => [] | _ :: _ => [[]] end).
    { destruct paragraphs as [|p0 ps]; [reflexivity|].
      simpl in Hk. unfold kept_paragraphs in Hk.
      assert (Hf : filter (fun p => truthy (strip p)) (p0 :: ps) = []).
      { symmetry in Hk. clear - Hk.
        induction (p0 :: ps) as [|x l IH]; [reflexivity|].
        simpl in *. destruct (truthy (strip x)); [discriminate|]. exact (IH Hk). }
      rewrite Hf. reflexivity. }
    rewrite Hres.
    split; [destruct paragraphs; reflexivity|].
    split; [intros _; destruct paragraphs; reflexivity|].
    intros H. exfalso. apply H. reflexivity.
  - change (map (join [NL]) (g :: G')) with (join [NL] g :: map (join [NL]) G').
    split; [apply (join_flat [NL] (g :: G') Hne)|].
    split.
    + intros H. exfalso. inversion Hne as [|? ? Hg _]; subst.
      simpl in H. destruct g; [congruence|discriminate].
    + intros _. split.
      * change (join [NL] g :: map (join [NL]) G') with (map (join [NL]) (g :: G')).
        apply Forall_forall. intros page Hin.
        apply in_map_iff in Hin as (grp & <- & Hin).
        rewrite Forall_forall in HG'. destruct (HG' _ Hin) as [Hn Hs].
        apply join_solid; [exact Hs|exact Hn].
      * simpl List.length at 1 2. rewrite length_map.
        pose proof (concat_length_groups (g :: G') Hne) as Hle.
        simpl List.length in Hle at 1. lia.
Qed.

Lemma docx_grouping_keeps_the_text_witness :
  let paragraphs := [lit " Dear all, "; lit "  "; lit "see you  soon "; lit "B."] in
  let pages := DOCXProcessor._group_into_pages paragraphs ProcessingOptions_default in
  join [NL] pages = lit "Dear all," ++ [NL] ++ lit "see you  soon" ++ [NL] ++ lit "B."
  /\ Forall solid pages
  /\ 1 <= List.length pages <= 3.
Proof.
  cbv zeta.
  destruct (docx_grouping_keeps_the_text
              [lit " Dear all, "; lit "  "; lit "see you  soon "; lit "B."]
              ProcessingOptions_default) as (Hj & _ & Hk).
  split; [rewrite Hj; reflexivity|].
  apply Hk. vm_compute. discriminate.
Defined.

(** ** Chunks and separators *)

Lemma find_bound (sep a b : str) :
  exists j, find sep (a ++ sep ++ b) = Some j /\ j <= List.length a.
Proof.
  induction a as [|x a (j & Hj & Hle)].
  - rewrite find_eq.
    assert (E : startswith sep ([] ++ sep ++ b) = true)
      by (apply startswith_spec; exists b; reflexivity).
    rewrite E. exists 0. split; [reflexivity|simpl; lia].
  - change ((x :: a) ++ sep ++ b) with (x :: (a ++ sep ++ b)). rewrite find_eq.
    destruct (startswith sep _); [exists 0; split; [reflexivity|simpl; lia]|].
    lazy beta iota. rewrite Hj. exists (S j). split; [reflexivity|simpl; lia].
Qed.

(** What stands before the leftmost occurrence holds no occurrence. *)
Lemma before_find (sep s : str) (i : nat) :
  sep <> [] -> find sep s = Some i -> ~ occurs sep (firstn i s).
Proof.
  intros Hne E (a & b & Hab).
  destruct (find_Some _ _ _ E) as [_ Hi].
  assert (Hs : s = a ++ sep ++ (b ++ skipn i s)).
  { rewrite <- (firstn_skipn i s) at 1. rewrite Hab, <- !app_assoc. reflexivity. }
  destruct (find_bound sep a (b ++ skipn i s)) as (j & Hj & Hle).
  rewrite <- Hs, E in Hj. injection Hj as <-.
  apply (f_equal (@List.length _)) in Hab.
  rewrite length_firstn, !length_app in Hab.
  assert (0 < List.length sep) by (destruct sep; [congruence|simpl; lia]).
  lia.
Qed.

Lemma split_rounds_chunks_free (sep : str) (n : nat) (s : str) :
  sep <> [] -> List.length s <= n ->
  Forall (fun chunk => ~ occurs sep chunk) (split_rounds n sep s).
Proof.
  intros Hne. revert s; induction n as [|n IH]; intros s Hn; simpl.
  - assert (s = []) by (apply length_zero_iff_nil; lia). subst s.
    constructor; [|constructor]. intros (a & b & H). symmetry in H.
    apply app_eq_nil in H as [_ H]. apply app_eq_nil in H as [H _]. auto.
  - destruct (find sep s) as [i|] eqn:E.
    + constructor; [exact (before_find _ _ _ Hne E)|].
      apply IH. rewrite length_skipn.
      assert (0 < List.length sep) by (destruct sep; [congruence|simpl; lia]). lia.
    + constructor; [apply find_None, E|constructor].
Qed.

Lemma Forall_keep_nonblank (P : str -> Prop) (chunks : list str) :
  Forall P chunks -> Forall P (TXTProcessor.keep_nonblank chunks).
Proof.
  intros H. apply Forall_forall. intros c Hin.
  apply filter_In in Hin as [Hin _]. rewrite Forall_forall in H. exact (H c Hin).
Qed.

(** X15.  A page separator never shows up inside a page: when the content
    holds a form feed no chunk of the segmentation holds one, and when it
    is cut at three newlines no chunk holds three newlines in a row. *)
Theorem chunks_hold_no_separator (content : str) :
  (In FF content ->
     Forall (fun chunk => ~ In FF chunk) (TXTProcessor._split_into_pages content))
  /\ (~ In FF content -> occurs [NL; NL; NL] content ->
        Forall (fun chunk => ~ occurs [NL; NL; NL] chunk)
               (TXTProcessor._split_into_pages content)).
Proof.
  split.
  - intros H. rewrite (split_into_pages_form_feed content H).
    apply Forall_keep_nonblank.
    pose proof (split_rounds_chunks_free [FF] (List.length content) content
                  ltac:(discriminate) (le_n _)) as Hfree.
    apply Forall_forall. intros c Hin Hc. rewrite Forall_forall in Hfree.
    apply (Hfree c Hin). apply occurs_single. exact Hc.
  - intros Hff H. rewrite (proj1 (split_into_pages_cases content Hff) H).
    apply Forall_keep_nonblank.
    exact (split_rounds_chunks_free [NL; NL; NL] (List.length content) content
             ltac:(discriminate) (le_n _)).
Qed.

Lemma chunks_hold_no_separator_witness :
  Forall (fun chunk => ~ In FF chunk)
         (TXTProcessor._split_into_pages Scenario.two_pages)
  /\ List.length (TXTProcessor._split_into_pages Scenario.two_pages) = 2.
Proof.
  split; [|reflexivity].
  apply (proj1 (chunks_hold_no_separator Scenario.two_pages)).
  unfold Scenario.two_pages. rewrite !in_app_iff. simpl. auto.
Defined.

(** ** When there is no page at all *)

Lemma lstrip_blank (s : str) : blank s -> lstrip s = [].
Proof.
  induction s as [|c s IH]; intros H; simpl; [reflexivity|].
  rewrite (H c (or_introl eq_refl)). apply IH. intros d Hd. apply H. right. exact Hd.
Qed.

Lemma strip_nil_blank (s : str) : strip s = [] <-> blank s.
Proof.
  split.
  - intros H c Hin.
    destruct (lstrip_decompose s) as (ws & E & Hws).
    destruct (rstrip_decompose (lstrip s)) as (ws' & E' & Hws').
    unfold strip in H. rewrite H in E'. simpl in E'. rewrite E' in E.
    rewrite E in Hin. rewrite forallb_forall in Hws, Hws'.
    apply in_app_or in Hin as [Hin|Hin]; auto.
  - intros H. unfold strip. rewrite (lstrip_blank s H). reflexivity.
Qed.

Lemma in_skipn {A : Type} (x : A) (k : nat) (l : list A) :
  In x (skipn k l) -> In x l.
Proof.
  intros H. rewrite <- (firstn_skipn k l). apply in_or_app. right. exact H.
Qed.

Lemma split_rounds_within (sep : str) (n : nat) (s chunk : str) (c : char) :
  In chunk (split_rounds n sep s) -> In c chunk -> In c s.
Proof.
  revert s; induction n as [|n IH]; intros s; simpl.
  - intros [<-|[]] H; exact H.
  - destruct (find sep s) as [i|].
    + intros [<-|Hin] H; [exact (in_firstn _ _ _ H)|].
      exact (in_skipn _ _ _ (IH _ Hin H)).
    + intros [<-|[]] H; exact H.
Qed.

Lemma in_join (sep : str) (l : list str) (c : char) :
  In c (join sep l) -> In c sep \/ exists chunk, In chunk l /\ In c chunk.
Proof.
  induction l as [|x l IH]; [intros []|].
  destruct l as [|y l].
  - simpl. intros H. right. exists x. auto.
  - rewrite join_cons by discriminate. intros H.
    apply in_app_or in H as [H|H]; [right; exists x; simpl; auto|].
    apply in_app_or in H as [H|H]; [left; exact H|].
    destruct (IH H) as [Hs | (chunk & Hin & Hc)]; [left; exact Hs|].
    right. exists chunk. split; [right; exact Hin|exact Hc].
Qed.

(** Cut at a separator made of whitespace, a content has no non-blank
    chunk exactly when it is blank itself. *)
Lemma keep_nonblank_nil (sep content : str) :
  blank sep ->
  (TXTProcessor.keep_nonblank (split sep content) = [] <-> blank content).
Proof.
  intros Hsep. unfold TXTProcessor.keep_nonblank. split.
  - intros H c Hin. rewrite <- (join_split sep content) in Hin.
    apply in_join in Hin as [Hin | (chunk & Hchunk & Hc)]; [exact (Hsep c Hin)|].
    destruct (truthy (strip chunk)) eqn:Et.
    + assert (Hin' : In chunk (filter (fun page => truthy (strip page))
                                      (split sep content)))
        by (apply filter_In; auto).
      rewrite H in Hin'. destruct Hin'.
    + assert (Hb : blank chunk).
      { apply strip_nil_blank. destruct (strip chunk); [reflexivity|discriminate]. }
      exact (Hb c Hc).
  - intros Hb.
    destruct (filter _ (split sep content)) as [|chunk rest] eqn:E; [reflexivity|].
    assert (Hin : In chunk (filter (fun page => truthy (strip page))
                                   (split sep content)))
      by (rewrite E; left; reflexivity).
    apply filter_In in Hin as [Hin Ht].
    assert (Hbc : blank chunk).
    { intros c Hc. apply Hb. exact (split_rounds_within _ _ _ _ _ Hin Hc). }
    apply strip_nil_blank in Hbc. rewrite Hbc in Ht. discriminate.
Qed.

(** X16.  The segmentation comes back with no chunk at all exactly when
    the content is blank and holds a page separator (a form feed, or three
    newlines in a row); a blank content without one gives the one empty
    chunk. *)
Theorem no_chunk_iff_blank_with_separator (content : str) :
  TXTProcessor._split_into_pages content = []
  <-> (In FF content \/ occurs [NL; NL; NL] content) /\ blank content.
Proof.
  assert (Hbff : blank [FF]) by (intros c [<-|[]]; reflexivity).
  assert (Hbnl : blank [NL; NL; NL])
    by (intros c [<-|[<-|[<-|[]]]]; reflexivity).
  destruct (in_dec N.eq_dec FF content) as [Hff | Hff].
  - rewrite (split_into_pages_form_feed content Hff), (keep_nonblank_nil _ _ Hbff).
    tauto.
  - destruct (find [NL; NL; NL] content) as [i|] eqn:E.
    + assert (Ho : occurs [NL; NL; NL] content).
      { destruct (find_Some _ _ _ E) as [Hs _]. eexists; eexists; exact Hs. }
      rewrite (proj1 (split_into_pages_cases content Hff) Ho),
        (keep_nonblank_nil _ _ Hbnl).
      tauto.
    + apply find_None in E. split; [|tauto].
      intros H. exfalso.
      destruct (le_lt_dec (List.length content) 3000) as [Hle | Hgt].
      * rewrite (proj2 (split_into_pages_cases content Hff) E Hle) in H. discriminate.
      * destruct (split_into_pages_cases_windows content Hgt Hff E) as [Hw (_ & Hn & _)].
        cbv zeta in Hw, Hn. rewrite <- Hw, H in Hn. simpl in Hn. lia.
Qed.

Lemma no_chunk_iff_blank_with_separator_witness :
  TXTProcessor._split_into_pages (lit " " ++ [FF; NL]) = []
  /\ TXTProcessor._split_into_pages (lit " " ++ [NL]) = [[]].
Proof.
  split; [|reflexivity].
  apply (proj2 (no_chunk_iff_blank_with_separator (lit " " ++ [FF; NL]))).
  split; [left; simpl; auto|].
  intros c [<-|[<-|[<-|[]]]]; reflexivity.
Defined.

(** ** Results as dictionaries *)

Lemma map_injective {A B : Type} (f : A -> B) :
  (forall x y, f x = f y -> x = y) ->
  forall l1 l2, map f l1 = map f l2 -> l1 = l2.
Proof.
  intros Hf l1; induction l1 as [|x l1 IH]; intros [|y l2] H; try discriminate;
    [reflexivity|].
  simpl in H. injection H as Hxy H. f_equal; [apply Hf, Hxy|apply IH, H].
Qed.

Lemma optional_str_injective (a b : option str) :
  optional_str a = optional_str b -> a = b.
Proof.
  destruct a, b; simpl; intros H; try discriminate; [injection H as ->|]; reflexivity.
Qed.

Lemma table_value_injective (t1 t2 : table) :
  table_value t1 = table_value t2 -> t1 = t2.
Proof.
  unfold table_value. intros H. injection H as H.
  revert H. apply map_injective. intros r1 r2 Hr. injection Hr as Hr.
  revert Hr. apply map_injective. exact optional_str_injective.
Qed.

Lemma PageContent_to_dict_injective (p1 p2 : PageContent) :
  PageContent_to_dict p1 = PageContent_to_dict p2 -> p1 = p2.
Proof.
  destruct p1, p2. unfold PageContent_to_dict. simpl. intros H.
  injection H as H1 H2 H3 H4 H5 Ht.
  apply (map_injective table_value table_value_injective) in Ht. subst. reflexivity.
Qed.

Lemma DocumentMetadata_to_dict_injective (m1 m2 : DocumentMetadata) :
  DocumentMetadata_to_dict m1 = DocumentMetadata_to_dict m2 -> m1 = m2.
Proof.
  destruct m1, m2. unfold DocumentMetadata_to_dict. simpl. intros H.
  injection H as H1 H2 H3 H4 H5 H6 H7 H8. subst. reflexivity.
Qed.

(** X17.  [to_dict] loses nothing: two results with the same dictionary
    are the same result, metadata, pages, tables and error message
    included; the dictionary has the four keys of the wire format in their
    order, one entry in [pages] per page, and [error_message] is [None]
    exactly when the result has no error message. *)
Theorem to_dict_is_faithful (r1 r2 : ExtractionResult) :
  (ExtractionResult_to_dict r1 = ExtractionResult_to_dict r2 -> r1 = r2)
  /\ dict_keys (ExtractionResult_to_dict r1)
     = [lit "metadata"; lit "pages"; lit "success"; lit "error_message"]
  /\ (exists items,
        value_at (lit "pages") (ExtractionResult_to_dict r1) = Some (PyList items)
        /\ List.length items = List.length (pages r1))
  /\ (value_at (lit "error_message") (ExtractionResult_to_dict r1) = Some PyNone
      <-> error_message r1 = None).
Proof.
  split; [|split; [reflexivity|split]].
  - destruct r1 as [m1 p1 s1 e1], r2 as [m2 p2 s2 e2].
    unfold ExtractionResult_to_dict.
    cbn [metadata pages success error_message].
    remember (DocumentMetadata_to_dict m1) as a1 eqn:Ea1.
    remember (DocumentMetadata_to_dict m2) as a2 eqn:Ea2.
    remember (map PageContent_to_dict p1) as b1 eqn:Eb1.
    remember (map PageContent_to_dict p2) as b2 eqn:Eb2.
    remember (optional_str e1) as c1 eqn:Ec1.
    remember (optional_str e2) as c2 eqn:Ec2.
    intros H. injection H as Hm Hp Hs He. subst a1 a2 b1 b2 c1 c2.
    apply DocumentMetadata_to_dict_injective in Hm.
    apply (map_injective PageContent_to_dict PageContent_to_dict_injective) in Hp.
    apply optional_str_injective in He. subst. reflexivity.
  - eexists. split; [reflexivity|]. apply length_map.
  - change (value_at (lit "error_message") (ExtractionResult_to_dict r1))
      with (Some (optional_str (error_message r1))).
    destruct (error_message r1); simpl; split; intros H;
      try discriminate; reflexivity.
Qed.

(** ** The service layer *)

Lemma engine_result_consistent p oo w s r s' :
  DocParseEngine.extract_text p oo w s = (inr r, s') -> result_consistent r.
Proof.
  intros H0. engine_ok H0.
  destruct (fs_stat w p) as [size|].
  - destruct (DocumentType_of_value _) as [d|].
    + destruct (run_processor d p _ w _) as [[e|r0] s0] eqn:E; [discriminate|].
      intros H; injection H as <- _.
      exact (shaped_consistent _ _ _ _ _ (processor_shape _ _ _ _ _ _ _ E)).
    + intros H; injection H as <- _. unfold result_consistent; simpl.
      split; [split; discriminate|auto].
  - intros H; injection H as <- _. unfold result_consistent; simpl.
    split; [split; discriminate|auto].
Qed.

(** X18.  [process_document_async] ends in one of three ways, as the
    engine's run decides.  When the path can be looked at the engine
    returns, and the function returns the dictionary of a successful
    result, whose [error_message] is [None], or raises HTTP 422 with the
    engine's error message as detail; a path that [exists] answers with
    [False] gives 422 with ["File not found"].  When the path cannot be
    looked at the engine raises the error of [exists], and the function
    raises HTTP 500 with that error's text in the detail.  Nothing but an
    [HTTPException] with one of these two codes is ever raised. *)
Theorem process_document_async_outcome p o w s :
  (stat_error w p = None ->
     exists r s1,
       DocParseEngine.extract_text p (Some o) w s = (inr r, s1)
       /\ (success r = true ->
             process_document_async p o w s
             = (Returned (ExtractionResult_to_dict r), logged [INFO] s1)
             /\ value_at (lit "error_message") (ExtractionResult_to_dict r)
                = Some PyNone)
       /\ (success r = false ->
             exists msg,
               error_message r = Some msg
               /\ process_document_async p o w s
                  = (RaisedHTTP {| status_code := 422; detail := Some msg |},
                     logged [ERROR] s1))
       /\ (fs_stat w p = None ->
             fst (process_document_async p o w s)
             = RaisedHTTP {| status_code := 422;
                             detail := Some (lit "File not found") |}))
  /\ (forall e, stat_error w p = Some e ->
        process_document_async p o w s
        = (RaisedHTTP {| status_code := 500;
                         detail := Some (lit "Document processing failed: "
                                         ++ exn_str e) |},
           logged [ERROR] (logged [INFO] s)))
  /\ (forall he, fst (process_document_async p o w s) = RaisedHTTP he ->
        (status_code he = 422%Z /\ stat_error w p = None)
        \/ (status_code he = 500%Z /\ stat_error w p <> None))
  /\ (forall e, fst (process_document_async p o w s) <> Raised e).
Proof.
  assert (Hraise : forall e, stat_error w p = Some e ->
            process_document_async p o w s
            = (RaisedHTTP {| status_code := 500;
                             detail := Some (lit "Document processing failed: "
                                             ++ exn_str e) |},
               logged [ERROR] (logged [INFO] s))).
  { intros e He. unfold process_document_async.
    rewrite (engine_raises p (Some o) w s e He). reflexivity. }
  split; [|split; [exact Hraise|split]].
  - intros Hok. destruct (engine_returns p (Some o) w s Hok) as (r & s1 & E).
    pose proof (engine_result_consistent _ _ _ _ _ _ E) as [Hiff _].
    exists r, s1. split; [exact E|].
    unfold process_document_async. rewrite E.
    split; [|split].
    + intros Hs. rewrite Hs. split; [reflexivity|].
      change (value_at (lit "error_message") (ExtractionResult_to_dict r))
        with (Some (optional_str (error_message r))).
      rewrite (proj1 Hiff Hs). reflexivity.
    + intros Hs. rewrite Hs.
      destruct (error_message r) as [msg|] eqn:Em.
      * exists msg. split; reflexivity.
      * rewrite (proj2 Hiff eq_refl) in Hs. discriminate.
    + intros Hstat. rewrite (engine_run _ _ _ _ Hok), Hstat in E.
      injection E as <- _. reflexivity.
  - intros he. destruct (stat_error w p) as [e|] eqn:Eerr.
    + rewrite (Hraise e eq_refl). simpl. intros H; injection H as <-.
      right. split; [reflexivity|discriminate].
    + destruct (engine_returns p (Some o) w s Eerr) as (r & s1 & E).
      unfold process_document_async. rewrite E.
      destruct (success r); simpl; [discriminate|].
      intros H; injection H as <-. left. split; reflexivity.
  - intros e. destruct (stat_error w p) as [e0|] eqn:Eerr.
    + rewrite (Hraise e0 eq_refl). discriminate.
    + destruct (engine_returns p (Some o) w s Eerr) as (r & s1 & E).
      unfold process_document_async. rewrite E.
      destruct (success r); discriminate.
Qed.

Example process_document_async_demo :
  fst (process_document_async Scenario.long_name ProcessingOptions_default
         Scenario.unreadable_world initial)
  = RaisedHTTP {| status_code := 500;
                  detail := Some (lit "Document processing failed: "
                                  ++ lit "[Errno 36] File name too long") |}
  /\ fst (process_document_async (lit "/tmp/gone.pdf") ProcessingOptions_default
            Scenario.no_file_world initial)
     = RaisedHTTP {| status_code := 422; detail := Some (lit "File not found") |}.
Proof. split; vm_compute; reflexivity. Qed.

(** ** Rate limiting *)

Lemma set_requests_same counts ip times : set_requests counts ip times ip = times.
Proof.
  unfold set_requests.
  destruct (str_eqb ip ip) eqn:E; [reflexivity|].
  assert (H : str_eqb ip ip = true) by (apply str_eqb_eq; reflexivity). congruence.
Qed.

Lemma set_requests_other counts ip times ip' :
  str_eqb ip' ip = false -> set_requests counts ip times ip' = counts ip'.
Proof. unfold set_requests. intros ->. reflexivity. Qed.

(** One check, spelled out. *)
Lemma check_rate_limit_run (ip : str) (now : Z) (counts : request_counts) :
  let recent := filter (fun u => (now - one_minute <? u)%Z) (counts ip) in
  check_rate_limit ip now counts
  = if (RATE_LIMIT <=? len recent)%Z
    then (false, set_requests counts ip recent)
    else (true, set_requests (set_requests counts ip recent) ip (recent ++ [now])).
Proof.
  cbv zeta. unfold check_rate_limit. cbv zeta. rewrite set_requests_same. reflexivity.
Qed.

Lemma filter_length_le {A : Type} (f : A -> bool) (l : list A) :
  List.length (filter f l) <= List.length l.
Proof.
  induction l as [|x l IH]; simpl; [lia|]. destruct (f x); simpl; lia.
Qed.

Lemma serve_snoc (requests : list (str * Z)) (request : str * Z) :
  serve (requests ++ [request]) = serve_step (serve requests) request.
Proof. unfold serve. rewrite fold_left_app. reflexivity. Qed.

(** X19.  The table of request times stays small: whatever requests come,
    in whatever order of time, no address ever has more than [RATE_LIMIT]
    times on record. *)
Theorem request_table_is_bounded (requests : list (str * Z)) (ip : str) :
  (len (fst (serve requests) ip) <= RATE_LIMIT)%Z.
Proof.
  revert ip. induction requests as [|[ip0 now] requests IH] using rev_ind; intros ip.
  - unfold len, RATE_LIMIT. simpl. lia.
  - rewrite serve_snoc. destruct (serve requests) as [counts accepted].
    unfold serve_step. cbn [fst snd]. rewrite check_rate_limit_run. cbv zeta.
    simpl fst in IH.
    set (recent := filter (fun u => (now - one_minute <? u)%Z) (counts ip0)).
    assert (Hrecent : (len recent <= RATE_LIMIT)%Z).
    { specialize (IH ip0). unfold len in *.
      pose proof (filter_length_le (fun u => (now - one_minute <? u)%Z) (counts ip0)).
      fold recent in H. lia. }
    destruct (RATE_LIMIT <=? len recent)%Z eqn:E; cbn [fst].
    + destruct (str_eqb ip ip0) eqn:Eip.
      * apply str_eqb_eq in Eip. subst ip. rewrite set_requests_same. exact Hrecent.
      * rewrite set_requests_other by exact Eip. apply IH.
    + apply Z.leb_gt in E.
      destruct (str_eqb ip ip0) eqn:Eip.
      * apply str_eqb_eq in Eip. subst ip. rewrite set_requests_same.
        unfold len in *. rewrite length_app. simpl. lia.
      * rewrite !set_requests_other by exact Eip. apply IH.
Qed.

Lemma in_order_snoc (l : list Z) (x : Z) :
  in_order (l ++ [x]) -> in_order l /\ Forall (fun t => (t <= x)%Z) l.
Proof.
  intros H. split.
  - intros a b c t u ->. apply (H a b (c ++ [x]) t u).
    rewrite <- !app_assoc. simpl. rewrite <- !app_assoc. reflexivity.
  - apply Forall_forall. intros t Hin. apply in_split in Hin as (a & b & ->).
    apply (H a b [] t x). rewrite <- app_assoc. reflexivity.
Qed.

Lemma filter_weaker {A : Type} (f g : A -> bool) (l : list A) :
  (forall x, f x = true -> g x = true) ->
  filter f (filter g l) = filter f l.
Proof.
  intros Hfg. induction l as [|x l IH]; simpl; [reflexivity|].
  destruct (g x) eqn:Eg; simpl; rewrite IH; [reflexivity|].
  destruct (f x) eqn:Ef; [|reflexivity].
  rewrite (Hfg x Ef) in Eg. discriminate.
Qed.

Lemma str_eqb_sym (a b : str) : str_eqb a b = str_eqb b a.
Proof.
  destruct (str_eqb a b) eqn:E1, (str_eqb b a) eqn:E2; try reflexivity.
  - apply str_eqb_eq in E1. subst.
    assert (str_eqb b b = true) by (apply str_eqb_eq; reflexivity). congruence.
  - apply str_eqb_eq in E2. subst.
    assert (str_eqb a a = true) by (apply str_eqb_eq; reflexivity). congruence.
Qed.

Lemma times_of_snoc (ip ip0 : str) (t : Z) (l : list (str * Z)) :
  times_of ip (l ++ [(ip0, t)])
  = times_of ip l ++ (if str_eqb ip0 ip then [t] else []).
Proof.
  unfold times_of. rewrite filter_app, map_app. simpl.
  destruct (str_eqb ip0 ip); reflexivity.
Qed.

Lemma times_of_in (ip : str) (t : Z) (l : list (str * Z)) :
  In t (times_of ip l) <-> In (ip, t) l.
Proof.
  unfold times_of. rewrite in_map_iff. split.
  - intros ([ip' u] & <- & Hin). apply filter_In in Hin as [Hin E].
    simpl in E. apply str_eqb_eq in E. subst. exact Hin.
  - intros Hin. exists (ip, t). split; [reflexivity|].
    apply filter_In. split; [exact Hin|]. apply str_eqb_eq. reflexivity.
Qed.

(** What the table and the list of accepted requests have to do with one
    another after any run of requests in the order of time. *)
Lemma serve_invariant (requests : list (str * Z)) :
  in_order (map snd requests) ->
  forall counts accepted,
    serve requests = (counts, accepted) ->
    (forall r, In r accepted -> In r requests)
    /\ (forall ip now,
          Forall (fun r => (snd r <= now)%Z) requests ->
          filter (fun u => (now - one_minute <? u)%Z) (counts ip)
          = filter (fun u => (now - one_minute <? u)%Z) (times_of ip accepted))
    /\ (forall ip t,
          In t (times_of ip accepted) ->
          (len (within_minute_before t (times_of ip accepted)) <= RATE_LIMIT)%Z).
Proof.
  induction requests as [|[ip0 now] requests IH] using rev_ind;
    intros Hord counts accepted E.
  - unfold serve in E. simpl in E. injection E as <- <-.
    split; [intros r []|]. split; [reflexivity|intros ip t []].
  - rewrite map_app in Hord. simpl in Hord.
    apply in_order_snoc in Hord as [Hord Hle].
    rewrite serve_snoc in E. destruct (serve requests) as [counts0 accepted0].
    destruct (IH Hord counts0 accepted0 eq_refl) as (Hsub & Hagree & Hwin).
    assert (Hbound : Forall (fun r : str * Z => (snd r <= now)%Z) requests).
    { rewrite Forall_forall in *. intros r Hr. apply Hle.
      apply in_map. exact Hr. }
    unfold serve_step in E. cbn [fst snd] in E.
    rewrite check_rate_limit_run in E. cbv zeta in E.
    rewrite (Hagree ip0 now Hbound) in E.
    set (recent := filter (fun u => (now - one_minute <? u)%Z)
                          (times_of ip0 accepted0)) in *.
    assert (Hfuture : forall now',
               Forall (fun r => (snd r <= now')%Z) (requests ++ [(ip0, now)]) ->
               Forall (fun r => (snd r <= now')%Z) requests /\ (now <= now')%Z).
    { intros now' H. apply Forall_app in H as [H1 H2].
      split; [exact H1|]. inversion H2; subst. assumption. }
    destruct (RATE_LIMIT <=? len recent)%Z eqn:Elim; injection E as <- <-.
    + split; [intros r Hr; apply in_or_app; left; exact (Hsub r Hr)|].
      split; [|exact Hwin].
      intros ip now' Hall. destruct (Hfuture now' Hall) as [Hall' Hnow].
      destruct (str_eqb ip ip0) eqn:Eip.
      * apply str_eqb_eq in Eip. subst ip. rewrite set_requests_same.
        unfold recent. apply filter_weaker.
        intros u Hu. apply Z.ltb_lt in Hu. apply Z.ltb_lt. lia.
      * rewrite set_requests_other by exact Eip. apply Hagree, Hall'.
    + apply Z.leb_gt in Elim. split; [|split].
      * intros r Hr. apply in_app_or in Hr as [Hr | [<- | []]];
          apply in_or_app; [left; exact (Hsub r Hr)|right; left; reflexivity].
      * intros ip now' Hall. destruct (Hfuture now' Hall) as [Hall' Hnow].
        rewrite times_of_snoc, (str_eqb_sym ip0 ip).
        destruct (str_eqb ip ip0) eqn:Eip.
        -- apply str_eqb_eq in Eip. subst ip. rewrite set_requests_same.
           rewrite !filter_app. f_equal.
           unfold recent. apply filter_weaker.
           intros u Hu. apply Z.ltb_lt in Hu. apply Z.ltb_lt. lia.
        -- rewrite !set_requests_other by exact Eip. rewrite app_nil_r.
           apply Hagree, Hall'.
      * intros ip t. rewrite times_of_snoc, (str_eqb_sym ip0 ip).
        destruct (str_eqb ip ip0) eqn:Eip; [|rewrite app_nil_r; apply Hwin].
        apply str_eqb_eq in Eip. subst ip. intros Hin.
        assert (Hold : forall u, In u (times_of ip0 accepted0) -> (u <= now)%Z).
        { intros u Hu. apply times_of_in in Hu. apply Hsub in Hu.
          rewrite Forall_forall in Hbound. exact (Hbound _ Hu). }
        unfold within_minute_before. rewrite filter_app.
        destruct (Z.eq_dec t now) as [-> | Hne].
        -- simpl. rewrite Z.leb_refl.
           assert (Hm : (now - one_minute <? now)%Z = true)
             by (apply Z.ltb_lt; unfold one_minute; lia).
           rewrite Hm. simpl.
           assert (Hsame : filter (fun u => (now - one_minute <? u)%Z && (u <=? now)%Z)
                                  (times_of ip0 accepted0) = recent).
           { unfold recent. apply filter_ext_in. intros u Hu.
             assert ((u <=? now)%Z = true) by (apply Z.leb_le, Hold, Hu).
             rewrite H. apply andb_true_r. }
           rewrite Hsame. unfold len in *. rewrite length_app. simpl. lia.
        -- apply in_app_or in Hin as [Hin | [Hin | []]]; [|congruence].
           assert (Ht : (t < now)%Z) by (specialize (Hold t Hin); lia).
           simpl. assert (Hout : (now <=? t)%Z = false) by (apply Z.leb_gt; exact Ht).
           rewrite Hout, andb_false_r, app_nil_r. apply Hwin, Hin.
Qed.

(** X20.  The limit holds over every minute: when the checks come in the
    order of time, the requests of one address that were let through
    within the minute ending at an accepted request, that request
    included, are never more than [RATE_LIMIT]. *)
Theorem no_more_than_the_limit_in_a_minute (requests : list (str * Z))
    (ip : str) (t : Z) :
  in_order (map snd requests) ->
  In (ip, t) (snd (serve requests)) ->
  (len (within_minute_before t (times_of ip (snd (serve requests)))) <= RATE_LIMIT)%Z.
Proof.
  intros Hord Hin. destruct (serve requests) as [counts accepted] eqn:E.
  destruct (serve_invariant requests Hord counts accepted E) as (_ & _ & Hwin).
  simpl in *. apply Hwin. apply times_of_in. exact Hin.
Qed.

Lemma no_more_than_the_limit_in_a_minute_witness :
  List.length (snd (serve eleven_requests)) = 10
  /\ (len (within_minute_before 9000000
             (times_of (lit "10.0.0.7") (snd (serve eleven_requests))))
      <= RATE_LIMIT)%Z.
Proof.
  split; [vm_compute; reflexivity|].
  apply no_more_than_the_limit_in_a_minute.
  - intros a b c t u H.
    assert (Hs : forall l, l = map snd eleven_requests ->
                 forall a b c t u, l = a ++ t :: b ++ u :: c -> (t <= u)%Z).
    { clear. intros l -> a b c t u H. vm_compute in H.
      repeat (destruct a as [|? a]; simpl in H;
              [injection H as <- H;
               repeat (destruct b as [|? b]; simpl in H;
                       [injection H as <- _; lia|injection H as _ H]);
               try (destruct b; discriminate)
              |injection H as _ H]); destruct a; discriminate. }
    exact (Hs _ eq_refl a b c t u H).
  - vm_compute. repeat (first [left; reflexivity | right]).
Defined.

(** ** Uploads *)

Example upload_names_demo :
  str_of_int (MAX_FILE_SIZE / (1024 * 1024)) = lit "50"
  /\ splitext (lit "../../etc/report.final.pdf") = (lit "../../etc/report.final", lit ".pdf")
  /\ splitext (lit "dir.d/..pdf") = (lit "dir.d/..pdf", [])
  /\ unique_filename_of ascii_isalnum sample_uuid (lit "../../etc/my report .pdf")
     = lit "etcmy report_3f2b8c1e-9d4a-4e6f-8b7a-0c5d2e1f9a3b.pdf".
Proof. repeat split; vm_compute; reflexivity. Qed.

Lemma is_supported_file_run p w s :
  exists b,
    DocParseEngine.is_supported_file p w s = (inr b, s)
    /\ (b = true <-> In (DocParseEngine.extension_of p) get_supported_formats).
Proof.
  unfold DocParseEngine.is_supported_file, try_except_class.
  unfold bind. rewrite DocumentType_call_run.
  destruct (DocumentType_of_value (DocParseEngine.extension_of p)) as [d|] eqn:E.
  - exists (DocumentProcessor.supports_file_type (DocParseEngine.processors d) p).
    split; [reflexivity|].
    apply DocumentType_of_value_Some in E.
    rewrite supports_file_type_spec. split; [|intros _; exact E].
    intros _. rewrite E. unfold get_supported_formats. destruct d; simpl; auto.
  - exists false. split; [reflexivity|].
    apply DocumentType_of_value_None in E.
    split; [discriminate|]. intros H. contradiction.
Qed.

(** The loop over the chunks comes to what a comparison of the length
    with the limit says, and leaves the file at its start. *)
Lemma size_loop_run (rounds : nat) (file : UploadFile) (position : nat) w s :
  upload_error file = None ->
  position <= List.length (upload_body file) ->
  (Z.of_nat position <= MAX_FILE_SIZE)%Z ->
  List.length (upload_body file) - position < rounds ->
  size_loop rounds file position (Z.of_nat position) w s
  = (inr (if (MAX_FILE_SIZE <? len (upload_body file))%Z
          then ((false, Some too_large_message), 0)
          else ((true, None), 0)), s).
Proof.
  intros Herr. revert position.
  induction rounds as [|rounds IH]; intros position Hpos Hmax Hfuel; [lia|].
  cbn [size_loop]. unfold bind, file_read, file_seek. rewrite Herr. unfold ret.
  set (chunk := firstn (Z.to_nat chunk_size) (skipn position (upload_body file))).
  assert (Hlen : List.length chunk
                 = Nat.min (Z.to_nat chunk_size) (List.length (upload_body file) - position)).
  { unfold chunk. rewrite length_firstn, length_skipn. reflexivity. }
  assert (Hcs : 0 < Z.to_nat chunk_size) by (unfold chunk_size; lia).
  destruct chunk as [|c chunk'] eqn:Ec.
  - cbn [List.length] in Hlen. cbn [truthy negb].
    assert (Hend : List.length (upload_body file) = position) by lia.
    assert (Hsmall : (MAX_FILE_SIZE <? len (upload_body file))%Z = false).
    { apply Z.ltb_ge. unfold len. rewrite Hend. exact Hmax. }
    rewrite Hsmall. reflexivity.
  - cbn [truthy negb]. rewrite <- Ec in *. clearbody chunk.
    assert (Hnz : 0 < List.length chunk) by (rewrite Ec; cbn [List.length]; lia).
    assert (Hsize : (Z.of_nat position + len chunk)%Z
                    = Z.of_nat (position + List.length chunk)) by (unfold len; lia).
    rewrite Hsize.
    destruct (MAX_FILE_SIZE <? Z.of_nat (position + List.length chunk))%Z eqn:Ebig.
    + apply Z.ltb_lt in Ebig.
      assert (Hlarge : (MAX_FILE_SIZE <? len (upload_body file))%Z = true).
      { apply Z.ltb_lt. unfold len. lia. }
      rewrite Hlarge. reflexivity.
    + apply Z.ltb_ge in Ebig. apply IH; lia.
Qed.

(** X21.  [validate_file] never raises.  It accepts an upload exactly when
    the file name is not empty, its extension is one of pdf, txt, docx, the
    file can be read, and the body is no longer than [MAX_FILE_SIZE] bytes,
    a body of just that length included; it then gives no message and
    leaves the file at its start.  Every refusal comes with a message, and
    a body over the limit is refused as too large with the file back at
    its start. *)
Theorem validate_file_verdict (set_order : list str) (file : UploadFile)
    (position : nat) w s :
  exists is_valid error_msg position' s',
    validate_file set_order file position w s
    = (inr ((is_valid, error_msg), position'), s')
    /\ (is_valid = true <->
        (exists filename,
            upload_filename file = Some filename /\ filename <> []
            /\ In (DocParseEngine.extension_of filename) get_supported_formats)
        /\ upload_error file = None
        /\ (len (upload_body file) <= MAX_FILE_SIZE)%Z)
    /\ (is_valid = true -> error_msg = None /\ position' = 0 /\ s' = s)
    /\ (is_valid = false -> error_msg <> None)
    /\ (is_valid = false ->
        (exists filename,
            upload_filename file = Some filename /\ filename <> []
            /\ In (DocParseEngine.extension_of filename) get_supported_formats) ->
        upload_error file = None ->
        error_msg = Some too_large_message /\ position' = 0 /\ s' = s).
Proof.
  unfold validate_file, try_except.
  destruct (upload_filename file) as [filename|] eqn:Ename.
  2:{ eexists; eexists; eexists; eexists. split; [reflexivity|].
      split; [|split; [|split]]; try discriminate.
      - split; [discriminate|]. intros ((f & H & _) & _). discriminate.
      - intros _ (f & H & _). discriminate. }
  destruct filename as [|c filename].
  { eexists; eexists; eexists; eexists. split; [reflexivity|].
    split; [|split; [|split]]; try discriminate.
    - split; [discriminate|]. intros ((f & H & Hne & _) & _).
      injection H as <-. congruence.
    - intros _ (f & H & Hne & _). injection H as <-. congruence. }
  cbn [truthy negb]. unfold bind.
  destruct (is_supported_file_run (c :: filename) w s) as (b & -> & Hb).
  destruct b.
  2:{ eexists; eexists; eexists; eexists. split; [reflexivity|].
      assert (Hno : ~ In (DocParseEngine.extension_of (c :: filename))
                      get_supported_formats)
        by (intros H; apply Hb in H; discriminate).
      split; [|split; [|split]]; try discriminate.
      - split; [discriminate|]. intros ((f & H & _ & Hin) & _).
        injection H as <-. contradiction.
      - intros _ (f & H & _ & Hin). injection H as <-. contradiction. }
  cbn [negb]. assert (Hsup : In (DocParseEngine.extension_of (c :: filename))
                               get_supported_formats) by (apply Hb; reflexivity).
  unfold file_seek at 1. destruct (upload_error file) as [e|] eqn:Eerr.
  { eexists; eexists; eexists; eexists. split; [reflexivity|].
    split; [|split; [|split]]; try discriminate.
    split; [discriminate|]. intros (_ & H & _). discriminate. }
  unfold ret. change 0%Z with (Z.of_nat 0).
  rewrite (size_loop_run (S (List.length (upload_body file))) file 0 w s Eerr)
    by (unfold MAX_FILE_SIZE; lia).
  destruct (MAX_FILE_SIZE <? len (upload_body file))%Z eqn:Ebig.
  - apply Z.ltb_lt in Ebig.
    eexists; eexists; eexists; eexists. split; [reflexivity|].
    split; [|split; [|split]]; try discriminate.
    + split; [discriminate|]. intros (_ & _ & H). lia.
    + intros _ _ _. auto.
  - apply Z.ltb_ge in Ebig.
    eexists; eexists; eexists; eexists. split; [reflexivity|].
    split; [|split; [|split]]; try discriminate.
    + split; [intros _|reflexivity].
      split; [exists (c :: filename); split; [reflexivity|split; [discriminate|exact Hsup]]|].
      split; [reflexivity|exact Ebig].
    + intros _. auto.
Qed.

Example validate_file_demo :
  validate_file [lit "txt"; lit "pdf"; lit "docx"]
    (upload "notes.TXT" (repeat 65%N (Z.to_nat 20000))) 7 Scenario.no_file_world initial
  = (inr ((true, None), 0), initial)
  /\ validate_file [lit "txt"; lit "pdf"; lit "docx"]
       (upload "notes.odt" []) 7 Scenario.no_file_world initial
     = (inr ((false,
              Some (lit "Unsupported file type. Supported formats: txt, pdf, docx")), 7),
        initial).
Proof. split; vm_compute; reflexivity. Qed.

(** ** The path an upload is saved under *)

Lemma rfind_char_last (c : char) (a b : str) :
  ~ In c b -> rfind_char c (a ++ c :: b) = Some (List.length a).
Proof.
  intros Hb. induction a as [|d a IH]; simpl.
  - destruct (rfind_char c b) as [j|] eqn:E.
    + apply rfind_char_Some in E as (x & y & -> & _). exfalso. apply Hb, in_elt.
    + rewrite N.eqb_refl. reflexivity.
  - rewrite IH. reflexivity.
Qed.

Lemma rfind_char_absent (c : char) (s : str) : ~ In c s -> rfind_char c s = None.
Proof.
  intros H. destruct (rfind_char c s) as [i|] eqn:E; [|reflexivity].
  apply rfind_char_Some in E as (a & b & -> & _). exfalso. apply H, in_elt.
Qed.

Lemma in_rstrip (c : char) (s : str) : In c (rstrip s) -> In c s.
Proof.
  intros H. destruct (rstrip_decompose s) as (ws & E & _).
  rewrite E. apply in_or_app. left. exact H.
Qed.

(** What [splitext] cuts off holds no slash, and is empty or begins with
    the only dot it has; the two parts make up the path. *)
Lemma splitext_parts (p name ext : str) :
  splitext p = (name, ext) ->
  name ++ ext = p
  /\ ~ In SLASH ext
  /\ (ext = [] \/ exists rest, ext = DOT :: rest /\ ~ In DOT rest).
Proof.
  unfold splitext.
  destruct (rfind_char DOT p) as [dotIndex|] eqn:Ed.
  2:{ intros H; injection H as <- <-. rewrite app_nil_r. auto. }
  destruct (_ && _) eqn:Ec.
  2:{ intros H; injection H as <- <-. rewrite app_nil_r. auto. }
  intros H; injection H as <- <-.
  split; [apply firstn_skipn|].
  apply andb_prop in Ec as [Hle _]. apply Nat.leb_le in Hle.
  apply rfind_char_Some in Ed as (a & b & Hp & Hl & Hb).
  assert (Hext : skipn dotIndex p = DOT :: b).
  { rewrite Hp, <- Hl, skipn_app, skipn_all, Nat.sub_diag. reflexivity. }
  rewrite Hext. split; [|right; exists b; auto].
  destruct (rfind_char SLASH p) as [sepIndex|] eqn:Es.
  - apply rfind_char_Some in Es as (x & y & Hp' & Hl' & Hy).
    intros Hin. apply Hy. rewrite <- Hext in Hin.
    assert (Hy' : y = skipn (S sepIndex) p).
    { rewrite Hp', <- Hl'.
      replace (S (List.length x)) with (List.length (x ++ [SLASH]))
        by (rewrite length_app; simpl; lia).
      change (x ++ SLASH :: y) with (x ++ [SLASH] ++ y). rewrite app_assoc.
      rewrite skipn_app, skipn_all, Nat.sub_diag. reflexivity. }
    rewrite Hy'.
    replace dotIndex with ((dotIndex - S sepIndex) + S sepIndex) in Hin by lia.
    rewrite <- skipn_skipn in Hin. exact (in_skipn _ _ _ Hin).
  - apply rfind_char_None in Es. intros Hin. apply Es.
    rewrite <- Hext in Hin. exact (in_skipn _ _ _ Hin).
Qed.

(** The last chunk of a split is what stands behind the last separator. *)
Lemma split_rounds_last (c : char) (n : str) (k : nat) (d : str) :
  ~ In c n -> List.length (d ++ c :: n) <= k ->
  exists front, split_rounds k [c] (d ++ c :: n) = front ++ [n].
Proof.
  intros Hn. revert d. induction k as [|k IH]; intros d Hk.
  - rewrite length_app in Hk. simpl in Hk. lia.
  - cbn [split_rounds].
    change (d ++ c :: n) with (d ++ [c] ++ n) in *.
    destruct (find_bound [c] d n) as (i & Hi & Hle). rewrite Hi.
    destruct (find_Some _ _ _ Hi) as [Hs _].
    apply Nat.lt_eq_cases in Hle as [Hlt | ->].
    + assert (Hrest : skipn (i + List.length [c]) (d ++ [c] ++ n)
                      = skipn (i + 1) d ++ [c] ++ n).
      { rewrite skipn_app. simpl List.length.
        replace (i + 1 - List.length d) with 0 by lia. reflexivity. }
      rewrite Hrest. destruct (IH (skipn (i + 1) d)) as (front & E).
      * rewrite !length_app, length_skipn in *. simpl in *. lia.
      * change (skipn (i + 1) d ++ c :: n) with (skipn (i + 1) d ++ [c] ++ n) in E.
        rewrite E. exists (firstn i (d ++ [c] ++ n) :: front). reflexivity.
    + assert (Hrest : skipn (List.length d + List.length [c]) (d ++ [c] ++ n) = n).
      { replace (List.length d + List.length [c]) with (List.length (d ++ [c]))
          by (rewrite length_app; reflexivity).
        rewrite app_assoc, skipn_app, skipn_all, Nat.sub_diag. reflexivity. }
      rewrite Hrest. exists [firstn (List.length d) (d ++ [c] ++ n)].
      assert (Hone : split_rounds k [c] n = [n]).
      { destruct k; [reflexivity|]. simpl.
        assert (E : find [c] n = None)
          by (apply find_None; rewrite occurs_single; exact Hn).
        rewrite E. reflexivity. }
      rewrite Hone. reflexivity.
Qed.

(** The name of a path that ends in a slash and a proper segment is that
    segment. *)
Lemma path_name_joined (dir n : str) :
  ~ In SLASH n -> n <> [] -> n <> [DOT] -> path_name (dir ++ [SLASH] ++ n) = n.
Proof.
  intros Hs Hne Hnd. unfold path_name, split.
  change (dir ++ [SLASH] ++ n) with (dir ++ SLASH :: n).
  destruct (split_rounds_last SLASH n (List.length (dir ++ SLASH :: n)) dir Hs
              (Nat.le_refl _)) as (front & E).
  rewrite E.
  rewrite filter_app. cbn [filter].
  assert (Hkeep : negb (str_eqb n [] || str_eqb n [DOT]) = true).
  { destruct (str_eqb n []) eqn:E1; [apply str_eqb_eq in E1; contradiction|].
    destruct (str_eqb n [DOT]) eqn:E2; [apply str_eqb_eq in E2; contradiction|].
    reflexivity. }
  rewrite Hkeep. apply last_last.
Qed.

(** The name of a path without a slash is the path. *)
Lemma path_name_plain (n : str) :
  ~ In SLASH n -> n <> [DOT] -> path_name n = n.
Proof.
  intros Hs Hnd. unfold path_name, split.
  assert (Hone : split_rounds (List.length n) [SLASH] n = [n]).
  { destruct n as [|c n]; [reflexivity|]. cbn [List.length split_rounds].
    assert (E : find [SLASH] (c :: n) = None)
      by (apply find_None; rewrite occurs_single; exact Hs).
    rewrite E. reflexivity. }
  rewrite Hone. cbn [filter].
  destruct n as [|c n]; [reflexivity|].
  assert (Hkeep : negb (str_eqb (c :: n) [] || str_eqb (c :: n) [DOT]) = true).
  { destruct (str_eqb (c :: n) []) eqn:E1; [apply str_eqb_eq in E1; discriminate|].
    destruct (str_eqb (c :: n) [DOT]) eqn:E2; [apply str_eqb_eq in E2; contradiction|].
    reflexivity. }
  rewrite Hkeep. reflexivity.
Qed.

Lemma truediv_relative (dir other : str) :
  ~ In SLASH other -> truediv dir other = dir ++ [SLASH] ++ other.
Proof.
  intros H. unfold truediv.
  destruct other as [|c other]; [reflexivity|]. cbn [startswith].
  destruct (SLASH =? c)%N eqn:E; [|reflexivity].
  apply N.eqb_eq in E. exfalso. apply H. left. symmetry. exact E.
Qed.

Section SavedNames.

Variable isalnum : char -> bool.
Variable unique_id : str.

Lemma in_safe_name (c : char) (name : str) :
  In c (safe_name_of isalnum name) ->
  In c name /\ (isalnum c || (c =? 32) || (c =? 45) || (c =? 95))%N = true.
Proof.
  unfold safe_name_of. intros H. apply in_rstrip in H.
  apply filter_In in H. exact H.
Qed.

Lemma underscore_in_unique_filename (filename : str) :
  In 95%N (unique_filename_of isalnum unique_id filename).
Proof.
  unfold unique_filename_of. destruct (splitext filename) as [name ext].
  apply in_or_app. right. left. reflexivity.
Qed.

Lemma unique_filename_proper (filename : str) :
  unique_filename_of isalnum unique_id filename <> []
  /\ unique_filename_of isalnum unique_id filename <> [DOT].
Proof.
  pose proof (underscore_in_unique_filename filename) as H.
  split; intros E; rewrite E in H; simpl in H; intuition discriminate.
Qed.

Lemma unique_filename_no_slash (filename : str) :
  isalnum SLASH = false -> ~ In SLASH unique_id ->
  ~ In SLASH (unique_filename_of isalnum unique_id filename).
Proof.
  intros Halnum Hid. unfold unique_filename_of.
  destruct (splitext filename) as [name ext] eqn:E.
  destruct (splitext_parts _ _ _ E) as (_ & Hext & _).
  intros H. apply in_app_or in H as [H|H].
  - apply in_safe_name in H as [_ H]. rewrite Halnum in H. discriminate.
  - apply in_app_or in H as [H|H]; [simpl in H; intuition discriminate|].
    apply in_app_or in H as [H|H]; contradiction.
Qed.

End SavedNames.

(** X22.  Whatever name the client sent, [save_uploaded_file] writes
    directly into the temporary directory: the path it returns is that
    directory, a slash and a name without a slash, the name holds the
    unique id, and what is written is the body from the position the file
    is at.  ['/'.isalnum()] is false, and a UUID holds no slash. *)
Theorem saved_file_stays_in_temp_dir (isalnum : char -> bool)
    (temp_dir : Path) (unique_id : str) (file : UploadFile) (position : nat)
    w s file_path content s' :
  isalnum SLASH = false ->
  ~ In SLASH unique_id ->
  save_uploaded_file isalnum temp_dir unique_id file position w s
  = (inr (file_path, content), s') ->
  exists name,
    file_path = temp_dir ++ [SLASH] ++ name
    /\ ~ In SLASH name
    /\ path_name file_path = name
    /\ occurs unique_id name
    /\ content = skipn position (upload_body file).
Proof.
  intros Halnum Hid. unfold save_uploaded_file.
  destruct (upload_filename file) as [filename|]; [|discriminate].
  unfold bind, file_read_all, write_bytes, call.
  destruct (upload_error file) as [e|]; [discriminate|].
  unfold ret. cbn [fst]. destruct (open_write w _) as [e|]; [discriminate|].
  unfold log, emit. intros H. injection H as <- <- _.
  exists (unique_filename_of isalnum unique_id filename).
  pose proof (unique_filename_no_slash isalnum unique_id filename Halnum Hid) as Hns.
  destruct (unique_filename_proper isalnum unique_id filename) as [Hne Hnd].
  rewrite (truediv_relative _ _ Hns).
  split; [reflexivity|]. split; [exact Hns|].
  split; [apply path_name_joined; assumption|]. split; [|reflexivity].
  unfold unique_filename_of. destruct (splitext filename) as [name ext].
  exists (safe_name_of isalnum name ++ lit "_"), ext.
  rewrite <- !app_assoc. reflexivity.
Qed.

Lemma saved_file_stays_in_temp_dir_witness :
  exists file_path content s',
    save_uploaded_file ascii_isalnum (lit "/tmp") sample_uuid
      (upload "../../etc/cron.d/job.txt" (lit "payload")) 0
      Scenario.no_file_world initial = (inr (file_path, content), s')
    /\ file_path = lit "/tmp/etccrondjob_3f2b8c1e-9d4a-4e6f-8b7a-0c5d2e1f9a3b.txt"
    /\ path_name file_path = lit "etccrondjob_3f2b8c1e-9d4a-4e6f-8b7a-0c5d2e1f9a3b.txt"
    /\ content = lit "payload".
Proof.
  destruct (save_uploaded_file ascii_isalnum (lit "/tmp") sample_uuid
              (upload "../../etc/cron.d/job.txt" (lit "payload")) 0
              Scenario.no_file_world initial) as [[e|[file_path content]] s'] eqn:E;
    [vm_compute in E; discriminate|].
  assert (Halnum : ascii_isalnum SLASH = false) by reflexivity.
  assert (Hid : ~ In SLASH sample_uuid)
    by (vm_compute; intuition discriminate).
  destruct (saved_file_stays_in_temp_dir _ _ _ _ _ _ _ _ _ _ Halnum Hid E)
    as (name & Hp & _ & Hn & _ & Hc).
  exists file_path, content, s'. split; [reflexivity|].
  vm_compute in E. injection E as <- <- _.
  split; [reflexivity|]. split; reflexivity.
Defined.

(** X23.  For a file name without a slash that does not begin with a dot,
    the saved path has the suffix of the name the client sent: the engine
    reads the same extension off the saved path as validation read off the
    upload's name.  A UUID holds neither a slash nor a dot. *)
Theorem saved_file_keeps_the_extension (isalnum : char -> bool)
    (temp_dir : Path) (unique_id : str) (file : UploadFile) (position : nat)
    (filename : str) w s file_path content s' :
  upload_filename file = Some filename ->
  ~ In SLASH filename ->
  (forall rest, filename <> DOT :: rest) ->
  ~ In SLASH unique_id ->
  ~ In DOT unique_id ->
  save_uploaded_file isalnum temp_dir unique_id file position w s
  = (inr (file_path, content), s') ->
  path_suffix file_path = path_suffix filename
  /\ DocParseEngine.extension_of file_path = DocParseEngine.extension_of filename.
Proof.
  intros Hname Hslash Hdot Hid Hidd. unfold save_uploaded_file. rewrite Hname.
  unfold bind, file_read_all, write_bytes, call.
  destruct (upload_error file) as [e|]; [discriminate|].
  unfold ret. cbn [fst]. destruct (open_write w _) as [e|]; [discriminate|].
  unfold log, emit. intros H. injection H as <- _ _.
  assert (Hsuffix : path_suffix (truediv temp_dir
                                   (unique_filename_of isalnum unique_id filename))
                    = path_suffix filename).
  2:{ split; [exact Hsuffix|]. unfold DocParseEngine.extension_of.
      rewrite Hsuffix. reflexivity. }
  assert (Hplain : path_name filename = filename).
  { apply path_name_plain; [exact Hslash|apply Hdot]. }
  destruct (unique_filename_proper isalnum unique_id filename) as [Hne Hnd].
  assert (Hsafe : forall name c, In c (safe_name_of isalnum name) -> In c name)
    by (intros name c Hc; apply in_safe_name in Hc; tauto).
  unfold path_suffix at 2. rewrite Hplain.
  unfold unique_filename_of in *. unfold splitext in *.
  destruct (rfind_char DOT filename) as [i|] eqn:Ed.
  - apply rfind_char_Some in Ed as (a & b & Hf & Hl & Hb).
    rewrite (rfind_char_absent SLASH filename Hslash) in *.
    assert (Hcond : (0 <=? i) && existsb (fun c => negb (c =? DOT)%N)
                                    (slice filename 0 i) = true).
    { apply andb_true_intro. split; [reflexivity|].
      unfold slice. rewrite Nat.sub_0_r. cbn [skipn].
      rewrite Hf, <- Hl, firstn_app, firstn_all, Nat.sub_diag. cbn [firstn].
      rewrite app_nil_r. destruct a as [|c a].
      - exfalso. apply (Hdot b). exact Hf.
      - simpl. destruct (c =? DOT)%N eqn:Ec; [|reflexivity].
        apply N.eqb_eq in Ec. subst c. exfalso. apply (Hdot (a ++ DOT :: b)).
        exact Hf. }
    rewrite Hcond in *.
    assert (Hfirst : firstn i filename = a)
      by (rewrite Hf, <- Hl, firstn_app, firstn_all, Nat.sub_diag, app_nil_r; reflexivity).
    assert (Hskip : skipn i filename = DOT :: b)
      by (rewrite Hf, <- Hl, skipn_app, skipn_all, Nat.sub_diag; reflexivity).
    rewrite Hfirst, Hskip in *.
    set (pre := safe_name_of isalnum a ++ lit "_" ++ unique_id).
    assert (Hu : safe_name_of isalnum a ++ lit "_" ++ unique_id ++ DOT :: b
                 = pre ++ DOT :: b)
      by (unfold pre; rewrite <- !app_assoc; reflexivity).
    rewrite Hu in *.
    assert (Hns : ~ In SLASH (pre ++ DOT :: b)).
    { intros H. apply Hslash. rewrite Hf. apply in_app_or in H as [H|H].
      - unfold pre in H. apply in_app_or in H as [H|H].
        + apply in_or_app. left. exact (Hsafe _ _ H).
        + apply in_app_or in H as [H|H]; [simpl in H; intuition discriminate|contradiction].
      - apply in_or_app. right. exact H. }
    rewrite (truediv_relative _ _ Hns). unfold path_suffix.
    rewrite (path_name_joined _ _ Hns Hne Hnd).
    rewrite (rfind_char_last DOT pre b Hb).
    assert (Hpre : 0 < List.length pre).
    { unfold pre. rewrite !length_app. simpl. lia. }
    assert (Hi : 0 < i).
    { rewrite <- Hl. destruct a; [exfalso; apply (Hdot b); exact Hf|simpl; lia]. }
    rewrite skipn_app, skipn_all, Nat.sub_diag. cbn [skipn app].
    rewrite Hf, !length_app. cbn [List.length]. rewrite Hl.
    destruct b as [|c b].
    + replace (0 <? List.length pre) with true by (symmetry; apply Nat.ltb_lt; lia).
      replace (0 <? i) with true by (symmetry; apply Nat.ltb_lt; lia).
      cbn [List.length andb].
      replace (List.length pre <? List.length pre + 1 - 1) with false
        by (symmetry; apply Nat.ltb_ge; lia).
      replace (i <? i + 1 - 1) with false by (symmetry; apply Nat.ltb_ge; lia).
      reflexivity.
    + replace (0 <? List.length pre) with true by (symmetry; apply Nat.ltb_lt; lia).
      replace (0 <? i) with true by (symmetry; apply Nat.ltb_lt; lia).
      cbn [List.length andb].
      replace (List.length pre <? List.length pre + S (S (List.length b)) - 1) with true
        by (symmetry; apply Nat.ltb_lt; lia).
      replace (i <? i + S (S (List.length b)) - 1) with true
        by (symmetry; apply Nat.ltb_lt; lia).
      reflexivity.
  - apply rfind_char_None in Ed.
    assert (Hns : ~ In SLASH (safe_name_of isalnum filename ++ lit "_" ++ unique_id ++ [])).
    { intros H. apply in_app_or in H as [H|H]; [exact (Hslash (Hsafe _ _ H))|].
      apply in_app_or in H as [H|H]; [simpl in H; intuition discriminate|].
      rewrite app_nil_r in H. contradiction. }
    assert (Hndot : ~ In DOT (safe_name_of isalnum filename ++ lit "_" ++ unique_id ++ [])).
    { intros H. apply in_app_or in H as [H|H]; [exact (Ed (Hsafe _ _ H))|].
      apply in_app_or in H as [H|H]; [simpl in H; intuition discriminate|].
      rewrite app_nil_r in H. contradiction. }
    rewrite (truediv_relative _ _ Hns). unfold path_suffix.
    rewrite (path_name_joined _ _ Hns Hne Hnd).
    rewrite (rfind_char_absent DOT _ Hndot). reflexivity.
Qed.

Lemma saved_file_keeps_the_extension_witness :
  exists file_path content s',
    save_uploaded_file ascii_isalnum (lit "/tmp") sample_uuid
      (upload "Annual Report.v2.PDF" (lit "%PDF-1.7")) 0
      Scenario.no_file_world initial = (inr (file_path, content), s')
    /\ path_suffix file_path = lit ".PDF"
    /\ DocParseEngine.extension_of file_path = lit "pdf".
Proof.
  destruct (save_uploaded_file ascii_isalnum (lit "/tmp") sample_uuid
              (upload "Annual Report.v2.PDF" (lit "%PDF-1.7")) 0
              Scenario.no_file_world initial) as [[e|[file_path content]] s'] eqn:E;
    [vm_compute in E; discriminate|].
  assert (Hname : upload_filename (upload "Annual Report.v2.PDF" (lit "%PDF-1.7"))
                  = Some (lit "Annual Report.v2.PDF")) by reflexivity.
  assert (Hslash : ~ In SLASH (lit "Annual Report.v2.PDF"))
    by (vm_compute; intuition discriminate).
  assert (Hdot : forall rest, lit "Annual Report.v2.PDF" <> DOT :: rest)
    by (intros rest; vm_compute; discriminate).
  assert (Hid : ~ In SLASH sample_uuid) by (vm_compute; intuition discriminate).
  assert (Hidd : ~ In DOT sample_uuid) by (vm_compute; intuition discriminate).
  destruct (saved_file_keeps_the_extension _ _ _ _ _ _ _ _ _ _ _
              Hname Hslash Hdot Hid Hidd E) as [Hs Hx].
  exists file_path, content, s'. split; [reflexivity|].
  rewrite Hs, Hx. split; reflexivity.
Defined.

Example save_uploaded_file_demo :
  fst (save_uploaded_file ascii_isalnum (lit "/tmp") sample_uuid
         (upload "notes.txt" (lit "payload")) 0 Scenario.unreadable_world initial)
  = inl Scenario.name_too_long.
Proof. vm_compute. reflexivity. Qed.
